(** * Documentation-Hub-Website: key flattening, key resolution and template
    substitution

    A shallow embedding of [src/utils.py] and [src/main.py].

    Conventions of the embedding.
    - A Python [str] is a [string]; every [ascii] stands for the code point of
      the same number (the code points 0..255).  Comparison of strings is
      comparison of code points, position by position.
    - A value loaded from a YAML document is a [value]; a Python [dict] is an
      association list in insertion order.
    - A Python exception is a constructor of [exn]; code that may raise
      returns a [result].
    - Code that reads or writes the file system, the console or the module
      globals runs in the state monad [M] over [state].
    - What the interpreter and its library decide, and the source does not,
      is left open in [Interpreter]: how deep a value may be nested for
      [str] to convert it, the text of the exception raised beyond that
      depth, and the copy of a directory tree.
    - The platform is POSIX with UTF-8 as the encoding of text files: text
      is written as it is, and every text can be written.  Reading
      translates the ends of lines, as [open(path, 'r')] does. *)

From Stdlib Require Import String Ascii List ZArith Bool Lia Arith.
From Stdlib Require Import Sorting.Sorted Sorting.Permutation.
From Stdlib Require Import Structures.OrdersEx Classes.RelationClasses.
From Stdlib Require Import Numbers.DecimalString.
From Equations Require Import Equations.
From Equations.Prop Require Import Logic.
Import ListNotations.

Open Scope list_scope.
Open Scope string_scope.

(* ================================================================== *)
(** ** Python's string operations *)
(* ================================================================== *)

Module Py.

(** [c.isspace()] for a single character of the range 0..255. *)
Definition isspace (c : ascii) : bool :=
  let n := nat_of_ascii c in
  (((9 <=? n) && (n <=? 13)) || ((28 <=? n) && (n <=? 32))
   || (n =? 133) || (n =? 160))%nat.

(** [s.lstrip(chars)], with the set [chars] given as a predicate. *)
Fixpoint lstrip_by (p : ascii -> bool) (s : string) : string :=
  match s with
  | EmptyString => EmptyString
  | String c s' => if p c then lstrip_by p s' else s
  end.

(** [s.rstrip(chars)]. *)
Fixpoint rstrip_by (p : ascii -> bool) (s : string) : string :=
  match s with
  | EmptyString => EmptyString
  | String c s' =>
      match rstrip_by p s' with
      | EmptyString => if p c then EmptyString else String c EmptyString
      | r => String c r
      end
  end.

(** [s.strip(chars)]. *)
Definition strip_by (p : ascii -> bool) (s : string) : string :=
  rstrip_by p (lstrip_by p s).

(** [s.strip()]. *)
Definition strip (s : string) : string := strip_by isspace s.

(** [s.strip('.')]. *)
Definition is_dot (c : ascii) : bool := Ascii.eqb c ".".
Definition strip_dots (s : string) : string := strip_by is_dot s.

(** [s.split(sep)] for a separator of one character: always at least one
    piece. *)
Fixpoint split (sep : ascii) (s : string) : list string :=
  match s with
  | EmptyString => [EmptyString]
  | String c s' =>
      if Ascii.eqb c sep then EmptyString :: split sep s'
      else match split sep s' with
           | [] => [String c EmptyString]
           | piece :: pieces => String c piece :: pieces
           end
  end.

(** [sep.join(parts)]. *)
Definition join (sep : string) (parts : list string) : string :=
  String.concat sep parts.

(** [s.find(c)] for a string [c] of one character: the index of the first
    occurrence, or -1. *)
Fixpoint find_char (c : ascii) (s : string) : Z :=
  match s with
  | EmptyString => (-1)%Z
  | String c' s' =>
      if Ascii.eqb c' c then 0%Z
      else let i := find_char c s' in
           if (i <? 0)%Z then (-1)%Z else (i + 1)%Z
  end.

(** [s[:i]]: a negative [i] counts from the end. *)
Definition slice_to (s : string) (i : Z) : string :=
  let n := Z.of_nat (String.length s) in
  let stop := if (i <? 0)%Z then Z.max 0 (n + i) else Z.min i n in
  String.substring 0 (Z.to_nat stop) s.

(** [s[i:]] for [0 <= i]. *)
Fixpoint drop (n : nat) (s : string) : string :=
  match n, s with
  | S n', String _ s' => drop n' s'
  | _, _ => s
  end.

(** [s.rfind(c)] for a string [c] of one character: the index of the last
    occurrence, or -1. *)
Fixpoint rfind_char (c : ascii) (s : string) : Z :=
  match s with
  | EmptyString => (-1)%Z
  | String c' s' =>
      let i := rfind_char c s' in
      if (i <? 0)%Z then (if Ascii.eqb c' c then 0%Z else (-1)%Z)
      else (i + 1)%Z
  end.

(** [old in s]. *)
Fixpoint contains (old s : string) : bool :=
  String.prefix old s ||
  match s with
  | EmptyString => false
  | String _ s' => contains old s'
  end.

(** [s.replace(old, new)] for a non-empty [old]: the occurrences are found
    from the left and do not overlap.  [skip] counts the characters of the
    occurrence just replaced that are still to be passed over. *)
Fixpoint replace_scan (old new : string) (skip : nat) (s : string) : string :=
  match s with
  | EmptyString => EmptyString
  | String c s' =>
      match skip with
      | S k => replace_scan old new k s'
      | O => if String.prefix old s
             then new ++ replace_scan old new (String.length old - 1) s'
             else String c (replace_scan old new 0 s')
      end
  end.

(** [s.replace(old, new)] for an empty [old]: [new] goes before every
    character and at the end. *)
Fixpoint intersperse (new s : string) : string :=
  match s with
  | EmptyString => new
  | String c s' => new ++ String c (intersperse new s')
  end.

Definition replace (old new s : string) : string :=
  match old with
  | EmptyString => intersperse new s
  | _ => replace_scan old new 0 s
  end.

(** The text that [open(path, 'r').read()] makes of the text of a file:
    a carriage return with the line feed after it, and a carriage return
    alone, are read as one line feed. *)
Fixpoint universal_newlines (s : string) : string :=
  match s with
  | EmptyString => EmptyString
  | String c s' =>
      if Ascii.eqb c "013"
      then String "010"
             match s' with
             | EmptyString => EmptyString
             | String c' s'' =>
                 if Ascii.eqb c' "010" then universal_newlines s''
                 else universal_newlines s'
             end
      else String c (universal_newlines s')
  end.

(** [c.lower()] in the range 0..255: A..Z and the capital letters of
    Latin-1 (0xC0..0xDE without 0xD7) move up by 32. *)
Definition lower_char (c : ascii) : ascii :=
  let n := nat_of_ascii c in
  if (((65 <=? n) && (n <=? 90))
      || ((192 <=? n) && (n <=? 222) && negb (n =? 215)))%nat
  then ascii_of_nat (n + 32) else c.

Fixpoint lower (s : string) : string :=
  match s with
  | EmptyString => EmptyString
  | String c s' => String (lower_char c) (lower s')
  end.

(** Order of strings, as [list.sort()] compares them. *)
Definition leb (a b : string) : bool :=
  match String_as_OT.compare a b with
  | Gt => false
  | _ => true
  end.

Fixpoint insert_sorted (x : string) (l : list string) : list string :=
  match l with
  | [] => [x]
  | y :: l' => if leb x y then x :: l else y :: insert_sorted x l'
  end.

(** [l.sort()] on a list of strings.  The order is total, so every sorting
    procedure returns the same list. *)
Fixpoint sort (l : list string) : list string :=
  match l with
  | [] => []
  | x :: l' => insert_sorted x (sort l')
  end.

End Py.

(* ================================================================== *)
(** ** Values, exceptions and results *)
(* ================================================================== *)

(** A key of a mapping of a YAML document.  The annotations of the source
    promise [str] keys; the flattener also meets [None] and other scalars,
    and treats them apart. *)
Inductive pykey : Type :=
| KStr (s : string)
| KInt (z : Z)
| KBool (b : bool)
| KNone.

(** A loaded YAML value.  Floats, dates and byte strings are left out: the
    code treats them as it treats the integers, as values that are neither
    [str], nor [None], nor [dict]. *)
#[warnings="-register-all"] Inductive value : Type :=
| VStr (s : string)
| VInt (z : Z)
| VBool (b : bool)
| VNone
| VList (items : list value)
| VDict (items : list (pykey * value)).

(** The exceptions the modelled code raises.  [SystemExit] is what
    [sys.exit] raises; it is not an [Exception]. *)
Inductive exn : Type :=
| TypeError
| ValueError
| KeyError
| AttributeError
| RecursionError
| UnicodeDecodeError
| FileNotFoundError
| PermissionError
| IsADirectoryError
| OSError
| YAMLError
| SystemExit (code : Z).

Inductive result (A : Type) : Type :=
| Ok (a : A)
| Raise (e : exn).
Arguments Ok {A} a.
Arguments Raise {A} e.

Definition bind_result {A B : Type} (r : result A) (k : A -> result B)
  : result B :=
  match r with
  | Ok a => k a
  | Raise e => Raise e
  end.

(** [isinstance(e, Exception)]. *)
Definition is_Exception (e : exn) : bool :=
  match e with
  | SystemExit _ => false
  | _ => true
  end.

(** [[f(a) for a in l]], stopping at the first [a] on which [f] raises. *)
Fixpoint map_result {A B : Type} (f : A -> result B) (l : list A)
  : result (list B) :=
  match l with
  | [] => Ok []
  | a :: l' =>
      bind_result (f a)
        (fun b => bind_result (map_result f l') (fun bs => Ok (b :: bs)))
  end.

(** Equality of keys.  The code looks mappings up with [str] segments
    only, which equal no key of another type. *)
Definition pykey_eqb (a b : pykey) : bool :=
  match a, b with
  | KStr s, KStr t => String.eqb s t
  | KInt x, KInt y => Z.eqb x y
  | KBool x, KBool y => Bool.eqb x y
  | KNone, KNone => true
  | _, _ => false
  end.

(** [isinstance(v, dict)]. *)
Definition is_dict (v : value) : bool :=
  match v with
  | VDict _ => true
  | _ => false
  end.

(** Truth value of a key and of a value ([if p:], [if data:]). *)
Definition key_truthy (k : pykey) : bool :=
  match k with
  | KStr s => negb (String.eqb s "")
  | KInt z => negb (Z.eqb z 0)
  | KBool b => b
  | KNone => false
  end.

Definition truthy (v : value) : bool :=
  match v with
  | VStr s => negb (String.eqb s "")
  | VInt z => negb (Z.eqb z 0)
  | VBool b => b
  | VNone => false
  | VList l => match l with [] => false | _ => true end
  | VDict d => match d with [] => false | _ => true end
  end.

(** [d.get(k)] on the association list: the first binding of [k]. *)
Fixpoint dict_get (d : list (pykey * value)) (k : pykey) : option value :=
  match d with
  | [] => None
  | (k', v) :: d' => if pykey_eqb k' k then Some v else dict_get d' k
  end.

(** [k in d]. *)
Definition dict_mem (d : list (pykey * value)) (k : pykey) : bool :=
  existsb (fun kv => pykey_eqb (fst kv) k) d.

(** [i in data] for a [str] [i], where [data] is known to be a [dict]. *)
Definition py_in (i : string) (data : value) : bool :=
  match data with
  | VDict d => dict_mem d (KStr i)
  | _ => false
  end.

(** [data[i]] for a [str] [i]. *)
Definition py_getitem (data : value) (i : string) : result value :=
  match data with
  | VDict d =>
      match dict_get d (KStr i) with
      | Some v => Ok v
      | None => Raise KeyError
      end
  | _ => Raise TypeError
  end.

(** *** Files and the interpreter *)

(** What stands at a path: a regular file that holds text, a regular file
    whose bytes are not text in the encoding in force, or a directory. *)
Inductive content : Type :=
| Text (text : string)
| Binary
| Directory.

Coercion Text : string >-> content.

(** An entry of the file system: what stands there and whether the process
    may open it for reading and for writing.  A directory is listed when a
    run may meet it at a path that it takes for a file; the directories
    above the entries listed need not be.  Failing devices and full disks
    are not modelled. *)
Record file : Type := mk_file {
  f_content : content;
  f_readable : bool;
  f_writable : bool
}.

(** What is left to the interpreter and its library. *)
Class Interpreter : Type := {
  (** Levels of nesting that [str] and [repr] can still enter where the
      program calls them; a value nested deeper raises [RecursionError]. *)
  repr_depth : nat;
  (** [str(e)] of that [RecursionError]. *)
  recursion_text : string;
  (** [source.copy(target)] of [pathlib] on a directory [source]: the
      files it leaves, and the exception it raises if any. *)
  copy_tree : string -> string -> list (string * file) ->
              result unit * list (string * file)
}.

(** *** [str] and [repr] *)

Definition hex_digit (n : nat) : ascii :=
  ascii_of_nat (if (n <? 10)%nat then 48 + n else 87 + n).

(** The [\xHH] escape of [repr]. *)
Definition hex_escape (c : ascii) : string :=
  let n := nat_of_ascii c in
  String "\" (String "x" (String (hex_digit (n / 16))
                            (String (hex_digit (n mod 16)) EmptyString))).

(** Printable characters above 0x7F within 0..255. *)
Definition printable_high (n : nat) : bool :=
  ((161 <=? n) && negb (n =? 173))%nat.

Definition repr_char (quote c : ascii) : string :=
  let n := nat_of_ascii c in
  if Ascii.eqb c quote || Ascii.eqb c "\" then String "\" (String c EmptyString)
  else if (n =? 9)%nat then "\t"
  else if (n =? 10)%nat then "\n"
  else if (n =? 13)%nat then "\r"
  else if ((n <? 32) || (n =? 127))%nat then hex_escape c
  else if (n <? 127)%nat then String c EmptyString
  else if printable_high n then String c EmptyString
  else hex_escape c.

Fixpoint repr_chars (quote : ascii) (s : string) : string :=
  match s with
  | EmptyString => EmptyString
  | String c s' => repr_char quote c ++ repr_chars quote s'
  end.

Definition double_quote : ascii := ascii_of_nat 34.

Definition has_char (c : ascii) (s : string) : bool :=
  negb (Z.ltb (Py.find_char c s) 0).

(** [repr(s)] of a [str]: single quotes, unless the text has a single quote
    and no double quote. *)
Definition repr_str (s : string) : string :=
  let quote : ascii :=
    if has_char "'" s && negb (has_char double_quote s)
    then double_quote else "'"%char in
  String quote (repr_chars quote s ++ String quote EmptyString).

(** [sys.get_int_max_str_digits()], which the program leaves at its
    default. *)
Definition int_max_str_digits : nat := 4300.

(** [str(z)] and [repr(z)] of an [int]: [ValueError] when the decimal form
    has more than 4300 digits. *)
Definition str_int (z : Z) : result string :=
  let text := NilZero.string_of_int (Z.to_int z) in
  let digits :=
    if (z <? 0)%Z then String.length text - 1 else String.length text in
  if (int_max_str_digits <? digits)%nat then Raise ValueError else Ok text.

Definition str_bool (b : bool) : string := if b then "True" else "False".

(** [repr(k)] of a key, [depth] levels of nesting being left. *)
Definition repr_key (depth : nat) (k : pykey) : result string :=
  match depth with
  | O => Raise RecursionError
  | S _ =>
      match k with
      | KStr s => Ok (repr_str s)
      | KInt z => str_int z
      | KBool b => Ok (str_bool b)
      | KNone => Ok "None"
      end
  end.

(** [repr(v)], [depth] levels of nesting being left: the items of a list
    and the keys and values of a mapping are converted in order, one level
    further in, and the first exception ends the conversion. *)
Fixpoint repr (depth : nat) (v : value) : result string :=
  match depth with
  | O => Raise RecursionError
  | S depth' =>
      match v with
      | VStr s => Ok (repr_str s)
      | VInt z => str_int z
      | VBool b => Ok (str_bool b)
      | VNone => Ok "None"
      | VList l =>
          bind_result (map_result (repr depth') l)
            (fun parts => Ok ("[" ++ Py.join ", " parts ++ "]"))
      | VDict d =>
          bind_result
            (map_result
               (fun kv =>
                  bind_result (repr_key depth' (fst kv))
                    (fun k =>
                       bind_result (repr depth' (snd kv))
                         (fun v => Ok (k ++ ": " ++ v))))
               d)
            (fun parts => Ok ("{" ++ Py.join ", " parts ++ "}"))
      end
  end.

(** [str(v)]. *)
Definition py_str `{Interpreter} (v : value) : result string :=
  match v with
  | VStr s => Ok s
  | _ => repr repr_depth v
  end.

(** [str(e)] of the exceptions that [str] raises. *)
Definition exn_text `{Interpreter} (e : exn) : string :=
  match e with
  | ValueError =>
      "Exceeds the limit (4300 digits) for integer string conversion; use sys.set_int_max_str_digits() to increase the limit"
  | RecursionError => recursion_text
  | _ => ""
  end.

(* ================================================================== *)
(** ** [utils.py]: keys *)
(* ================================================================== *)

(** [split_key_by_dot(key)]. *)
Definition split_key_by_dot (key : string) : list string :=
  if String.eqb key "" then []
  else
    let key := Py.strip key in
    if String.eqb key "" then []
    else
      map Py.strip
        (filter (fun part => negb (String.eqb (Py.strip part) ""))
           (Py.split "." key)).

(** The [for] loop of [merge_args_to_key]; [processed_parts] is the list
    built so far. *)
Fixpoint merge_args_loop (args : list pykey) (processed_parts : list string)
  : result (list string) :=
  match args with
  | [] => Ok processed_parts
  | i :: args' =>
      match i with
      | KStr s =>
          let part := Py.strip_dots (Py.strip s) in
          if String.eqb part "" then merge_args_loop args' processed_parts
          else merge_args_loop args' (processed_parts ++ [part])%list
      | _ => Raise TypeError
      end
  end.

(** [merge_args_to_key], applied to the tuple [args]. *)
Definition merge_args_to_key (args : list pykey) : result string :=
  bind_result (merge_args_loop args [])
    (fun processed_parts => Ok (Py.join "." processed_parts)).

(** [get_template_text(mode, key)]. *)
Definition get_template_text (mode key : string) : result string :=
  if negb (String.eqb mode "i18n") && negb (String.eqb mode "env")
  then Raise TypeError
  else Ok (mode ++ ":" ++ key).

(** The body of the [try] of [get_actual_content], after the key has been
    split: the [for] loop over the segments and the conversion of the value
    it ends on. *)
Fixpoint get_actual_content_walk `{Interpreter} (args : list string)
  (data : value) (fallback : string) : result string :=
  match args with
  | [] =>
      match data with
      | VStr s => Ok s
      | VNone => Ok fallback
      | _ => py_str data
      end
  | i :: args' =>
      if is_dict data && py_in i data
      then bind_result (py_getitem data i)
             (fun data' => get_actual_content_walk args' data' fallback)
      else Ok fallback
  end.

(** *** [load_keys]: the traversal *)

Definition is_None (k : pykey) : bool :=
  match k with
  | KNone => true
  | _ => false
  end.

(** The stack of [load_keys]: pairs of a key path and the mapping found
    there.  The head of the list is the top of the stack, the end of the
    Python list. *)
Definition stack_t : Type := list (list pykey * value).

(** The [for k, v in key_data.items()] loop of [load_keys]. *)
Fixpoint load_keys_items (key_path : list pykey) (items : list (pykey * value))
  (stack : stack_t) (keys : list string) : result (stack_t * list string) :=
  match items with
  | [] => Ok (stack, keys)
  | (k, v) :: items' =>
      let new_key_path := (key_path ++ [k])%list in
      if is_dict v
      then load_keys_items key_path items' ((new_key_path, v) :: stack) keys
      else
        match new_key_path with
        | [] => load_keys_items key_path items' stack keys
        | _ =>
            let processed_parts :=
              filter (fun p => negb (is_None p) && key_truthy p) new_key_path in
            bind_result (merge_args_to_key processed_parts)
              (fun key =>
                 load_keys_items key_path items' stack (keys ++ [key])%list)
        end
  end.

(** Number of mappings nested in a value through mappings: the number of
    stack entries the traversal of the value pops. *)
Fixpoint dict_nodes (v : value) : nat :=
  match v with
  | VDict items => S (list_sum (map (fun kv => dict_nodes (snd kv)) items))
  | _ => 0
  end.

Definition stack_nodes (stack : stack_t) : nat :=
  list_sum (map (fun e => dict_nodes (snd e)) stack).

(** The [while stack:] loop of [load_keys].  [.items()] of a value that is
    not a mapping raises [AttributeError]. *)
Equations? load_keys_loop (stack : stack_t) (keys : list string)
  : result (list string) by wf (stack_nodes stack) lt :=
  load_keys_loop [] keys := Ok keys;
  load_keys_loop ((key_path, VDict items) :: stack') keys
    with inspect (load_keys_items key_path items stack' keys) => {
    | exist _ (Ok (stack'', keys')) _ := load_keys_loop stack'' keys';
    | exist _ (Raise e) _ := Raise e };
  load_keys_loop ((key_path, _) :: stack') keys := Raise AttributeError.
Proof.
  assert (Hitems : forall its st ks st' ks',
             load_keys_items key_path its st ks = Ok (st', ks') ->
             stack_nodes st' =
             stack_nodes st
             + list_sum (map (fun kv => dict_nodes (snd kv)) its)).
  { induction its as [|[k v] its IH]; intros st ks st' ks' H; simpl in H.
    - injection H as <- <-. simpl. lia.
    - destruct (is_dict v) eqn:Hd.
      + apply IH in H. rewrite H. unfold stack_nodes. simpl. lia.
      + assert (Hv : dict_nodes v = 0)
          by (destruct v; try reflexivity; discriminate).
        destruct (key_path ++ [k])%list eqn:Hp.
        * apply IH in H. rewrite H. simpl. lia.
        * destruct (merge_args_to_key _); simpl in H; [|discriminate].
          apply IH in H. rewrite H. simpl. lia. }
  apply Hitems in e. rewrite e. unfold stack_nodes. simpl. lia.
Qed.

(** The removal of duplicates of [load_keys]; [seen] is a set, of which only
    membership is used. *)
Fixpoint unique_loop (keys : list string) (seen unique_keys : list string)
  : list string :=
  match keys with
  | [] => unique_keys
  | i :: keys' =>
      if existsb (String.eqb i) seen
      then unique_loop keys' seen unique_keys
      else unique_loop keys' (i :: seen) (unique_keys ++ [i])%list
  end.

(** [load_keys], from the loaded [data] on: traversal, removal of
    duplicates, sorting. *)
Definition load_keys_data (data : value) : result (list string) :=
  bind_result (load_keys_loop [([], data)] [])
    (fun keys => Ok (Py.sort (unique_loop keys [] []))).

(** [get_string_removed_dot_and_after(string)]. *)
Definition get_string_removed_dot_and_after (string : String.string)
  : String.string :=
  let index := Py.find_char "." string in
  if (index <=? 0)%Z then "" else Py.slice_to string index.

(* ================================================================== *)
(** ** The state of a run and its monad *)
(* ================================================================== *)

(** What a run does to the outside, in order. *)
Inductive event : Type :=
| Printed (line : string)
| FileRead (path : string)
| FileWritten (path content : string)
| FileCopied (source target : string).

(** Modelled from the spec: the module [runtime], which [utils.py] and
    [main.py] import and whose source is not among the files, is the
    Content Registry: per language identifier its nested map and its
    flattened key list, and the environment map with its key list.  The
    fields are the four variables of the module the code names; what they
    hold at the start of a run is left open. *)
Record runtime : Type := mk_runtime {
  DATA_ENV : value;
  DATA_ENV_KEYS : list string;
  DATA_I18N : list (string * value);
  DATA_I18N_TRKEYS : list (string * list string)
}.

(** The globals of [main.py] that change, the registry, the files, and the
    trace of events. *)
Record state : Type := mk_state {
  st_runtime : runtime;
  LANG_LIST : list string;
  HTML_COPIED_FILE_NAME : string;
  HTML_COPIED_FILE : string;
  st_files : list (string * file);
  st_log : list event
}.

Definition LANG_FOLDER : string := "lang".
Definition ENV_CFG : string := "env.yml".
Definition HTML_TEMPLATE_FILE_NAME : string := "index.template.html".
Definition HTML_TEMPLATE_FILE : string := HTML_TEMPLATE_FILE_NAME.

Definition M (A : Type) : Type := state -> result A * state.

Definition ret {A : Type} (a : A) : M A := fun st => (Ok a, st).

Definition bind {A B : Type} (m : M A) (k : A -> M B) : M B :=
  fun st =>
    match m st with
    | (Ok a, st') => k a st'
    | (Raise e, st') => (Raise e, st')
    end.

Definition raise {A : Type} (e : exn) : M A := fun st => (Raise e, st).

Definition lift {A : Type} (r : result A) : M A := fun st => (r, st).

Definition gets {A : Type} (f : state -> A) : M A := fun st => (Ok (f st), st).

Definition modify (f : state -> state) : M unit := fun st => (Ok tt, f st).

Declare Scope monad_scope.
Delimit Scope monad_scope with monad.
Notation "x <- m ;; k" := (bind m (fun x => k))
  (at level 61, m at next level, right associativity) : monad_scope.
Notation "m ;; k" := (bind m (fun _ => k))
  (at level 61, right associativity) : monad_scope.
Open Scope monad_scope.

(** [try: body  except Exception as e: handler]. *)
Definition try_except_Exception {A : Type} (body : M A)
  (handler : exn -> M A) : M A :=
  fun st =>
    match body st with
    | (Raise e, st') =>
        if is_Exception e then handler e st' else (Raise e, st')
    | other => other
    end.

(** [try: body  except PermissionError: handler]. *)
Definition try_except_PermissionError {A : Type} (body : M A) (handler : M A)
  : M A :=
  fun st =>
    match body st with
    | (Raise PermissionError, st') => handler st'
    | other => other
    end.

(** [for i in l: body(i)]. *)
Fixpoint for_each {A : Type} (l : list A) (body : A -> M unit) : M unit :=
  match l with
  | [] => ret tt
  | i :: l' => body i ;; for_each l' body
  end.

(** The state after one more event. *)
Definition log_event (ev : event) (st : state) : state :=
  mk_state (st_runtime st) (LANG_LIST st) (HTML_COPIED_FILE_NAME st)
    (HTML_COPIED_FILE st) (st_files st) (st_log st ++ [ev])%list.

Definition emit (ev : event) : M unit := modify (log_event ev).

(** [print(line)]. *)
Definition print (line : string) : M unit := emit (Printed line).

(** *** Files *)

Fixpoint lookup {A : Type} (l : list (string * A)) (k : string) : option A :=
  match l with
  | [] => None
  | (k', a) :: l' => if String.eqb k' k then Some a else lookup l' k
  end.

(** [l[k] = a] on a mapping with [str] keys: the binding is replaced where
    it stands, or added at the end. *)
Fixpoint update {A : Type} (l : list (string * A)) (k : string) (a : A)
  : list (string * A) :=
  match l with
  | [] => [(k, a)]
  | (k', a') :: l' =>
      if String.eqb k' k then (k, a) :: l' else (k', a') :: update l' k a
  end.

(** The state with other files. *)
Definition with_files (fs : list (string * file)) (st : state) : state :=
  mk_state (st_runtime st) (LANG_LIST st) (HTML_COPIED_FILE_NAME st)
    (HTML_COPIED_FILE st) fs (st_log st).

Definition set_files (fs : list (string * file)) : M unit :=
  modify (with_files fs).

(** [path.exists()]. *)
Definition path_exists (path : string) : M bool :=
  gets (fun st => match lookup (st_files st) path with
                  | Some _ => true
                  | None => false
                  end).

(** [path.is_dir()]. *)
Definition path_is_dir (path : string) : M bool :=
  gets (fun st => match lookup (st_files st) path with
                  | Some (mk_file Directory _ _) => true
                  | _ => false
                  end).

(** What reading a file as text gives: the text with its ends of lines
    translated, or the exception of a content that is no text. *)
Definition read_text (c : content) : result string :=
  match c with
  | Text text => Ok (Py.universal_newlines text)
  | Binary => Raise UnicodeDecodeError
  | Directory => Raise IsADirectoryError
  end.

(** [with open(path, 'r') as f: f.read()].  A directory is refused when it
    is opened, a content that does not decode when it is read. *)
Definition read_file (path : string) : M string :=
  fs <- gets st_files ;;
  match lookup fs path with
  | None => raise FileNotFoundError
  | Some f =>
      if negb (f_readable f) then raise PermissionError
      else
        match f_content f with
        | Directory => raise IsADirectoryError
        | c => emit (FileRead path) ;; lift (read_text c)
        end
  end.

(** [with open(path, 'w') as f: f.write(content)]. *)
Definition write_file (path content : string) : M unit :=
  fs <- gets st_files ;;
  match lookup fs path with
  | None =>
      set_files (update fs path (mk_file content true true)) ;;
      emit (FileWritten path content)
  | Some f =>
      match f_content f with
      | Directory => raise IsADirectoryError
      | _ =>
          if f_writable f
          then set_files (update fs path
                            (mk_file content (f_readable f) (f_writable f))) ;;
               emit (FileWritten path content)
          else raise PermissionError
      end
  end.

(** The final component of a path, and its suffix as [pathlib] of
    Python 3.14 gives it ([Path.copy] and [Path.move], which [main.py] uses,
    came with that version): the text from the last dot on, when something
    other than dots stands before that dot. *)
Definition path_name (path : string) : string :=
  last (Py.split "/" path) "".

Definition path_suffix (path : string) : string :=
  let name := path_name path in
  let i := Py.rfind_char "." name in
  if (i <? 0)%Z then ""
  else
    let stem := Py.slice_to name i in
    if String.eqb (Py.lstrip_by Py.is_dot stem) "" then ""
    else Py.drop (Z.to_nat i) name.

(** [i.is_file()] of an entry. *)
Definition is_file (f : file) : bool :=
  match f_content f with
  | Directory => false
  | _ => true
  end.

(** [path.is_file()]: something stands at [path], and it is no
    directory. *)
Definition is_file_at (fs : list (string * file)) (path : string) : bool :=
  match lookup fs path with
  | Some f => is_file f
  | None => false
  end.

(** [directory.iterdir()], kept to the entries [i] with [i.is_file()]: the
    paths of the files that stand in [directory] itself.  The order in
    which a directory is listed is not fixed; [get_languages] sorts what it
    collects. *)
Definition iterdir_files (directory : string) (fs : list (string * file))
  : list string :=
  filter
    (fun i =>
       String.prefix (directory ++ "/") i
       && negb (has_char "/" (Py.drop (String.length directory + 1) i))
       && is_file_at fs i)
    (map fst fs).

(** The list [get_languages] returns, from the files present: nothing when
    [directory] is a file and no directory.  A directory need not be an
    entry of its own: it is there when an entry stands in it. *)
Definition languages_of (directory : string) (fs : list (string * file))
  : list string :=
  if is_file_at fs directory then []
  else
    Py.sort
      (map path_name
         (filter
            (fun i =>
               let suffix := Py.lower (path_suffix i) in
               String.eqb suffix ".yml" || String.eqb suffix ".yaml")
            (iterdir_files directory fs))).

(** [get_languages(directory)]. *)
Definition get_languages (directory : string) : M (list string) :=
  gets (fun st => languages_of directory (st_files st)).

(* ================================================================== *)
(** ** [utils.py]: contents and substitution *)
(* ================================================================== *)

(** [v.copy()]: mappings and lists have it. *)
Definition py_copy (v : value) : result value :=
  match v with
  | VDict d => Ok (VDict d)
  | VList l => Ok (VList l)
  | _ => Raise AttributeError
  end.

(** [get_actual_content(key, data, fallback)]: when the conversion of the
    value raises, the handler prints a line and returns the fallback. *)
Definition get_actual_content `{Interpreter} (key : string) (data : value)
  (fallback : string) : M string :=
  let args := split_key_by_dot key in
  try_except_Exception
    (lift (get_actual_content_walk args data fallback))
    (fun e =>
       print ("DBG: Error accessing key " ++ key ++ ": " ++ exn_text e) ;;
       ret fallback).

(** [get_actual_env_content(key, data)]; [data] is [VNone] when the caller
    leaves it out. *)
Definition get_actual_env_content `{Interpreter} (key : string)
  (data : value) : M string :=
  _fallback <- lift (get_template_text "env" key) ;;
  _data <- gets (fun st => DATA_ENV (st_runtime st)) ;;
  _data <- (if truthy data then ret data else lift (py_copy _data)) ;;
  get_actual_content key _data _fallback.

(** [get_actual_i18n_content(key, lang_file, data)]. *)
Definition get_actual_i18n_content `{Interpreter} (key lang_file : string)
  (data : value) : M string :=
  _fallback <- lift (get_template_text "i18n" key) ;;
  registry <- gets (fun st => DATA_I18N (st_runtime st)) ;;
  _data <- match lookup registry lang_file with
           | Some d => ret d
           | None => raise KeyError
           end ;;
  _data <- (if truthy data then ret data else lift (py_copy _data)) ;;
  get_actual_content key _data _fallback.

(** [replace_text_in_file(file_path, new_text, old_text,
    ignore_format_warning)]. *)
Definition replace_text_in_file (file_path new_text old_text : string)
  (ignore_format_warning : bool) : M unit :=
  let path := file_path in
  present <- path_exists path ;;
  if negb present
  then print ("Target file `" ++ path ++ "` not exists!")
  else
    if negb ignore_format_warning
       && negb (Py.contains "html" (Py.lower (path_suffix path)))
    then
      print "WARN: The target file is not an HTMl file!" ;;
      print "WARN: If you proceed, please ensure that the text file you're modifying will not cause any adverse effects after the changes." ;;
      print "Pass a boolean parameter set to True to confirm performing this action." ;;
      raise (SystemExit 255)
    else
      try_except_PermissionError
        (content <- read_file path ;;
         if negb (Py.contains old_text content) then ret tt
         else
           let new_content := Py.replace old_text new_text content in
           write_file path new_content)
        (print "ERR: Permission denied, check filesystem permissions.").

(* ================================================================== *)
(** ** [main.py] *)
(* ================================================================== *)

(** [source.copy(target=target)] of [pathlib]: the bytes of a regular
    file are copied as they are; the copy of a directory is the
    interpreter's. *)
Definition copy_file `{Interpreter} (source target : string) : M unit :=
  fs <- gets st_files ;;
  match lookup fs source with
  | None => raise FileNotFoundError
  | Some f =>
      if String.eqb source target then raise OSError
      else
        match f_content f with
        | Directory =>
            match copy_tree source target fs with
            | (Ok _, fs') =>
                set_files fs' ;; emit (FileCopied source target)
            | (Raise e, fs') => set_files fs' ;; raise e
            end
        | _ =>
            if negb (f_readable f) then raise PermissionError
            else
              match lookup fs target with
              | Some g =>
                  match f_content g with
                  | Directory => raise IsADirectoryError
                  | _ =>
                      if f_writable g
                      then set_files (update fs target
                             (mk_file (f_content f) (f_readable g)
                                (f_writable g))) ;;
                           emit (FileCopied source target)
                      else raise PermissionError
                  end
              | None =>
                  set_files (update fs target
                               (mk_file (f_content f) true true)) ;;
                  emit (FileCopied source target)
              end
        end
  end.

(** The assignments to [HTML_COPIED_FILE_NAME] and [HTML_COPIED_FILE]. *)
Definition set_copied_file (name : string) : M unit :=
  modify (fun st =>
    mk_state (st_runtime st) (LANG_LIST st) name name
      (st_files st) (st_log st)).

(** [on_user_input()]; [user_input] is the line typed at the prompt. *)
Definition on_user_input `{Interpreter} (user_input : string) : M string :=
  langs <- gets LANG_LIST ;;
  (if negb (existsb (String.eqb user_input) langs)
   then print "The language file is not supported!" ;; raise (SystemExit 255)
   else ret tt) ;;
  print ("You selected language: " ++ user_input) ;;
  set_copied_file
    (Py.replace "template" (get_string_removed_dot_and_after user_input)
       HTML_TEMPLATE_FILE_NAME) ;;
  name <- gets HTML_COPIED_FILE_NAME ;;
  present <- path_exists name ;;
  (if present then print "WARN: You will overriding a present HTML file!"
   else ret tt) ;;
  target <- gets HTML_COPIED_FILE ;;
  copy_file HTML_TEMPLATE_FILE target ;;
  ret user_input.

(** [main(lang_file)]. *)
Definition main `{Interpreter} (lang_file : string) : M unit :=
  env_keys <- gets (fun st => DATA_ENV_KEYS (st_runtime st)) ;;
  for_each env_keys (fun i =>
    old_text <- lift (get_template_text "env" i) ;;
    new_text <- get_actual_env_content i VNone ;;
    target <- gets HTML_COPIED_FILE ;;
    replace_text_in_file target new_text old_text false) ;;
  print "Replaced environment texts!" ;;
  trkeys <- gets (fun st => DATA_I18N_TRKEYS (st_runtime st)) ;;
  i18n_keys <- match lookup trkeys lang_file with
               | Some l => ret l
               | None => raise KeyError
               end ;;
  for_each i18n_keys (fun i =>
    old_text <- lift (get_template_text "i18n" i) ;;
    new_text <- get_actual_i18n_content i lang_file VNone ;;
    target <- gets HTML_COPIED_FILE ;;
    replace_text_in_file target new_text old_text false) ;;
  print "Replaced i18n texts!".

(* ================================================================== *)
(** ** Loading: [load_data] and [load_keys] of [utils.py], [on_load] of
    [main.py] *)
(* ================================================================== *)

Section Loading.

(** The parser of [ruamel.yaml] with [typ='safe'], from the text of a file
    to the document, or to the error it raises. *)
Variable yaml_load : string -> result value.

(** [load_data(file_path)]. *)
Definition load_data (file_path : string) : M value :=
  present <- path_exists file_path ;;
  is_dir <- path_is_dir file_path ;;
  (if negb present || is_dir then raise TypeError else ret tt) ;;
  (let suffix := Py.lower (path_suffix file_path) in
   if negb (String.eqb suffix ".yml" || String.eqb suffix ".yaml")
   then raise TypeError else ret tt) ;;
  text <- read_file file_path ;;
  data <- lift (yaml_load text) ;;
  match data with
  | VNone => raise ValueError
  | _ => ret data
  end.

(** [load_keys(file_path)]. *)
Definition load_keys (file_path : string) : M (list string) :=
  present <- path_exists file_path ;;
  (if negb present then raise FileNotFoundError else ret tt) ;;
  data <- load_data file_path ;;
  lift (load_keys_data data).

Definition set_runtime (rt : runtime) : M unit :=
  modify (fun st =>
    mk_state rt (LANG_LIST st) (HTML_COPIED_FILE_NAME st)
      (HTML_COPIED_FILE st) (st_files st) (st_log st)).

Definition set_LANG_LIST (langs : list string) : M unit :=
  modify (fun st =>
    mk_state (st_runtime st) langs (HTML_COPIED_FILE_NAME st)
      (HTML_COPIED_FILE st) (st_files st) (st_log st)).

(** [on_load()] of [main.py]. *)
Definition on_load : M unit :=
  present <- path_exists ENV_CFG ;;
  (let env_cfg_status := if present then "ok." else "Err: no exists!" in
   print ("Checking env config: " ++ env_cfg_status)) ;;
  print "Detecting supported language files..." ;;
  langs <- get_languages LANG_FOLDER ;;
  set_LANG_LIST langs ;;
  langs <- gets LANG_LIST ;;
  for_each langs (fun i =>
    print ("- " ++ i) ;;
    data <- load_data (LANG_FOLDER ++ "/" ++ i) ;;
    rt <- gets st_runtime ;;
    set_runtime (mk_runtime (DATA_ENV rt) (DATA_ENV_KEYS rt)
                   (update (DATA_I18N rt) i data) (DATA_I18N_TRKEYS rt)) ;;
    keys <- load_keys (LANG_FOLDER ++ "/" ++ i) ;;
    rt <- gets st_runtime ;;
    set_runtime (mk_runtime (DATA_ENV rt) (DATA_ENV_KEYS rt)
                   (DATA_I18N rt) (update (DATA_I18N_TRKEYS rt) i keys))) ;;
  data <- load_data ENV_CFG ;;
  rt <- gets st_runtime ;;
  set_runtime (mk_runtime data (DATA_ENV_KEYS rt)
                 (DATA_I18N rt) (DATA_I18N_TRKEYS rt)) ;;
  keys <- load_keys ENV_CFG ;;
  rt <- gets st_runtime ;;
  set_runtime (mk_runtime (DATA_ENV rt) keys
                 (DATA_I18N rt) (DATA_I18N_TRKEYS rt)) ;;
  print "Loaded actual texts.".

End Loading.

(* ================================================================== *)
(** ** Notions used in the statements *)
(* ================================================================== *)

(** [path_to data ks v]: from [data], the keys [ks], one level of mapping
    for each, lead to [v]. *)
Inductive path_to : value -> list pykey -> value -> Prop :=
| path_last (d : list (pykey * value)) (k : pykey) (v : value) :
    In (k, v) d -> path_to (VDict d) [k] v
| path_step (d : list (pykey * value)) (k : pykey) (d' : value)
    (ks : list pykey) (v : value) :
    In (k, d') d -> path_to d' ks v -> path_to (VDict d) (k :: ks) v.

(** The dotted key the flattener writes for the key path [ks]. *)
Definition key_of_path (ks : list pykey) : result string :=
  merge_args_to_key (filter (fun p => negb (is_None p) && key_truthy p) ks).



Definition is_KStr (k : pykey) : bool :=
  match k with
  | KStr _ => true
  | _ => false
  end.

(** Every key of every mapping nested in [v] through mappings is a
    [str]. *)
Fixpoint str_keyed (v : value) : bool :=
  match v with
  | VDict d => forallb (fun kv => is_KStr (fst kv) && str_keyed (snd kv)) d
  | _ => true
  end.

(** A part that is not empty and has nothing to strip at its ends. *)
Definition trimmed (p : ascii -> bool) (s : string) : Prop :=
  s <> "" /\ Py.lstrip_by p s = s /\ Py.rstrip_by p s = s.

(** [same_but target st st']: from [st] to [st'] the registry, the
    language list and the names of the output file stay, and so does every
    file other than [target]. *)
Definition same_but (target : string) (st st' : state) : Prop :=
  st_runtime st' = st_runtime st
  /\ LANG_LIST st' = LANG_LIST st
  /\ HTML_COPIED_FILE_NAME st' = HTML_COPIED_FILE_NAME st
  /\ HTML_COPIED_FILE st' = HTML_COPIED_FILE st
  /\ forall path, path <> target ->
                  lookup (st_files st') path = lookup (st_files st) path.

(** A key that the flattener keeps for the dotted key but cannot join: it
    counts as true and is not a [str] (an integer other than zero, or
    [True]). *)
Definition bad_key (k : pykey) : bool :=
  negb (is_None k) && key_truthy k && negb (is_KStr k).

(** From [st] to [st'] nothing but the trace has changed. *)
Definition only_trace (st st' : state) : Prop :=
  st_runtime st' = st_runtime st
  /\ LANG_LIST st' = LANG_LIST st
  /\ HTML_COPIED_FILE_NAME st' = HTML_COPIED_FILE_NAME st
  /\ HTML_COPIED_FILE st' = HTML_COPIED_FILE st
  /\ st_files st' = st_files st.

(** What stands at [path], if anything, can be read as text whenever it
    can be opened for reading: it is no directory and no file of bytes that
    do not decode. *)
Definition plain_at (path : string) (st : state) : Prop :=
  forall f, lookup (st_files st) path = Some f -> f_readable f = true ->
            exists text, f_content f = Text text.

(** The state is ready for a render in the language [lang_file]: the
    registry holds a mapping for the environment, a mapping and a key list
    for the language, the name of the output file has a suffix that holds
    [html], and the output file, if it is there and can be opened, is a
    text file. *)
Definition ready (lang_file : string) (st : state) : Prop :=
  is_dict (DATA_ENV (st_runtime st)) = true
  /\ (exists d keys,
        lookup (DATA_I18N (st_runtime st)) lang_file = Some d
        /\ is_dict d = true
        /\ lookup (DATA_I18N_TRKEYS (st_runtime st)) lang_file = Some keys)
  /\ Py.contains "html" (Py.lower (path_suffix (HTML_COPIED_FILE st))) = true
  /\ plain_at (HTML_COPIED_FILE st) st.

(** The computation returns from [st], changes at most the file [target]
    and the trace, and leaves [target] a text file if it was one. *)
Definition returns_at {A : Type} (target : string) (m : M A) (st : state)
  : Prop :=
  (exists a, fst (m st) = Ok a)
  /\ same_but target st (snd (m st))
  /\ plain_at target (snd (m st)).

(** The registry is in order for the language [lang]: it holds a map for
    it and a key list for it, and the key list is the flattening of the
    map. *)
Definition registry_ok (rt : runtime) (lang : string) : Prop :=
  exists d keys,
    lookup (DATA_I18N rt) lang = Some d
    /\ lookup (DATA_I18N_TRKEYS rt) lang = Some keys
    /\ load_keys_data d = Ok keys.

(** The ways a render may end: it returns, it misses a language or a key
    of the registry, it meets a registry entry that cannot be copied, it
    exits with status 255, or it meets an output file that is a directory
    or does not decode. *)
Definition render_outcome {A : Type} (r : result A) : Prop :=
  match r with
  | Ok _ => True
  | Raise e =>
      e = KeyError \/ e = AttributeError \/ e = SystemExit 255
      \/ e = IsADirectoryError \/ e = UnicodeDecodeError
  end.

(** A computation that, run where the output file is [target], changes at
    most the file [target] and the trace, and ends as a render may. *)
Definition contained {A : Type} (target : string) (m : M A) : Prop :=
  forall st,
    HTML_COPIED_FILE st = target ->
    same_but target st (snd (m st)) /\ render_outcome (fst (m st)).

(** A computation that leaves the language list and the files as they
    are. *)
Definition keeps_langs_and_files {A : Type} (m : M A) : Prop :=
  forall st,
    LANG_LIST (snd (m st)) = LANG_LIST st
    /\ st_files (snd (m st)) = st_files st.

(** Every entry of the stack is a mapping with [str] keys, under a path
    of [str] keys. *)
Definition stack_str_keyed (stack : stack_t) : Prop :=
  forall p d, In (p, d) stack ->
              forallb is_KStr p = true /\ is_dict d = true
              /\ str_keyed d = true.

(** A key that is its own dotted form: not empty, without a dot, and with
    no white space at its ends. *)
Definition clean_key (s : string) : bool :=
  negb (String.eqb s "") && negb (has_char "." s)
  && String.eqb (Py.lstrip_by Py.isspace s) s
  && String.eqb (Py.rstrip_by Py.isspace s) s.

Definition clean_pykey (k : pykey) : bool :=
  match k with
  | KStr s => clean_key s
  | _ => false
  end.

(** No key is bound twice, as in every Python [dict]. *)
Fixpoint distinct_keys (d : list (pykey * value)) : bool :=
  match d with
  | [] => true
  | (k, _) :: d' => negb (dict_mem d' k) && distinct_keys d'
  end.

(** Every mapping nested in [v] through mappings binds clean keys, each
    once. *)
Fixpoint clean_map (v : value) : bool :=
  match v with
  | VDict d =>
      distinct_keys d
      && forallb (fun kv => clean_pykey (fst kv) && clean_map (snd kv)) d
  | _ => true
  end.

(** The text the resolver returns for the value a path ends on: a text
    itself, the fallback for [None], [str] of another value, and the
    fallback when [str] raises. *)
Definition text_of `{Interpreter} (v : value) (fallback : string) : string :=
  match v with
  | VStr s => s
  | VNone => fallback
  | _ => match py_str v with
         | Ok s => s
         | Raise _ => fallback
         end
  end.

(** The text the resolver returns for the segments [args]: what its loop
    and its conversion give, and the fallback when the conversion
    raises. *)
Definition resolved `{Interpreter} (args : list string) (data : value)
  (fallback : string) : string :=
  match get_actual_content_walk args data fallback with
  | Ok text => text
  | Raise _ => fallback
  end.

(** The text that stands for the key [i] of the namespace [mode] when
    [data] is the map in force: what the resolver returns, with the token
    itself as the fallback. *)
Definition text_in `{Interpreter} (data : value) (mode i : string) : string :=
  resolved (split_key_by_dot i) data (mode ++ ":" ++ i).

(** What the call of [replace_text_in_file] for one token makes of the
    text of a file that it can read and write: the file is left as it is
    when the text read does not hold the token, and is written with the
    text read, the token replaced, when it does. *)
Definition substitute_one (token new_text content : string) : string :=
  let read := Py.universal_newlines content in
  if Py.contains token read then Py.replace token new_text read else content.

(** What one pass over the keys makes of the text of a file: the calls for
    the tokens of the keys, in turn. *)
Definition substitute (mode : string) (text : string -> string)
  (keys : list string) (content : string) : string :=
  fold_left (fun c i => substitute_one (mode ++ ":" ++ i) (text i) c)
    keys content.

(** Ascending order of strings: code point by code point, a proper
    prefix first. *)
Definition str_le (a b : string) : Prop := Py.leb a b = true.

(** The map and the keys of Scenario A. *)
Definition scenario_A : value :=
  VDict [(KStr "a", VDict [(KStr "b", VStr "X")])].

(** A loaded registry and a template for a run: the language value of
    [greeting] is the text of an environment token. *)
Definition ordering_example : state :=
  mk_state
    (mk_runtime (VDict [(KStr "foo", VStr "BAR")]) ["foo"]
       [("en.yml", VDict [(KStr "greeting", VStr "env:foo")])]
       [("en.yml", ["greeting"])])
    ["en.yml"] "index.html" "index.html"
    [("index.template.html",
      mk_file "<p>i18n:greeting</p><b>env:foo</b>" true true)]
    [].

(** An interpreter for the examples: room for a thousand levels of
    nesting, the text of CPython for the exception beyond, and a copy of
    directories that refuses. *)
Definition example_interpreter : Interpreter :=
  {| repr_depth := 1000;
     recursion_text :=
       "maximum recursion depth exceeded while getting the repr of an object";
     copy_tree := fun _ _ fs => (Raise OSError, fs) |}.

(* ================================================================== *)
(** * Properties *)
(* ================================================================== *)

(** ** Sorting and removal of duplicates *)

Section Sorting.

Lemma leb_flip (a b : string) : Py.leb a b = false -> Py.leb b a = true.
Proof.
  unfold Py.leb. destruct (String_as_OT.compare_spec a b) as [E|L|G];
    try discriminate.
  intros _. unfold String_as_OT.lt in G. now rewrite G.
Qed.

Lemma insert_sorted_perm (x : string) (l : list string) :
  Permutation (Py.insert_sorted x l) (x :: l).
Proof.
  induction l as [|y l IH]; simpl.
  - apply Permutation_refl.
  - destruct (Py.leb x y).
    + apply Permutation_refl.
    + eapply Permutation_trans; [apply perm_skip, IH | apply perm_swap].
Qed.

Lemma sort_perm (l : list string) : Permutation (Py.sort l) l.
Proof.
  induction l as [|x l IH]; simpl.
  - constructor.
  - eapply Permutation_trans; [apply insert_sorted_perm|].
    now apply perm_skip.
Qed.

Lemma insert_sorted_head (x y : string) (l : list string) :
  str_le y x -> HdRel str_le y l -> HdRel str_le y (Py.insert_sorted x l).
Proof.
  intros Hyx Hl. destruct l as [|z l]; simpl.
  - now constructor.
  - destruct (Py.leb x z); constructor; trivial.
    now inversion Hl.
Qed.

Lemma insert_sorted_sorted (x : string) (l : list string) :
  Sorted str_le l -> Sorted str_le (Py.insert_sorted x l).
Proof.
  induction 1 as [|y l Hs IH Hhd]; simpl.
  - repeat constructor.
  - destruct (Py.leb x y) eqn:E.
    + constructor; [now constructor | now constructor].
    + constructor; [exact IH|].
      apply insert_sorted_head; [now apply leb_flip | exact Hhd].
Qed.

Lemma sort_sorted (l : list string) : Sorted str_le (Py.sort l).
Proof.
  induction l as [|x l IH]; simpl.
  - constructor.
  - now apply insert_sorted_sorted.
Qed.

Lemma existsb_eqb_In (i : string) (l : list string) :
  existsb (String.eqb i) l = true <-> In i l.
Proof.
  rewrite existsb_exists. split.
  - intros [x [Hx E]]. apply String.eqb_eq in E. now subst.
  - intros H. exists i. split; [exact H | apply String.eqb_refl].
Qed.

(** The loop keeps [unique_keys] free of duplicates as long as [seen]
    holds exactly its elements. *)
Lemma unique_loop_spec (keys : list string) :
  forall seen unique_keys,
    (forall x, In x seen <-> In x unique_keys) ->
    NoDup unique_keys ->
    NoDup (unique_loop keys seen unique_keys)
    /\ (forall x, In x (unique_loop keys seen unique_keys)
                  <-> In x unique_keys \/ In x keys).
Proof.
  induction keys as [|i keys IH]; intros seen uniq Hseen Hnd; simpl.
  - split; [exact Hnd | intros x; tauto].
  - destruct (existsb (String.eqb i) seen) eqn:E.
    + destruct (IH seen uniq Hseen Hnd) as [H1 H2]. split; [exact H1|].
      intros x. rewrite H2. apply existsb_eqb_In in E. apply Hseen in E.
      split; [tauto|]. intros [H|[H|H]]; subst; auto.
    + assert (Hi : ~ In i uniq).
      { intros H. apply Hseen in H. apply existsb_eqb_In in H. congruence. }
      destruct (IH (i :: seen) (uniq ++ [i])%list) as [H1 H2].
      * intros x. simpl. rewrite in_app_iff, Hseen. simpl. tauto.
      * apply NoDup_app; [exact Hnd | repeat constructor; auto |].
        intros x Hx [<-|[]]. contradiction.
      * split; [exact H1|]. intros x. rewrite H2, in_app_iff. simpl. tauto.
Qed.

Lemma sort_unique_spec (keys : list string) :
  Sorted str_le (Py.sort (unique_loop keys [] []))
  /\ NoDup (Py.sort (unique_loop keys [] []))
  /\ (forall x, In x (Py.sort (unique_loop keys [] [])) <-> In x keys).
Proof.
  destruct (unique_loop_spec keys [] []) as [Hnd Hin].
  { intros x; tauto. } { constructor. }
  split; [apply sort_sorted|]. split.
  - eapply Permutation_NoDup; [apply Permutation_sym, sort_perm | exact Hnd].
  - intros x. split.
    + intros H. apply (Permutation_in _ (sort_perm _)) in H.
      apply Hin in H. destruct H as [[]|H]. exact H.
    + intros H. apply (Permutation_in _ (Permutation_sym (sort_perm _))).
      apply Hin. now right.
Qed.

Lemma str_le_trans (a b c : string) : str_le a b -> str_le b c -> str_le a c.
Proof.
  unfold str_le, Py.leb. intros Hab Hbc.
  destruct (String_as_OT.compare_spec a c) as [E|L|G]; auto. exfalso.
  destruct (String_as_OT.compare_spec a b) as [E1|L1|G1]; try discriminate;
    destruct (String_as_OT.compare_spec b c) as [E2|L2|G2];
    try discriminate.
  - rewrite E1, E2 in G. exact (StrictOrder_Irreflexive _ G).
  - rewrite E1 in G. apply (StrictOrder_Irreflexive c). now transitivity b.
  - rewrite <- E2 in G. apply (StrictOrder_Irreflexive b).
    now transitivity a.
  - apply (StrictOrder_Irreflexive c).
    transitivity a; [exact G|]. now transitivity b.
Qed.

Lemma str_le_antisym (a b : string) : str_le a b -> str_le b a -> a = b.
Proof.
  unfold str_le, Py.leb.
  destruct (String_as_OT.compare_spec a b) as [E|Hab|Hba]; try discriminate;
    auto.
  destruct (String_as_OT.compare_spec b a) as [E|Hba|Hab']; try discriminate;
    auto.
  intros _ _. exfalso. apply (StrictOrder_Irreflexive a). now transitivity b.
Qed.

Lemma sorted_all_le (x : string) (l : list string) :
  Sorted str_le (x :: l) -> forall y, In y l -> str_le x y.
Proof.
  intros H. apply Sorted_StronglySorted in H.
  - inversion H as [|? ? _ Hall]; subst.
    intros y Hy. rewrite Forall_forall in Hall. now apply Hall.
  - intros a b c. apply str_le_trans.
Qed.

(** A sorted list without duplicates is determined by its elements. *)
Lemma sorted_nodup_ext (l1 : list string) :
  forall l2,
    Sorted str_le l1 -> NoDup l1 -> Sorted str_le l2 -> NoDup l2 ->
    (forall x, In x l1 <-> In x l2) -> l1 = l2.
Proof.
  induction l1 as [|x l1 IH]; intros [|y l2] S1 N1 S2 N2 Hin.
  - reflexivity.
  - destruct (proj2 (Hin y)). now left.
  - destruct (proj1 (Hin x)). now left.
  - assert (E : x = y).
    { destruct (proj1 (Hin x) (or_introl eq_refl)) as [E|Hx]; [now symmetry|].
      destruct (proj2 (Hin y) (or_introl eq_refl)) as [E|Hy]; [exact E|].
      apply str_le_antisym.
      - now apply (sorted_all_le x l1).
      - now apply (sorted_all_le y l2). }
    subst y. f_equal.
    inversion S1; inversion S2; inversion N1; inversion N2; subst.
    apply IH; auto.
    intros z. split; intros Hz.
    + destruct (proj1 (Hin z) (or_intror Hz)) as [E|H]; [|exact H].
      subst z. contradiction.
    + destruct (proj2 (Hin z) (or_intror Hz)) as [E|H]; [|exact H].
      subst z. contradiction.
Qed.

End Sorting.

(** ** The traversal of [load_keys] *)

Section Traversal.

Lemma load_keys_items_spec (p : list pykey) (items : list (pykey * value)) :
  forall stack keys stack' keys',
    load_keys_items p items stack keys = Ok (stack', keys') ->
    (forall k, In k keys' <->
               In k keys \/
               exists kk v, In (kk, v) items /\ is_dict v = false
                            /\ key_of_path (p ++ [kk]) = Ok k)
    /\ (forall e, In e stack' <->
                  In e stack \/
                  exists kk v, In (kk, v) items /\ is_dict v = true
                               /\ e = ((p ++ [kk])%list, v)).
Proof.
  induction items as [|[kk v] items IH]; intros stack keys stack' keys' H;
    simpl in H.
  - injection H as <- <-. split; intros x; split; auto.
    + intros [H|(? & ? & [] & _)]; exact H.
    + intros [H|(? & ? & [] & _)]; exact H.
  - destruct (is_dict v) eqn:Hd.
    + apply IH in H. destruct H as [Hk Hs]. split.
      * intros k. rewrite Hk. split.
        -- intros [H|(a & b & Hin & Hb & Hkey)]; [now left|].
           right. exists a, b. simpl. auto.
        -- intros [H|(a & b & [Hin|Hin] & Hb & Hkey)]; [now left | |].
           ++ injection Hin as <- <-. congruence.
           ++ right. exists a, b. auto.
      * intros e. rewrite Hs. simpl. split.
        -- intros [[H|H]|(a & b & Hin & Hb & He)].
           ++ right. exists kk, v. auto.
           ++ now left.
           ++ right. exists a, b. auto.
        -- intros [H|(a & b & [Hin|Hin] & Hb & He)].
           ++ left. now right.
           ++ injection Hin as <- <-. left. left. now symmetry.
           ++ right. exists a, b. auto.
    + destruct (p ++ [kk])%list as [|p0 pl] eqn:Hp.
      { now destruct p. }
      unfold key_of_path in *. rewrite <- Hp in H.
      destruct (merge_args_to_key _) as [key|] eqn:Hm; simpl in H;
        [|discriminate].
      apply IH in H. destruct H as [Hk Hs]. split.
      * intros k. rewrite Hk, in_app_iff. simpl. split.
        -- intros [[H|[H|[]]]|(a & b & Hin & Hb & Hkey)].
           ++ now left.
           ++ subst k. right. exists kk, v. auto.
           ++ right. exists a, b. auto.
        -- intros [H|(a & b & [Hin|Hin] & Hb & Hkey)].
           ++ left. now left.
           ++ injection Hin as <- <-. left. right. left. congruence.
           ++ right. exists a, b. auto.
      * intros e. rewrite Hs. simpl. split.
        -- intros [H|(a & b & Hin & Hb & He)]; [now left|].
           right. exists a, b. auto.
        -- intros [H|(a & b & [Hin|Hin] & Hb & He)]; [now left | |].
           ++ injection Hin as <- <-. congruence.
           ++ right. exists a, b. auto.
Qed.

Lemma path_to_dict (x : value) (ks : list pykey) (v : value) :
  path_to x ks v -> is_dict x = true.
Proof. now destruct 1. Qed.

Lemma path_to_inv (d : list (pykey * value)) (ks : list pykey) (v : value) :
  path_to (VDict d) ks v ->
  (exists k, ks = [k] /\ In (k, v) d)
  \/ (exists k d' ks', ks = k :: ks' /\ In (k, d') d /\ is_dict d' = true
                       /\ path_to d' ks' v).
Proof.
  intros H. inversion H as [d0 k v0 Hin|d0 k d' ks' v0 Hin Hp]; subst.
  - left. eauto.
  - right. exists k, d', ks'. repeat split; auto.
    now apply path_to_dict in Hp.
Qed.

Lemma load_keys_loop_spec (stack : stack_t) (keys : list string) :
  forall l,
    load_keys_loop stack keys = Ok l ->
    forall k, In k l <->
              In k keys \/
              exists p d ks v, In (p, d) stack /\ path_to d ks v
                               /\ is_dict v = false
                               /\ key_of_path (p ++ ks) = Ok k.
Proof.
  funelim (load_keys_loop stack keys); intros l Hl k.
  all: try discriminate.
  - injection Hl as <-. split; [now left|].
    intros [H|(? & ? & ? & ? & [] & _)]. exact H.
  - clear H0 Heqcall. rewrite (H l Hl k). clear H Hl.
    apply load_keys_items_spec in e. destruct e as [Hk Hs]. split.
    + intros [Hin|(p & d & ks & v & Hin & Hp & Hv & Hkey)].
      * apply Hk in Hin. destruct Hin as [Hin|(kk & v & Hin & Hv & Hkey)].
        -- now left.
        -- right. exists key_path, (VDict items), [kk], v.
           repeat split; simpl; auto. now constructor.
      * apply Hs in Hin. destruct Hin as [Hin|(kk & d' & Hin & Hd & E)].
        -- right. exists p, d, ks, v. simpl. auto.
        -- injection E as -> ->. right.
           exists key_path, (VDict items), (kk :: ks), v.
           rewrite <- app_assoc in Hkey.
           repeat split; simpl; auto. now apply path_step with d'.
    + intros [Hin|(p & d & ks & v & [E|Hin] & Hp & Hv & Hkey)].
      * left. apply Hk. now left.
      * injection E as <- <-.
        apply path_to_inv in Hp.
        destruct Hp as [(kk & -> & Hin)|(kk & d' & ks' & -> & Hin & Hd & Hp)].
        -- left. apply Hk. right. eauto.
        -- right. exists (key_path ++ [kk])%list, d', ks', v.
           rewrite <- app_assoc. repeat split; auto.
           apply Hs. right. exists kk, d'. repeat split; auto.
      * right. exists p, d, ks, v. repeat split; auto.
        apply Hs. now left.
Qed.

(** The traversal raises nothing when every key is a [str]. *)
Lemma merge_args_loop_str (args : list pykey) :
  forallb is_KStr args = true ->
  forall acc, exists parts, merge_args_loop args acc = Ok parts.
Proof.
  induction args as [|[s| | |] args IH]; simpl; intros H acc;
    try discriminate.
  - now exists acc.
  - destruct (String.eqb _ ""); now apply IH.
Qed.

Lemma key_of_path_str (ks : list pykey) :
  forallb is_KStr ks = true -> exists k, key_of_path ks = Ok k.
Proof.
  intros H. unfold key_of_path, merge_args_to_key.
  destruct (merge_args_loop_str
              (filter (fun p => negb (is_None p) && key_truthy p) ks))
    with (acc := @nil string) as [parts ->].
  - apply forallb_forall. intros x Hx. apply filter_In in Hx.
    rewrite forallb_forall in H. now apply H.
  - simpl. eauto.
Qed.

Lemma load_keys_items_str (p : list pykey) (items : list (pykey * value)) :
  forallb is_KStr p = true ->
  forallb (fun kv => is_KStr (fst kv) && str_keyed (snd kv)) items = true ->
  forall stack keys,
  exists stack' keys',
    load_keys_items p items stack keys = Ok (stack', keys').
Proof.
  intros Hp. induction items as [|[kk v] items IH]; simpl; intros Hi stack keys.
  - eauto.
  - apply andb_true_iff in Hi. destruct Hi as [Hkv Hi].
    apply andb_true_iff in Hkv. destruct Hkv as [Hkk Hv].
    destruct (is_dict v); [now apply IH|].
    destruct (p ++ [kk])%list as [|p0 pl] eqn:E; [now apply IH|].
    destruct (key_of_path_str (p ++ [kk])) as [key Hkey].
    { rewrite forallb_app, Hp. simpl. now rewrite Hkk. }
    unfold key_of_path in Hkey. rewrite E in Hkey. rewrite Hkey. simpl.
    now apply IH.
Qed.

Lemma load_keys_loop_str (stack : stack_t) (keys : list string) :
  stack_str_keyed stack -> exists l, load_keys_loop stack keys = Ok l.
Proof.
  funelim (load_keys_loop stack keys); intros Hst.
  all: try (destruct (Hst _ _ (or_introl eq_refl)) as (_ & Hd & _);
            discriminate).
  - eauto.
  - destruct (Hst _ _ (or_introl eq_refl)) as (Hp & _ & Hi). simpl in Hi.
    apply H. intros p d Hin.
    destruct (load_keys_items_spec _ _ _ _ _ _ e) as [_ Hs].
    apply Hs in Hin. destruct Hin as [Hin|(kk & v & Hin & Hd & E)].
    + apply Hst. now right.
    + injection E as -> ->. rewrite forallb_forall in Hi.
      specialize (Hi _ Hin). simpl in Hi.
      apply andb_true_iff in Hi. destruct Hi as [Hkk Hv].
      rewrite forallb_app, Hp. simpl. rewrite Hkk. auto.
  - destruct (Hst _ _ (or_introl eq_refl)) as (Hp & _ & Hi). simpl in Hi.
    destruct (load_keys_items_str key_path items Hp Hi stack' keys)
      as (st & ks & E).
    congruence.
Qed.

End Traversal.

(** ** The flattener *)

Section Flattener.

(** What [load_keys] returns holds exactly the dotted keys of the paths
    that end on a value that is not a mapping. *)
Lemma load_keys_data_keys (data : value) (l : list string) :
  load_keys_data data = Ok l ->
  forall k, In k l <->
            exists ks v, path_to data ks v /\ is_dict v = false
                         /\ key_of_path ks = Ok k.
Proof.
  unfold load_keys_data. intros H k.
  destruct (load_keys_loop [([], data)] []) as [keys|] eqn:E; simpl in H;
    [|discriminate].
  injection H as <-.
  destruct (sort_unique_spec keys) as (_ & _ & Hin). rewrite Hin.
  rewrite (load_keys_loop_spec _ _ _ E). split.
  - intros [[]|(p & d & ks & v & [Hpd|[]] & Hp & Hv & Hk)].
    injection Hpd as <- <-. eauto.
  - intros (ks & v & Hp & Hv & Hk). right.
    exists [], data, ks, v. simpl. auto.
Qed.

(** On a mapping with [str] keys throughout, [load_keys] returns a
    list. *)
Lemma load_keys_data_total (data : value) :
  is_dict data = true -> str_keyed data = true ->
  exists l, load_keys_data data = Ok l.
Proof.
  intros Hd Hs. unfold load_keys_data.
  destruct (load_keys_loop_str [([], data)] []) as [keys ->].
  - intros p d [E|[]]. injection E as <- <-. auto.
  - simpl. eauto.
Qed.

End Flattener.

Section FlattenerShape.

Lemma path_to_str_keyed (data : value) (ks : list pykey) (v : value) :
  path_to data ks v -> str_keyed data = true ->
  forallb is_KStr ks = true /\ str_keyed v = true.
Proof.
  induction 1 as [d k v Hin|d k d' ks v Hin Hp IH]; simpl; intros Hs;
    rewrite forallb_forall in Hs; specialize (Hs _ Hin); simpl in Hs;
    apply andb_true_iff in Hs; destruct Hs as [Hk Hv].
  - now rewrite Hk.
  - destruct (IH Hv) as [Hks Hv']. now rewrite Hk, Hks.
Qed.

(** A binding to an empty mapping opens no path to a value that is not a
    mapping. *)
Lemma path_to_skip_empty (d1 d2 : list (pykey * value)) (k : pykey)
  (ks : list pykey) (v : value) :
  is_dict v = false ->
  (path_to (VDict (d1 ++ (k, VDict []) :: d2)) ks v
   <-> path_to (VDict (d1 ++ d2)) ks v).
Proof.
  intros Hv. split; intros H; apply path_to_inv in H;
    destruct H as [(kk & -> & Hin)|(kk & d' & ks' & -> & Hin & Hd & Hp)].
  - apply path_last. apply in_app_iff in Hin. apply in_app_iff.
    destruct Hin as [Hin|[E|Hin]]; auto.
    injection E as _ <-. discriminate.
  - apply path_step with d'; [|exact Hp].
    apply in_app_iff in Hin. apply in_app_iff.
    destruct Hin as [Hin|[E|Hin]]; auto.
    injection E as _ <-. apply path_to_inv in Hp.
    destruct Hp as [(? & _ & [])|(? & ? & ? & _ & [] & _)].
  - apply path_last. apply in_app_iff in Hin. apply in_app_iff.
    simpl. tauto.
  - apply path_step with d'; [|exact Hp].
    apply in_app_iff in Hin. apply in_app_iff. simpl. tauto.
Qed.

Lemma str_keyed_skip_empty (d1 d2 : list (pykey * value)) (k : pykey) :
  str_keyed (VDict (d1 ++ (k, VDict []) :: d2)) = true ->
  str_keyed (VDict (d1 ++ d2)) = true.
Proof.
  simpl. rewrite !forallb_app. simpl.
  intros H. apply andb_true_iff in H. destruct H as [H1 H2].
  apply andb_true_iff in H2. destruct H2 as [_ H2]. now rewrite H1, H2.
Qed.

Lemma load_keys_data_sorted (data : value) (l : list string) :
  load_keys_data data = Ok l -> Sorted str_le l /\ NoDup l.
Proof.
  unfold load_keys_data.
  destruct (load_keys_loop [([], data)] []) as [keys|]; simpl;
    [|discriminate].
  intros H. injection H as <-.
  destruct (sort_unique_spec keys) as (Hs & Hn & _). auto.
Qed.

End FlattenerShape.

(** ** Mappings *)

Section Mappings.

Lemma pykey_eqb_eq (a b : pykey) : pykey_eqb a b = true <-> a = b.
Proof.
  destruct a, b; simpl; split; try discriminate; try reflexivity.
  - intros H. apply String.eqb_eq in H. now subst.
  - intros H. injection H as ->. apply String.eqb_refl.
  - intros H. apply Z.eqb_eq in H. now subst.
  - intros H. injection H as ->. apply Z.eqb_refl.
  - intros H. apply Bool.eqb_prop in H. now subst.
  - intros H. injection H as ->. apply Bool.eqb_reflx.
Qed.

Lemma dict_mem_In (d : list (pykey * value)) (k : pykey) :
  dict_mem d k = true <-> exists v, In (k, v) d.
Proof.
  unfold dict_mem. rewrite existsb_exists. split.
  - intros [[k' v] [Hin E]]. simpl in E. apply pykey_eqb_eq in E. subst.
    eauto.
  - intros [v Hin]. exists (k, v). split; [exact Hin|].
    now apply pykey_eqb_eq.
Qed.


Lemma dict_mem_get (d : list (pykey * value)) (k : pykey) :
  dict_mem d k = true -> exists v, dict_get d k = Some v.
Proof.
  induction d as [|[k' v'] d IH]; simpl; [discriminate|].
  destruct (pykey_eqb k' k); simpl; eauto.
Qed.

(** In a mapping that binds no key twice, every binding is the one a
    lookup finds. *)
Lemma dict_get_distinct (d : list (pykey * value)) (k : pykey) (v : value) :
  distinct_keys d = true -> In (k, v) d -> dict_get d k = Some v.
Proof.
  induction d as [|[k' v'] d IH]; simpl; [contradiction|].
  intros Hd [E|Hin].
  - injection E as -> ->. now rewrite (proj2 (pykey_eqb_eq k k) eq_refl).
  - apply andb_true_iff in Hd. destruct Hd as [Hk Hd].
    destruct (pykey_eqb k' k) eqn:E; [|now apply IH].
    apply pykey_eqb_eq in E. subst k'.
    apply negb_true_iff in Hk.
    assert (dict_mem d k = true) by (apply dict_mem_In; eauto).
    congruence.
Qed.

End Mappings.

(** ** The resolver *)

Section Resolver.

Context {I : Interpreter}.

Lemma map_result_raises {A B : Type} (f : A -> result B) (P : exn -> Prop)
  (l : list A) :
  (forall a e, In a l -> f a = Raise e -> P e) ->
  forall e, map_result f l = Raise e -> P e.
Proof.
  induction l as [|a l IH]; intros Hf e; simpl; [discriminate|].
  destruct (f a) as [b|e'] eqn:Ea; simpl.
  - destruct (map_result f l) as [bs|e''] eqn:El; simpl; [discriminate|].
    intros H. injection H as <-. apply IH; auto.
    intros a' e0 Hin. apply Hf. now right.
  - intros H. injection H as <-. apply (Hf a); auto. now left.
Qed.

Lemma str_int_raises (z : Z) (e : exn) :
  str_int z = Raise e -> e = ValueError.
Proof.
  unfold str_int. destruct (_ <? _)%nat; [|discriminate].
  intros H. now injection H as <-.
Qed.

Lemma repr_key_raises (depth : nat) (k : pykey) (e : exn) :
  repr_key depth k = Raise e -> e = ValueError \/ e = RecursionError.
Proof.
  destruct depth as [|depth]; simpl.
  - intros H. injection H as <-. now right.
  - destruct k; try discriminate. intros H. left.
    now apply str_int_raises in H.
Qed.

(** [str] and [repr] raise nothing but [ValueError] and
    [RecursionError]. *)
Lemma repr_raises (depth : nat) :
  forall v e, repr depth v = Raise e -> e = ValueError \/ e = RecursionError.
Proof.
  induction depth as [|depth IH]; intros v e; simpl.
  - intros H. injection H as <-. now right.
  - destruct v as [s|z|b| |l|d]; try discriminate.
    + intros H. left. now apply str_int_raises in H.
    + destruct (map_result (repr depth) l) as [parts|e'] eqn:E; simpl;
        [discriminate|].
      intros H. injection H as <-.
      apply (map_result_raises (repr depth)
               (fun e => e = ValueError \/ e = RecursionError) l); auto.
      intros a e0 _. apply IH.
    + match goal with
      | |- bind_result (map_result ?f d) _ = _ -> _ =>
          destruct (map_result f d) as [parts|e'] eqn:E; simpl;
            [discriminate|];
            intros H; injection H as <-;
            apply (map_result_raises f
                     (fun e => e = ValueError \/ e = RecursionError) d);
            auto
      end.
      intros [k v] e0 _. simpl.
      destruct (repr_key depth k) as [ks|e1] eqn:Ek; simpl.
      * destruct (repr depth v) as [vs|e2] eqn:Ev; simpl; [discriminate|].
        intros H. injection H as <-. now apply (IH v).
      * intros H. injection H as <-. now apply (repr_key_raises depth k).
Qed.

Lemma py_str_raises (v : value) (e : exn) :
  py_str v = Raise e -> e = ValueError \/ e = RecursionError.
Proof. destruct v; simpl; try discriminate; apply repr_raises. Qed.

(** The loop of the resolver raises nothing; the conversion of the value
    it ends on may raise, [ValueError] or [RecursionError]. *)
Lemma get_actual_content_walk_raises (args : list string) :
  forall data fallback e,
    get_actual_content_walk args data fallback = Raise e ->
    e = ValueError \/ e = RecursionError.
Proof.
  induction args as [|i args IH]; intros data fallback e; simpl.
  - destruct data; try discriminate; apply py_str_raises.
  - destruct (is_dict data && py_in i data) eqn:E; [|discriminate].
    apply andb_true_iff in E. destruct E as [Hd Hin].
    destruct data; try discriminate. simpl in *.
    destruct (dict_mem_get _ _ Hin) as [v ->]. simpl. apply IH.
Qed.

(** What [get_actual_content] does: it returns what its loop and its
    conversion give, and when the conversion raises it prints a line and
    returns the fallback. *)
Lemma get_actual_content_run (key : string) (data : value)
  (fallback : string) (st : state) :
  get_actual_content key data fallback st
  = match get_actual_content_walk (split_key_by_dot key) data fallback with
    | Ok text => (Ok text, st)
    | Raise e =>
        (Ok fallback,
         log_event
           (Printed ("DBG: Error accessing key " ++ key ++ ": "
                     ++ exn_text e)) st)
    end.
Proof.
  unfold get_actual_content, try_except_Exception, lift. cbv zeta.
  destruct (get_actual_content_walk (split_key_by_dot key) data fallback)
    as [text|e] eqn:E; [reflexivity|].
  destruct (get_actual_content_walk_raises _ _ _ _ E) as [-> | ->];
    reflexivity.
Qed.

Lemma only_trace_refl (st : state) : only_trace st st.
Proof. repeat split. Qed.

Lemma only_trace_log (ev : event) (st : state) :
  only_trace st (log_event ev st).
Proof. repeat split. Qed.

Lemma only_trace_trans (st1 st2 st3 : state) :
  only_trace st1 st2 -> only_trace st2 st3 -> only_trace st1 st3.
Proof.
  intros (A1 & A2 & A3 & A4 & A5) (B1 & B2 & B3 & B4 & B5).
  repeat split; congruence.
Qed.

(** [get_actual_content] always returns, and changes nothing but the
    trace. *)
Lemma get_actual_content_returns (key : string) (data : value)
  (fallback : string) (st : state) :
  fst (get_actual_content key data fallback st)
  = Ok (resolved (split_key_by_dot key) data fallback)
  /\ only_trace st (snd (get_actual_content key data fallback st)).
Proof.
  rewrite get_actual_content_run. unfold resolved.
  destruct (get_actual_content_walk (split_key_by_dot key) data fallback);
    split; try reflexivity;
    [apply only_trace_refl | apply only_trace_log].
Qed.



(** With no segment at all, the resolver converts the data themselves. *)
Lemma resolved_no_segment (data : value) (fallback : string) :
  resolved [] data fallback = text_of data fallback.
Proof.
  unfold resolved, text_of. cbn [get_actual_content_walk].
  destruct data; try reflexivity.
Qed.

Lemma split_key_by_dot_blank (key : string) :
  Py.strip key = "" -> split_key_by_dot key = [].
Proof.
  intros H. unfold split_key_by_dot. rewrite H.
  now destruct (String.eqb key "").
Qed.

End Resolver.

(** ** Dotted keys of clean keys *)

Section DottedKeys.

Lemma has_char_cons (c c' : ascii) (s : string) :
  has_char c (String c' s) = Ascii.eqb c' c || has_char c s.
Proof.
  unfold has_char. simpl. destruct (Ascii.eqb c' c); [reflexivity|]. simpl.
  destruct (Py.find_char c s <? 0)%Z eqn:E; [reflexivity|].
  apply Z.ltb_ge in E. simpl.
  destruct (Py.find_char c s + 1 <? 0)%Z eqn:E'; [|reflexivity].
  apply Z.ltb_lt in E'. lia.
Qed.

Lemma has_char_app (c : ascii) (s t : string) :
  has_char c (s ++ t) = has_char c s || has_char c t.
Proof.
  induction s as [|c' s IH]; simpl; [reflexivity|].
  now rewrite !has_char_cons, IH, orb_assoc.
Qed.

Lemma rstrip_by_app (p : ascii -> bool) (s t : string) :
  t <> "" -> Py.rstrip_by p t = t -> Py.rstrip_by p (s ++ t) = s ++ t.
Proof.
  intros Ht Hr. induction s as [|c s IH]; simpl; [exact Hr|].
  rewrite IH. destruct (s ++ t) eqn:E; [|reflexivity].
  destruct s; [|discriminate]. simpl in E. contradiction.
Qed.

Lemma strip_by_never (p : ascii -> bool) (s : string) :
  (forall x, p x = true -> has_char x s = false) ->
  Py.lstrip_by p s = s /\ Py.rstrip_by p s = s.
Proof.
  intros H. induction s as [|c' s IH]; simpl; [auto|].
  assert (Hc : p c' = false).
  { destruct (p c') eqn:E; [|reflexivity].
    apply H in E. rewrite has_char_cons, Ascii.eqb_refl in E. discriminate. }
  rewrite Hc. split; [reflexivity|].
  destruct IH as [_ IH].
  { intros x Hx. apply H in Hx. rewrite has_char_cons in Hx.
    now apply orb_false_iff in Hx. }
  rewrite IH. now destruct s.
Qed.

Lemma strip_dots_without (s : string) :
  has_char "." s = false -> Py.strip_dots s = s.
Proof.
  intros H. unfold Py.strip_dots, Py.strip_by.
  destruct (strip_by_never Py.is_dot s) as [Hl Hr].
  - intros x Hx. unfold Py.is_dot in Hx. apply Ascii.eqb_eq in Hx.
    now subst.
  - now rewrite Hl, Hr.
Qed.

(** What [clean_key] says. *)
Lemma clean_key_spec (s : string) :
  clean_key s = true ->
  s <> "" /\ has_char "." s = false
  /\ Py.lstrip_by Py.isspace s = s /\ Py.rstrip_by Py.isspace s = s.
Proof.
  unfold clean_key. intros H.
  apply andb_true_iff in H. destruct H as [H H4].
  apply andb_true_iff in H. destruct H as [H H3].
  apply andb_true_iff in H. destruct H as [H1 H2].
  apply negb_true_iff in H1, H2.
  apply String.eqb_neq in H1. apply String.eqb_eq in H3, H4. auto.
Qed.

Lemma clean_key_strip (s : string) : clean_key s = true -> Py.strip s = s.
Proof.
  intros H. apply clean_key_spec in H. destruct H as (_ & _ & Hl & Hr).
  unfold Py.strip, Py.strip_by. now rewrite Hl, Hr.
Qed.

Lemma clean_key_part (s : string) :
  clean_key s = true -> Py.strip_dots (Py.strip s) = s.
Proof.
  intros H. rewrite (clean_key_strip s H).
  apply strip_dots_without. now apply clean_key_spec in H.
Qed.

Lemma merge_args_loop_clean (ss : list string) :
  forallb clean_key ss = true ->
  forall acc, merge_args_loop (map KStr ss) acc = Ok (acc ++ ss)%list.
Proof.
  induction ss as [|s ss IH]; simpl; intros H acc.
  - now rewrite app_nil_r.
  - apply andb_true_iff in H. destruct H as [Hs H].
    rewrite (clean_key_part s Hs).
    destruct (String.eqb s "") eqn:E.
    + apply String.eqb_eq in E. apply clean_key_spec in Hs. tauto.
    + rewrite (IH H). now rewrite <- app_assoc.
Qed.

(** The dotted key of a path of clean keys is the keys joined by dots. *)
Lemma key_of_path_clean (ss : list string) :
  forallb clean_key ss = true ->
  key_of_path (map KStr ss) = Ok (Py.join "." ss).
Proof.
  intros H. unfold key_of_path, merge_args_to_key.
  assert (E : filter (fun p => negb (is_None p) && key_truthy p)
                (map KStr ss) = map KStr ss).
  { apply forallb_filter_id. rewrite forallb_forall in *.
    intros k Hk. apply in_map_iff in Hk. destruct Hk as (s & <- & Hs).
    simpl. apply H in Hs. apply clean_key_spec in Hs.
    apply negb_true_iff. apply String.eqb_neq. tauto. }
  rewrite E, (merge_args_loop_clean ss H). reflexivity.
Qed.

Lemma join_cons (s s' : string) (ss : list string) :
  Py.join "." (s :: s' :: ss) = s ++ "." ++ Py.join "." (s' :: ss).
Proof. reflexivity. Qed.

Lemma join_clean_ends (ss : list string) :
  ss <> [] -> forallb clean_key ss = true ->
  Py.join "." ss <> ""
  /\ Py.lstrip_by Py.isspace (Py.join "." ss) = Py.join "." ss
  /\ Py.rstrip_by Py.isspace (Py.join "." ss) = Py.join "." ss.
Proof.
  induction ss as [|s ss IH]; [contradiction|]. intros _ H.
  simpl in H. apply andb_true_iff in H. destruct H as [Hs H].
  destruct (clean_key_spec s Hs) as (Hne & _ & Hl & Hr).
  destruct ss as [|s' ss]; [simpl; auto|].
  destruct IH as (Hj & _ & Hjr); [discriminate | exact H |].
  rewrite join_cons. destruct s as [|c s]; [contradiction|].
  split; [discriminate|]. split.
  - simpl in *. destruct (Py.isspace c); [|reflexivity].
    exfalso. assert (L : String.length (Py.lstrip_by Py.isspace s)
                         <= String.length s).
    { clear. induction s as [|c' s IH]; simpl; [lia|].
      destruct (Py.isspace c'); simpl; lia. }
    rewrite Hl in L. simpl in L. lia.
  - apply (rstrip_by_app Py.isspace (String c s)).
    + discriminate.
    + apply (rstrip_by_app Py.isspace "."); assumption.
Qed.

Lemma split_without (s : string) :
  has_char "." s = false -> Py.split "." s = [s].
Proof.
  induction s as [|c s IH]; simpl; [reflexivity|].
  rewrite has_char_cons. intros H. apply orb_false_iff in H.
  destruct H as [Hc Hs]. rewrite Hc, (IH Hs). reflexivity.
Qed.

Lemma split_app_dot (s t : string) :
  has_char "." s = false ->
  Py.split "." (s ++ "." ++ t) = s :: Py.split "." t.
Proof.
  induction s as [|c s IH]; simpl; [reflexivity|].
  rewrite has_char_cons. intros H. apply orb_false_iff in H.
  destruct H as [Hc Hs]. rewrite Hc. simpl in IH. now rewrite (IH Hs).
Qed.

Lemma split_join_clean (ss : list string) :
  ss <> [] -> forallb clean_key ss = true ->
  Py.split "." (Py.join "." ss) = ss.
Proof.
  induction ss as [|s ss IH]; [contradiction|]. intros _ H.
  simpl in H. apply andb_true_iff in H. destruct H as [Hs H].
  destruct (clean_key_spec s Hs) as (_ & Hd & _).
  destruct ss as [|s' ss].
  - now apply split_without.
  - rewrite join_cons, (split_app_dot _ _ Hd). f_equal.
    apply IH; [discriminate | exact H].
Qed.

(** Splitting the dotted key of clean keys gives the keys back. *)
Lemma split_key_by_dot_join (ss : list string) :
  ss <> [] -> forallb clean_key ss = true ->
  split_key_by_dot (Py.join "." ss) = ss.
Proof.
  intros Hne H. unfold split_key_by_dot.
  destruct (join_clean_ends ss Hne H) as (Hj & Hl & Hr).
  assert (Hstrip : Py.strip (Py.join "." ss) = Py.join "." ss).
  { unfold Py.strip, Py.strip_by. now rewrite Hl, Hr. }
  rewrite Hstrip. apply String.eqb_neq in Hj. rewrite Hj.
  rewrite (split_join_clean ss Hne H).
  rewrite forallb_filter_id.
  - rewrite <- (map_id ss) at 2. apply map_ext_in.
    intros s Hs. rewrite forallb_forall in H. now apply clean_key_strip, H.
  - rewrite forallb_forall in *. intros s Hs. specialize (H s Hs).
    rewrite (clean_key_strip s H). apply clean_key_spec in H.
    apply negb_true_iff, String.eqb_neq. tauto.
Qed.

End DottedKeys.

(** ** Round trip on clean maps *)

Section RoundTrip.

Context {I : Interpreter}.

Lemma clean_map_binding (d : list (pykey * value)) (k : pykey) (v : value) :
  clean_map (VDict d) = true -> In (k, v) d ->
  distinct_keys d = true
  /\ (exists s, k = KStr s /\ clean_key s = true)
  /\ clean_map v = true.
Proof.
  simpl. intros H Hin. apply andb_true_iff in H. destruct H as [Hd Hall].
  rewrite forallb_forall in Hall. specialize (Hall _ Hin). simpl in Hall.
  apply andb_true_iff in Hall. destruct Hall as [Hk Hv].
  repeat split; auto. destruct k; try discriminate. eauto.
Qed.

Lemma walk_step (s : string) (ss : list string) (d : list (pykey * value))
  (v : value) (fallback : string) :
  distinct_keys d = true -> In (KStr s, v) d ->
  get_actual_content_walk (s :: ss) (VDict d) fallback
  = get_actual_content_walk ss v fallback.
Proof.
  intros Hd Hin. simpl.
  assert (Hm : dict_mem d (KStr s) = true) by (apply dict_mem_In; eauto).
  now rewrite Hm, (dict_get_distinct d _ _ Hd Hin).
Qed.

(** In a clean map, a path to a value that is not a map is a path of clean
    keys, and the resolver follows it to the end, where it converts the
    value. *)
Lemma clean_path_resolves (data : value) (ks : list pykey) (v : value) :
  path_to data ks v -> clean_map data = true -> is_dict v = false ->
  exists ss,
    ks = map KStr ss /\ ss <> [] /\ forallb clean_key ss = true
    /\ forall fallback,
        get_actual_content_walk ss data fallback
        = get_actual_content_walk [] v fallback.
Proof.
  induction 1 as [d k v Hin|d k d' ks v Hin Hp IH]; intros Hc Hv;
    destruct (clean_map_binding d k _ Hc Hin) as (Hd & (s & -> & Hs) & Hc').
  - exists [s]. split; [reflexivity|]. split; [discriminate|].
    split; [simpl; now rewrite Hs|].
    intros fallback. apply (walk_step s [] d v fallback Hd Hin).
  - destruct (IH Hc' Hv) as (ss & -> & Hne & Hss & Hw).
    exists (s :: ss). split; [reflexivity|]. split; [discriminate|].
    split; [simpl; now rewrite Hs, Hss|].
    intros fallback. now rewrite (walk_step s ss d d' fallback Hd Hin).
Qed.

End RoundTrip.

(** ** Files and names *)

Section FilesAndNames.

Lemma bind_ok {A B : Type} (m : M A) (k : A -> M B) (st st' : state)
  (a : A) :
  m st = (Ok a, st') -> bind m k st = k a st'.
Proof. unfold bind. now intros ->. Qed.

Lemma path_exists_found (path : string) (st : state) (f : file) :
  lookup (st_files st) path = Some f -> path_exists path st = (Ok true, st).
Proof. unfold path_exists, gets. now intros ->. Qed.


(** Reading a file that can be opened: the text read, or the exception of
    a content that is no text. *)
Lemma read_file_open (path : string) (st : state) (f : file) :
  lookup (st_files st) path = Some f -> f_readable f = true ->
  read_file path st
  = match f_content f with
    | Directory => (Raise IsADirectoryError, st)
    | c => (read_text c, log_event (FileRead path) st)
    end.
Proof.
  intros Hf Hr. unfold read_file.
  rewrite (bind_ok _ _ st st (st_files st)) by reflexivity.
  rewrite Hf, Hr. cbn [negb].
  destruct (f_content f); reflexivity.
Qed.

Lemma read_file_ok (path : string) (st : state) (f : file) (text : string) :
  lookup (st_files st) path = Some f -> f_readable f = true ->
  f_content f = Text text ->
  read_file path st
  = (Ok (Py.universal_newlines text), log_event (FileRead path) st).
Proof.
  intros Hf Hr Hc. rewrite (read_file_open path st f Hf Hr), Hc.
  reflexivity.
Qed.

Lemma read_file_closed (path : string) (st : state) (f : file) :
  lookup (st_files st) path = Some f -> f_readable f = false ->
  read_file path st = (Raise PermissionError, st).
Proof.
  intros Hf Hr. unfold read_file.
  rewrite (bind_ok _ _ st st (st_files st)) by reflexivity.
  now rewrite Hf, Hr.
Qed.

Lemma bind_def_read {B : Type} (path : string) (st : state) (f : file)
  (k : string -> M B) :
  lookup (st_files st) path = Some f -> f_readable f = true ->
  bind (read_file path) k st
  = match f_content f with
    | Text raw => k (Py.universal_newlines raw) (log_event (FileRead path) st)
    | Binary => (Raise UnicodeDecodeError, log_event (FileRead path) st)
    | Directory => (Raise IsADirectoryError, st)
    end.
Proof.
  intros Hf Hr. unfold bind.
  rewrite (read_file_open path st f Hf Hr).
  destruct (f_content f); reflexivity.
Qed.

Lemma write_file_ok (path content : string) (st : state) (f : file) :
  lookup (st_files st) path = Some f -> f_writable f = true ->
  is_file f = true ->
  write_file path content st
  = (Ok tt,
     log_event (FileWritten path content)
       (with_files
          (update (st_files st) path
             (mk_file content (f_readable f) (f_writable f))) st)).
Proof.
  intros Hf Hw Hk. unfold write_file.
  rewrite (bind_ok _ _ st st (st_files st)) by reflexivity.
  rewrite Hf. unfold is_file in Hk.
  destruct (f_content f); try discriminate; now rewrite Hw.
Qed.

Lemma write_file_closed (path content : string) (st : state) (f : file) :
  lookup (st_files st) path = Some f -> f_writable f = false ->
  is_file f = true ->
  write_file path content st = (Raise PermissionError, st).
Proof.
  intros Hf Hw Hk. unfold write_file.
  rewrite (bind_ok _ _ st st (st_files st)) by reflexivity.
  rewrite Hf. unfold is_file in Hk.
  destruct (f_content f); try discriminate; now rewrite Hw.
Qed.

Lemma path_is_dir_file (path : string) (st : state) (f : file) :
  lookup (st_files st) path = Some f ->
  path_is_dir path st = (Ok (negb (is_file f)), st).
Proof.
  intros Hf. unfold path_is_dir, gets, is_file. rewrite Hf.
  destruct f as [[t| |] r w]; reflexivity.
Qed.

(** [load_data] on a readable YAML file whose text the parser turns into
    the document [data] returns [data], having read the file once. *)
Lemma load_data_of_file (yaml_load : string -> result value)
  (file_path : string) (st : state) (f : file) (text : string)
  (data : value) :
  lookup (st_files st) file_path = Some f ->
  f_readable f = true ->
  (let suffix := Py.lower (path_suffix file_path) in
   String.eqb suffix ".yml" || String.eqb suffix ".yaml") = true ->
  f_content f = Text text ->
  yaml_load (Py.universal_newlines text) = Ok data -> data <> VNone ->
  load_data yaml_load file_path st
  = (Ok data, log_event (FileRead file_path) st).
Proof.
  intros Hf Hr Hs Hc Hy Hd. unfold load_data.
  rewrite (bind_ok _ _ _ _ _ (path_exists_found file_path st f Hf)).
  rewrite (bind_ok _ _ _ _ _ (path_is_dir_file file_path st f Hf)).
  unfold is_file. rewrite Hc. cbn [negb orb].
  rewrite (bind_ok _ _ st st tt) by reflexivity.
  cbv zeta in Hs. rewrite Hs. cbn [negb].
  rewrite (bind_ok _ _ st st tt) by reflexivity.
  rewrite (bind_ok _ _ _ _ _ (read_file_ok file_path st f text Hf Hr Hc)).
  rewrite (bind_ok _ _ _ (log_event (FileRead file_path) st) data)
    by (unfold lift; now rewrite Hy).
  now destruct data.
Qed.

(** [load_keys] on such a file returns what [load_keys_data] makes of
    [data], having read the file once. *)
Lemma load_keys_of_file (yaml_load : string -> result value)
  (file_path : string) (st : state) (f : file) (text : string)
  (data : value) :
  lookup (st_files st) file_path = Some f ->
  f_readable f = true ->
  (let suffix := Py.lower (path_suffix file_path) in
   String.eqb suffix ".yml" || String.eqb suffix ".yaml") = true ->
  f_content f = Text text ->
  yaml_load (Py.universal_newlines text) = Ok data -> data <> VNone ->
  load_keys yaml_load file_path st
  = (load_keys_data data, log_event (FileRead file_path) st).
Proof.
  intros Hf Hr Hs Hc Hy Hd. unfold load_keys.
  rewrite (bind_ok _ _ _ _ _ (path_exists_found file_path st f Hf)).
  cbn [negb]. rewrite (bind_ok _ _ st st tt) by reflexivity.
  now rewrite (bind_ok _ _ _ _ _
                 (load_data_of_file yaml_load file_path st f text data
                    Hf Hr Hs Hc Hy Hd)).
Qed.

Lemma lookup_update_same {A : Type} (l : list (string * A)) (k : string)
  (a : A) : lookup (update l k a) k = Some a.
Proof.
  induction l as [|[k' a'] l IH]; simpl.
  - now rewrite String.eqb_refl.
  - destruct (String.eqb k' k) eqn:E; simpl.
    + now rewrite String.eqb_refl.
    + now rewrite E.
Qed.

Lemma find_char_app_dot (pre rest : string) :
  has_char "." pre = false ->
  Py.find_char "." (pre ++ "." ++ rest) = Z.of_nat (String.length pre).
Proof.
  change ("." ++ rest) with (String "."%char rest).
  induction pre as [|c pre IH]; [reflexivity|].
  rewrite has_char_cons. intros H. apply orb_false_iff in H.
  destruct H as [Hc Hp]. cbn [append Py.find_char String.length].
  rewrite Hc, (IH Hp).
  destruct (Z.of_nat (String.length pre) <? 0)%Z eqn:E; [|lia].
  apply Z.ltb_lt in E. lia.
Qed.

Lemma substring_app_length (pre rest : string) :
  String.substring 0 (String.length pre) (pre ++ rest) = pre.
Proof.
  induction pre as [|c pre IH]; simpl.
  - now destruct rest.
  - now rewrite IH.
Qed.

Lemma length_app (s t : string) :
  String.length (s ++ t) = String.length s + String.length t.
Proof. induction s as [|c s IH]; simpl; [reflexivity | now rewrite IH]. Qed.

(** On a text with a dot, [get_string_removed_dot_and_after] returns what
    stands before the first dot. *)
Lemma get_string_removed_dot_and_after_spec (pre rest : string) :
  has_char "." pre = false ->
  get_string_removed_dot_and_after (pre ++ "." ++ rest) = pre.
Proof.
  intros H. unfold get_string_removed_dot_and_after.
  rewrite (find_char_app_dot pre rest H).
  destruct pre as [|c pre]; [reflexivity|].
  destruct (Z.of_nat (String.length (String c pre)) <=? 0)%Z eqn:E.
  - apply Z.leb_le in E. simpl in E. lia.
  - unfold Py.slice_to.
    destruct (Z.of_nat (String.length (String c pre)) <? 0)%Z eqn:E';
      [apply Z.ltb_lt in E'; lia|].
    rewrite length_app, Z.min_l, Nat2Z.id by lia.
    apply substring_app_length.
Qed.

Lemma existsb_eqb_mem (x : string) (l : list string) :
  In x l -> existsb (String.eqb x) l = true.
Proof. intros H. now apply existsb_eqb_In. Qed.

Lemma rfind_char_has_char (c : ascii) (s : string) :
  (0 <= Py.rfind_char c s)%Z -> has_char c s = true.
Proof.
  induction s as [|a s IH]; simpl; [lia|].
  rewrite has_char_cons.
  destruct (Py.rfind_char c s <? 0)%Z eqn:E.
  - destruct (Ascii.eqb a c); [reflexivity | lia].
  - intros _. apply Z.ltb_ge in E. rewrite (IH E). apply orb_true_r.
Qed.

(** A text that holds a dot splits at its first dot. *)
Lemma split_at_first_dot (s : string) :
  has_char "." s = true ->
  exists pre rest, s = pre ++ "." ++ rest /\ has_char "." pre = false.
Proof.
  induction s as [|a s IH]; [discriminate|].
  rewrite has_char_cons. destruct (Ascii.eqb a ".") eqn:E.
  - intros _. apply Ascii.eqb_eq in E. subst a. now exists "", s.
  - simpl. intros H. destruct (IH H) as (pre & rest & -> & Hpre).
    exists (String a pre), rest. split; [reflexivity|].
    now rewrite has_char_cons, E, Hpre.
Qed.

Lemma path_suffix_has_dot (path : string) :
  path_suffix path <> "" -> has_char "." (path_name path) = true.
Proof.
  unfold path_suffix.
  destruct (Py.rfind_char "." (path_name path) <? 0)%Z eqn:E;
    [contradiction|].
  intros _. apply rfind_char_has_char. now apply Z.ltb_ge in E.
Qed.

(** Every language identifier that [get_languages] returns holds a
    dot. *)
Lemma languages_of_has_dot (directory : string)
  (fs : list (string * file)) (name : string) :
  In name (languages_of directory fs) -> has_char "." name = true.
Proof.
  unfold languages_of. destruct (is_file_at fs directory); [intros []|].
  intros H.
  apply (Permutation_in _ (sort_perm _)) in H.
  apply in_map_iff in H. destruct H as (path & <- & H).
  apply filter_In in H. destruct H as [_ H].
  apply path_suffix_has_dot. intros E. rewrite E in H. discriminate.
Qed.

End FilesAndNames.

(** ** What loading leaves in the language list *)

Section LoadedLanguages.

Variable yaml_load : string -> result value.

Lemma keeps_bind {A B : Type} (m : M A) (k : A -> M B) :
  keeps_langs_and_files m -> (forall a, keeps_langs_and_files (k a)) ->
  keeps_langs_and_files (bind m k).
Proof.
  intros Hm Hk st. unfold bind. specialize (Hm st).
  destruct (m st) as [[a|e] st1]; simpl in *; [|exact Hm].
  destruct (Hk a st1) as [H1 H2]. destruct Hm as [H3 H4].
  split; congruence.
Qed.

Lemma keeps_pure {A : Type} (r : state -> result A) :
  keeps_langs_and_files (fun st => (r st, st)).
Proof. intros st. split; reflexivity. Qed.

Lemma keeps_emit (ev : event) : keeps_langs_and_files (emit ev).
Proof. intros st. split; reflexivity. Qed.

Lemma keeps_set_runtime (rt : runtime) :
  keeps_langs_and_files (set_runtime rt).
Proof. intros st. split; reflexivity. Qed.

Lemma keeps_if {A : Type} (b : bool) (m1 m2 : M A) :
  keeps_langs_and_files m1 -> keeps_langs_and_files m2 ->
  keeps_langs_and_files (if b then m1 else m2).
Proof. now destruct b. Qed.

Lemma keeps_read_file (path : string) :
  keeps_langs_and_files (read_file path).
Proof.
  unfold read_file. apply keeps_bind; [apply keeps_pure|]. intros fs.
  destruct (lookup fs path) as [f|]; [|apply keeps_pure].
  apply keeps_if; [apply keeps_pure|].
  destruct (f_content f); try apply keeps_pure;
    (apply keeps_bind; [apply keeps_emit | intros _; apply keeps_pure]).
Qed.

Lemma keeps_load_data (file_path : string) :
  keeps_langs_and_files (load_data yaml_load file_path).
Proof.
  unfold load_data.
  apply keeps_bind; [apply keeps_pure | intros present].
  apply keeps_bind; [apply keeps_pure | intros is_dir].
  apply keeps_bind; [apply keeps_if; apply keeps_pure | intros _].
  apply keeps_bind; [apply keeps_if; apply keeps_pure | intros _].
  apply keeps_bind; [apply keeps_read_file | intros text].
  apply keeps_bind; [apply keeps_pure | intros data].
  destruct data; apply keeps_pure.
Qed.

Lemma keeps_load_keys (file_path : string) :
  keeps_langs_and_files (load_keys yaml_load file_path).
Proof.
  unfold load_keys.
  apply keeps_bind; [apply keeps_pure | intros present].
  apply keeps_bind; [apply keeps_if; apply keeps_pure | intros _].
  apply keeps_bind; [apply keeps_load_data | intros data].
  apply keeps_pure.
Qed.

Lemma keeps_for_each {A : Type} (l : list A) (body : A -> M unit) :
  (forall a, keeps_langs_and_files (body a)) ->
  keeps_langs_and_files (for_each l body).
Proof.
  intros Hb. induction l as [|a l IH]; simpl.
  - apply keeps_pure.
  - apply keeps_bind; [apply Hb | intros _; exact IH].
Qed.

(** Whatever becomes of it, [on_load] leaves in [LANG_LIST] the languages
    found in the files it started with. *)
Lemma on_load_languages (st : state) :
  LANG_LIST (snd (on_load yaml_load st))
  = languages_of LANG_FOLDER (st_files st).
Proof.
  unfold on_load.
  unfold bind at 1. unfold path_exists at 1, gets at 1. cbv beta iota.
  unfold bind at 1. unfold print at 1, emit at 1, modify at 1.
  cbv beta iota zeta.
  unfold bind at 1. unfold print at 1, emit at 1, modify at 1.
  cbv beta iota.
  unfold bind at 1. unfold get_languages at 1, gets at 1. cbv beta iota.
  unfold bind at 1. unfold set_LANG_LIST at 1, modify at 1. cbv beta iota.
  match goal with
  | |- LANG_LIST (snd (?m ?s)) = _ =>
      assert (Hk : keeps_langs_and_files m); [|now rewrite (proj1 (Hk s))]
  end.
  apply keeps_bind; [apply keeps_pure | intros langs].
  apply keeps_bind.
  { apply keeps_for_each. intros i.
    apply keeps_bind; [apply keeps_emit | intros _].
    apply keeps_bind; [apply keeps_load_data | intros data].
    apply keeps_bind; [apply keeps_pure | intros rt].
    apply keeps_bind; [apply keeps_set_runtime | intros _].
    apply keeps_bind; [apply keeps_load_keys | intros keys].
    apply keeps_bind; [apply keeps_pure | intros rt'].
    apply keeps_set_runtime. }
  intros _.
  apply keeps_bind; [apply keeps_load_data | intros data].
  apply keeps_bind; [apply keeps_pure | intros rt].
  apply keeps_bind; [apply keeps_set_runtime | intros _].
  apply keeps_bind; [apply keeps_load_keys | intros keys].
  apply keeps_bind; [apply keeps_pure | intros rt'].
  apply keeps_bind; [apply keeps_set_runtime | intros _].
  apply keeps_emit.
Qed.

End LoadedLanguages.

(** ** Occurrences of a token in a text *)

Ltac has_char_uncons H Hhead Htail :=
  rewrite has_char_cons in H; apply orb_false_iff in H;
  destruct H as [Hhead Htail].

(** The place of a character [c] tells where a token that holds it can
    occur at all. *)
Section Marker.

Variable c : ascii.

Lemma has_char_find (s : string) :
  has_char c s = true <-> (0 <= Py.find_char c s)%Z.
Proof.
  unfold has_char. rewrite negb_true_iff, Z.ltb_ge. reflexivity.
Qed.

(** When [old] begins [s] and holds [c], the first [c] of [s] is the first
    [c] of [old]. *)
Lemma find_char_prefix (old : string) :
  forall s,
    String.prefix old s = true -> has_char c old = true ->
    Py.find_char c s = Py.find_char c old.
Proof.
  induction old as [|a old IH]; intros s Hp Hc; [discriminate|].
  destruct s as [|b s]; [discriminate|]. simpl in Hp.
  destruct (ascii_dec a b) as [<-|]; [|discriminate].
  rewrite has_char_cons in Hc. simpl.
  destruct (Ascii.eqb a c); [reflexivity|]. simpl in Hc.
  now rewrite (IH s Hp Hc).
Qed.

Lemma prefix_app (old t : string) : String.prefix old (old ++ t) = true.
Proof.
  induction old as [|a old IH]; simpl; [now destruct t|].
  destruct (ascii_dec a a); [exact IH | contradiction].
Qed.

Lemma find_char_app_left (u t : string) :
  has_char c u = true -> Py.find_char c (u ++ t) = Py.find_char c u.
Proof. intros H. apply find_char_prefix; [apply prefix_app | exact H]. Qed.

Lemma find_char_app_skip (pre t : string) :
  has_char c pre = false -> has_char c t = true ->
  Py.find_char c (pre ++ t)
  = (Z.of_nat (String.length pre) + Py.find_char c t)%Z.
Proof.
  intros Hp Ht. apply has_char_find in Ht.
  induction pre as [|a pre IH]; [simpl; lia|].
  has_char_uncons Hp Ha Hp'. cbn [append Py.find_char String.length].
  rewrite Ha, (IH Hp').
  destruct (Z.of_nat (String.length pre) + Py.find_char c t <? 0)%Z eqn:E;
    [apply Z.ltb_lt in E|]; lia.
Qed.

Lemma contains_prefix (old s : string) :
  String.prefix old s = true -> Py.contains old s = true.
Proof. intros H. destruct s; simpl in *; now rewrite H. Qed.

Lemma contains_app (old pre t : string) :
  Py.contains old t = true -> Py.contains old (pre ++ t) = true.
Proof.
  intros H. induction pre as [|a pre IH]; [exact H|].
  cbn [append Py.contains]. rewrite IH. apply orb_true_r.
Qed.

(** After a replacement the scan passes over the rest of the occurrence. *)
Lemma replace_scan_skip (old new u t : string) :
  Py.replace_scan old new (String.length u) (u ++ t)
  = Py.replace_scan old new 0 t.
Proof. induction u as [|a u IH]; simpl; [reflexivity | exact IH]. Qed.

Section Token.

Variable old : string.
Hypothesis old_marked : has_char c old = true.

Lemma prefix_has_char (s : string) :
  String.prefix old s = true -> has_char c s = true.
Proof.
  intros Hp. apply has_char_find.
  rewrite (find_char_prefix old s Hp old_marked). now apply has_char_find.
Qed.

(** A token whose first [c] stands at another place than the first [c] of
    the text does not begin the text. *)
Lemma prefix_first_char (s : string) :
  Py.find_char c s <> Py.find_char c old -> String.prefix old s = false.
Proof.
  intros Hne. destruct (String.prefix old s) eqn:E; [|reflexivity].
  now apply find_char_prefix in E.
Qed.

Lemma contains_has_char (s : string) :
  has_char c s = false -> Py.contains old s = false.
Proof.
  induction s as [|b s IH]; intros Hs.
  - simpl. destruct old; [discriminate old_marked | reflexivity].
  - cbn [Py.contains].
    destruct (String.prefix old (String b s)) eqn:E.
    + apply prefix_has_char in E. congruence.
    + apply IH. now has_char_uncons Hs Hb Hs'.
Qed.

Lemma replace_scan_none (new s : string) :
  has_char c s = false -> Py.replace_scan old new 0 s = s.
Proof.
  induction s as [|b s IH]; intros Hs; [reflexivity|].
  cbn [Py.replace_scan].
  destruct (String.prefix old (String b s)) eqn:E.
  - apply prefix_has_char in E. congruence.
  - f_equal. apply IH. now has_char_uncons Hs Hb Hs'.
Qed.

(** A token does not occur in a text that holds [c] in its part [u] and
    not before, when the first [c] of the token comes before the first [c]
    of [u] and the token occurs nowhere from [u] on. *)
Lemma contains_earlier_char (u pre post : string) :
  has_char c u = true -> has_char c pre = false ->
  (Py.find_char c old < Py.find_char c u)%Z ->
  Py.contains old (u ++ post) = false ->
  Py.contains old (pre ++ u ++ post) = false.
Proof.
  intros Hu Hpre Hlt Hbase.
  induction pre as [|b pre IH]; [exact Hbase|].
  assert (Hf : String.prefix old (String b pre ++ u ++ post) = false).
  { apply prefix_first_char.
    rewrite find_char_app_skip.
    - rewrite (find_char_app_left u post Hu). lia.
    - exact Hpre.
    - rewrite has_char_app, Hu. reflexivity. }
  has_char_uncons Hpre Hb Hpre'.
  cbn [append Py.contains] in *. rewrite Hf. now apply IH.
Qed.

End Token.

(** The one occurrence of a token [String a u], found by the place of its
    first [c], is replaced; the text around it, free of [c], stays. *)
Lemma replace_single (a : ascii) (u new pre post : string) :
  has_char c (String a u) = true ->
  has_char c pre = false -> has_char c post = false ->
  Py.replace (String a u) new (pre ++ String a u ++ post)
  = pre ++ new ++ post.
Proof.
  intros Hc Hpre Hpost. unfold Py.replace.
  induction pre as [|b pre IH].
  - cbn [append Py.replace_scan].
    change (String a (u ++ post)) with (String a u ++ post).
    rewrite prefix_app. f_equal.
    cbn [String.length]. rewrite Nat.sub_1_r. cbn [Nat.pred].
    rewrite replace_scan_skip.
    now apply replace_scan_none.
  - assert (Hf : String.prefix (String a u)
                   (String b pre ++ String a u ++ post) = false).
    { apply prefix_first_char; [exact Hc|].
      rewrite find_char_app_skip.
      - rewrite (find_char_app_left (String a u) post Hc).
        cbn [String.length]. lia.
      - exact Hpre.
      - rewrite has_char_app, Hc. reflexivity. }
    has_char_uncons Hpre Hb Hpre'.
    cbn [append Py.replace_scan] in *. rewrite Hf.
    f_equal. now apply IH.
Qed.

End Marker.

(** The tokens of the two passes, told apart by their colon. *)
Section Tokens.

Variables k pre post : string.
Hypothesis pre_plain : has_char ":" pre = false.
Hypothesis post_plain : has_char ":" post = false.

(** No environment token occurs in a text whose only colon is that of a
    language token. *)
Lemma env_token_absent (i : string) :
  has_char ":" k = false ->
  Py.contains ("env:" ++ i) (pre ++ ("i18n:" ++ k) ++ post) = false.
Proof.
  intros Hk.
  apply (contains_earlier_char ":" ("env:" ++ i) eq_refl);
    try reflexivity; try assumption.
  assert (Hrest : Py.contains ("env:" ++ i) (k ++ post) = false).
  { apply (contains_has_char ":" ("env:" ++ i) eq_refl).
    now rewrite has_char_app, Hk, post_plain. }
  cbn in Hrest |- *. now rewrite Hrest.
Qed.

Lemma i18n_token_present :
  Py.contains ("i18n:" ++ k) (pre ++ ("i18n:" ++ k) ++ post) = true.
Proof. apply contains_app, contains_prefix, prefix_app. Qed.

Lemma i18n_token_replaced (new : string) :
  Py.replace ("i18n:" ++ k) new (pre ++ ("i18n:" ++ k) ++ post)
  = pre ++ new ++ post.
Proof.
  now apply (replace_single ":" "i" ("18n:" ++ k) new pre post).
Qed.

End Tokens.

(** ** The cases of [replace_text_in_file] *)

Lemma replace_text_in_file_missing (path new_text old_text : string)
  (flag : bool) (st : state) :
  lookup (st_files st) path = None ->
  replace_text_in_file path new_text old_text flag st
  = (Ok tt,
     log_event (Printed ("Target file `" ++ path ++ "` not exists!")) st).
Proof.
  intros Hf. unfold replace_text_in_file, bind, path_exists, gets.
  now rewrite Hf.
Qed.

(** The guard: nothing is read or written, three lines are printed. *)
Lemma replace_text_in_file_guard (path new_text old_text : string)
  (flag : bool) (st : state) (f : file) :
  lookup (st_files st) path = Some f ->
  negb flag && negb (Py.contains "html" (Py.lower (path_suffix path))) = true ->
  exists st' lines,
    replace_text_in_file path new_text old_text flag st
    = (Raise (SystemExit 255), st')
    /\ only_trace st st'
    /\ st_log st' = (st_log st ++ map Printed lines)%list.
Proof.
  intros Hf Hg.
  unfold replace_text_in_file, bind, path_exists, gets, print, emit, modify,
    raise.
  rewrite Hf. cbn [negb]. rewrite Hg.
  eexists. eexists [_; _; _]. split; [reflexivity|].
  split; [repeat split|]. cbn. now rewrite <- !app_assoc.
Qed.

(** Past the guard: the file is opened, read and, when its text holds the
    old text, written. *)
Lemma replace_text_in_file_past_guard (path new_text old_text : string)
  (flag : bool) (st : state) (f : file) :
  lookup (st_files st) path = Some f ->
  negb flag && negb (Py.contains "html" (Py.lower (path_suffix path)))
  = false ->
  replace_text_in_file path new_text old_text flag st
  = if negb (f_readable f)
    then (Ok tt,
          log_event
            (Printed "ERR: Permission denied, check filesystem permissions.")
            st)
    else
      match f_content f with
      | Directory => (Raise IsADirectoryError, st)
      | Binary => (Raise UnicodeDecodeError, log_event (FileRead path) st)
      | Text raw =>
          if negb (Py.contains old_text (Py.universal_newlines raw))
          then (Ok tt, log_event (FileRead path) st)
          else if f_writable f
          then (Ok tt,
                log_event
                  (FileWritten path
                     (Py.replace old_text new_text
                        (Py.universal_newlines raw)))
                  (with_files
                     (update (st_files st) path
                        (mk_file
                           (Py.replace old_text new_text
                              (Py.universal_newlines raw))
                           (f_readable f) (f_writable f)))
                     (log_event (FileRead path) st)))
          else (Ok tt,
                log_event
                  (Printed
                     "ERR: Permission denied, check filesystem permissions.")
                  (log_event (FileRead path) st))
      end.
Proof.
  intros Hf Hg. unfold replace_text_in_file.
  rewrite (bind_ok _ _ _ _ _ (path_exists_found path st f Hf)).
  cbn [negb]. rewrite Hg. unfold try_except_PermissionError.
  destruct (f_readable f) eqn:Hr; cbn [negb].
  - rewrite (bind_def_read path st f _ Hf Hr).
    destruct (f_content f) as [raw| |] eqn:Hc; try reflexivity.
    cbn [read_text].
    destruct (Py.contains old_text (Py.universal_newlines raw)); cbn [negb];
      [|reflexivity].
    destruct (f_writable f) eqn:Hw.
    + rewrite (write_file_ok path _ (log_event (FileRead path) st) f Hf Hw)
        by (unfold is_file; now rewrite Hc).
      now rewrite Hr, Hw.
    + rewrite (write_file_closed path _ (log_event (FileRead path) st) f
                 Hf Hw)
        by (unfold is_file; now rewrite Hc).
      reflexivity.
  - unfold bind. now rewrite (read_file_closed path st f Hf Hr).
Qed.

(** ** What a replacement leaves *)

Lemma prefix_refl (s : string) : String.prefix s s = true.
Proof.
  induction s as [|a s IH]; [reflexivity|]. simpl.
  destruct (ascii_dec a a); [exact IH | contradiction].
Qed.

(** Where the old text occurs, the text after the replacement holds the
    new text. *)
Lemma contains_replace (old new s : string) :
  Py.contains old s = true -> Py.contains new (Py.replace old new s) = true.
Proof.
  unfold Py.replace. destruct old as [|a old].
  - intros _. destruct s as [|c s]; cbn [Py.intersperse].
    + apply contains_prefix, prefix_refl.
    + apply contains_prefix, prefix_app.
  - induction s as [|c s IH]; [discriminate|].
    cbn [Py.contains Py.replace_scan].
    destruct (String.prefix (String a old) (String c s)) eqn:E.
    + intros _. apply contains_prefix, prefix_app.
    + cbn [orb]. intros H. specialize (IH H).
      destruct (Py.replace_scan (String a old) new 0 s) eqn:R;
        cbn [Py.contains]; rewrite ?R in *;
        [destruct new; [reflexivity | discriminate IH]|].
      cbn [Py.contains] in IH. rewrite IH. apply orb_true_r.
Qed.

(** ** Rendering *)

Section Rendering.

Context {I : Interpreter}.

(** Without a data argument that counts, the environment resolver works
    on the mapping of the registry. *)
Lemma get_actual_env_content_registry (key : string) (data : value)
  (st : state) (d : list (pykey * value)) :
  truthy data = false -> DATA_ENV (st_runtime st) = VDict d ->
  get_actual_env_content key data st
  = get_actual_content key (VDict d) ("env:" ++ key) st.
Proof.
  intros Ht H. unfold get_actual_env_content.
  rewrite (bind_ok _ _ st st ("env:" ++ key)) by reflexivity.
  rewrite (bind_ok _ _ st st (VDict d)) by (unfold gets; now rewrite H).
  rewrite Ht. now rewrite (bind_ok _ _ st st (VDict d)) by reflexivity.
Qed.

Lemma get_actual_i18n_content_registry (key lang_file : string)
  (data : value) (st : state) (d : list (pykey * value)) :
  truthy data = false ->
  lookup (DATA_I18N (st_runtime st)) lang_file = Some (VDict d) ->
  get_actual_i18n_content key lang_file data st
  = get_actual_content key (VDict d) ("i18n:" ++ key) st.
Proof.
  intros Ht H. unfold get_actual_i18n_content.
  rewrite (bind_ok _ _ st st ("i18n:" ++ key)) by reflexivity.
  rewrite (bind_ok _ _ st st (DATA_I18N (st_runtime st))) by reflexivity.
  rewrite H. rewrite (bind_ok _ _ st st (VDict d)) by reflexivity.
  rewrite Ht. now rewrite (bind_ok _ _ st st (VDict d)) by reflexivity.
Qed.

(** The calls of a pass on an output file [path] with an HTML suffix that
    holds the readable text file [f]. *)
Section OutputFile.

Variables (path : string) (f : file) (raw : string).
Hypothesis path_is_html :
  Py.contains "html" (Py.lower (path_suffix path)) = true.
Hypothesis f_can_be_read : f_readable f = true.
Hypothesis f_is_text : f_content f = Text raw.

(** A call for a token that the text read does not hold reads the file and
    leaves it. *)
Lemma replace_text_in_file_absent (st : state) (new_text old_text : string) :
  lookup (st_files st) path = Some f ->
  Py.contains old_text (Py.universal_newlines raw) = false ->
  replace_text_in_file path new_text old_text false st
  = (Ok tt, log_event (FileRead path) st).
Proof.
  intros Hf Hc. unfold replace_text_in_file.
  rewrite (bind_ok _ _ _ _ _ (path_exists_found path st f Hf)).
  rewrite path_is_html. cbn [negb andb]. unfold try_except_PermissionError.
  rewrite (bind_ok _ _ _ _ _
             (read_file_ok path st f raw Hf f_can_be_read f_is_text)).
  now rewrite Hc.
Qed.

(** A call for a token that the text read holds writes the file with the
    token replaced in the text read. *)
Lemma replace_text_in_file_present (st : state) (new_text old_text : string) :
  lookup (st_files st) path = Some f ->
  f_writable f = true ->
  Py.contains old_text (Py.universal_newlines raw) = true ->
  replace_text_in_file path new_text old_text false st
  = (Ok tt,
     log_event
       (FileWritten path
          (Py.replace old_text new_text (Py.universal_newlines raw)))
       (with_files
          (update (st_files st) path
             (mk_file
                (Py.replace old_text new_text (Py.universal_newlines raw))
                true true))
          (log_event (FileRead path) st))).
Proof.
  intros Hf Hw Hc. unfold replace_text_in_file.
  rewrite (bind_ok _ _ _ _ _ (path_exists_found path st f Hf)).
  rewrite path_is_html. cbn [negb andb]. unfold try_except_PermissionError.
  rewrite (bind_ok _ _ _ _ _
             (read_file_ok path st f raw Hf f_can_be_read f_is_text)).
  rewrite Hc. cbn [negb].
  rewrite (write_file_ok path _ (log_event (FileRead path) st) f Hf Hw)
    by (unfold is_file; now rewrite f_is_text).
  now rewrite f_can_be_read, Hw.
Qed.

End OutputFile.

(** A mapping with one clean key flattens to that key, and the key
    resolves to its text. *)
Lemma load_keys_data_single (k text : string) :
  clean_key k = true ->
  load_keys_data (VDict [(KStr k, VStr text)]) = Ok [k]
  /\ forall fallback,
      get_actual_content_walk (split_key_by_dot k)
        (VDict [(KStr k, VStr text)]) fallback = Ok text.
Proof.
  intros Hk.
  assert (Hks : forallb clean_key [k] = true) by (simpl; now rewrite Hk).
  split.
  - destruct (load_keys_data_total (VDict [(KStr k, VStr text)])
                eq_refl eq_refl) as [l Hl].
    rewrite Hl. f_equal.
    destruct (load_keys_data_sorted _ _ Hl) as [Hs Hn].
    apply sorted_nodup_ext; [exact Hs | exact Hn | | |].
    + repeat constructor.
    + repeat constructor. intros [].
    + intros x. rewrite (load_keys_data_keys _ _ Hl x). split.
      * intros (ks & v & Hp & Hv & Hkey). apply path_to_inv in Hp.
        destruct Hp as [(kk & -> & [E|[]])
                       |(kk & d' & ks' & -> & [E|[]] & Hd & _)].
        -- injection E as <- <-.
           pose proof (key_of_path_clean [k] Hks) as Hj. simpl map in Hj.
           rewrite Hj in Hkey. injection Hkey as <-. now left.
        -- injection E as _ <-. discriminate.
      * intros [<-|[]]. exists [KStr k], (VStr text).
        split; [apply path_last; now left|]. split; [reflexivity|].
        apply (key_of_path_clean [k] Hks).
  - intros fallback.
    change k with (Py.join "." [k]) at 1.
    rewrite (split_key_by_dot_join [k]) by (discriminate || exact Hks).
    simpl. now rewrite String.eqb_refl.
Qed.

(** One call of a pass on an output file that is a text file, readable
    and writable, with an HTML suffix. *)
Lemma replace_text_in_file_step (target raw new_text old_text : string)
  (st : state) :
  Py.contains "html" (Py.lower (path_suffix target)) = true ->
  lookup (st_files st) target = Some (mk_file raw true true) ->
  exists st',
    replace_text_in_file target new_text old_text false st = (Ok tt, st')
    /\ st_runtime st' = st_runtime st
    /\ HTML_COPIED_FILE st' = HTML_COPIED_FILE st
    /\ lookup (st_files st') target
       = Some (mk_file (substitute_one old_text new_text raw) true true).
Proof.
  intros Hs Hf. unfold substitute_one. cbv zeta.
  destruct (Py.contains old_text (Py.universal_newlines raw)) eqn:Hc.
  - rewrite (replace_text_in_file_present target (mk_file raw true true) raw
               Hs eq_refl eq_refl st _ _ Hf eq_refl Hc).
    eexists. split; [reflexivity|]. cbn.
    rewrite lookup_update_same. auto.
  - rewrite (replace_text_in_file_absent target (mk_file raw true true) raw
               Hs eq_refl eq_refl st _ _ Hf Hc).
    eexists. split; [reflexivity|]. cbn. auto.
Qed.

(** One pass of [main]: the loop over the keys of a namespace, on an
    output file with an HTML suffix that can be read and written. *)
Section Pass.

Variables (mode : string) (resolver : string -> M string)
  (text : string -> string) (rt : runtime) (target : string).
Hypothesis mode_known :
  forall i, get_template_text mode i = Ok (mode ++ ":" ++ i).
Hypothesis resolver_text :
  forall i st, st_runtime st = rt ->
               fst (resolver i st) = Ok (text i)
               /\ only_trace st (snd (resolver i st)).
Hypothesis target_is_html :
  Py.contains "html" (Py.lower (path_suffix target)) = true.

Lemma pass_spec (keys : list string) :
  forall st (raw : string),
    st_runtime st = rt -> HTML_COPIED_FILE st = target ->
    lookup (st_files st) target = Some (mk_file raw true true) ->
    exists st',
      for_each keys (fun i =>
        old_text <- lift (get_template_text mode i) ;;
        new_text <- resolver i ;;
        target <- gets HTML_COPIED_FILE ;;
        replace_text_in_file target new_text old_text false) st
      = (Ok tt, st')
      /\ st_runtime st' = rt /\ HTML_COPIED_FILE st' = target
      /\ lookup (st_files st') target
         = Some (mk_file (substitute mode text keys raw) true true).
Proof.
  induction keys as [|i keys IH]; intros st raw Hrt Ht Hf.
  - exists st. repeat split; assumption.
  - cbn [for_each]. unfold substitute. cbn [fold_left].
    fold (substitute mode text keys).
    assert (Hstep : exists st1,
      (old_text <- lift (get_template_text mode i) ;;
       new_text <- resolver i ;;
       target <- gets HTML_COPIED_FILE ;;
       replace_text_in_file target new_text old_text false) st
      = (Ok tt, st1)
      /\ st_runtime st1 = rt /\ HTML_COPIED_FILE st1 = target
      /\ lookup (st_files st1) target
         = Some (mk_file
                   (substitute_one (mode ++ ":" ++ i) (text i) raw)
                   true true)).
    { rewrite (bind_ok _ _ st st (mode ++ ":" ++ i))
        by (unfold lift; now rewrite mode_known).
      destruct (resolver_text i st Hrt) as [Hres (R & _ & _ & T & F)].
      destruct (resolver i st) as [r s0] eqn:Er. simpl in Hres, R, T, F.
      subst r.
      rewrite (bind_ok _ _ st s0 (text i)) by exact Er.
      rewrite (bind_ok _ _ s0 s0 target)
        by (unfold gets; now rewrite T, Ht).
      destruct (replace_text_in_file_step target raw (text i)
                  (mode ++ ":" ++ i) s0 target_is_html)
        as (st1 & Hrun & R1 & T1 & F1).
      { now rewrite F. }
      exists st1. split; [exact Hrun|].
      repeat split; congruence. }
    destruct Hstep as (st1 & Hrun & Hrt1 & Ht1 & Hf1).
    rewrite (bind_ok _ _ _ _ _ Hrun).
    now apply IH.
Qed.

End Pass.

Lemma substitute_one_absent (token new_text content : string) :
  Py.contains token (Py.universal_newlines content) = false ->
  substitute_one token new_text content = content.
Proof. intros H. unfold substitute_one. cbv zeta. now rewrite H. Qed.

Lemma substitute_absent (mode : string) (text : string -> string)
  (keys : list string) (content : string) :
  (forall i, In i keys ->
             Py.contains (mode ++ ":" ++ i) (Py.universal_newlines content)
             = false) ->
  substitute mode text keys content = content.
Proof.
  unfold substitute.
  induction keys as [|i keys IH]; intros H; [reflexivity|].
  cbn [fold_left].
  rewrite substitute_one_absent by (apply H; now left).
  apply IH. intros j Hj. apply H. now right.
Qed.

Lemma substitute_app (mode : string) (text : string -> string)
  (keys1 keys2 : list string) (content : string) :
  substitute mode text (keys1 ++ keys2) content
  = substitute mode text keys2 (substitute mode text keys1 content).
Proof. unfold substitute. apply fold_left_app. Qed.

Lemma text_in_spec (data : value) (mode i : string) (st : state) :
  fst (get_actual_content i data (mode ++ ":" ++ i) st)
  = Ok (text_in data mode i)
  /\ only_trace st (snd (get_actual_content i data (mode ++ ":" ++ i) st)).
Proof. apply get_actual_content_returns. Qed.

(** A full render is the language pass on what the environment pass made
    of the output file. *)
Lemma main_substitutes (st : state) (lang_file target raw : string)
  (e d : list (pykey * value)) (keys : list string) (f : file) :
  DATA_ENV (st_runtime st) = VDict e ->
  lookup (DATA_I18N (st_runtime st)) lang_file = Some (VDict d) ->
  lookup (DATA_I18N_TRKEYS (st_runtime st)) lang_file = Some keys ->
  HTML_COPIED_FILE st = target ->
  Py.contains "html" (Py.lower (path_suffix target)) = true ->
  lookup (st_files st) target = Some f ->
  f_content f = Text raw ->
  f_readable f = true -> f_writable f = true ->
  exists st',
    main lang_file st = (Ok tt, st')
    /\ lookup (st_files st') target
       = Some (mk_file
                 (substitute "i18n" (text_in (VDict d) "i18n") keys
                    (substitute "env" (text_in (VDict e) "env")
                       (DATA_ENV_KEYS (st_runtime st)) raw))
                 true true).
Proof.
  intros He Hd Hkeys Ht Hs Hf Hc Hr Hw.
  assert (Hf' : lookup (st_files st) target = Some (mk_file raw true true)).
  { rewrite Hf. destruct f; simpl in *. now subst. }
  unfold main.
  rewrite (bind_ok _ _ st st (DATA_ENV_KEYS (st_runtime st))) by reflexivity.
  destruct (pass_spec "env" (fun i => get_actual_env_content i VNone)
              (text_in (VDict e) "env") (st_runtime st) target)
    with (keys := DATA_ENV_KEYS (st_runtime st)) (st := st)
         (raw := raw)
    as (st1 & Hrun1 & R1 & T1 & F1); auto.
  { intros i st0 Hrt.
    rewrite (get_actual_env_content_registry i VNone st0 e eq_refl)
      by now rewrite Hrt.
    apply (text_in_spec (VDict e) "env" i). }
  cbv beta in Hrun1. rewrite (bind_ok _ _ _ _ _ Hrun1).
  set (st2 := log_event (Printed "Replaced environment texts!") st1).
  rewrite (bind_ok _ _ st1 st2 tt) by reflexivity.
  rewrite (bind_ok _ _ st2 st2 (DATA_I18N_TRKEYS (st_runtime st)))
    by (unfold gets; cbn; now rewrite R1).
  rewrite Hkeys.
  rewrite (bind_ok _ _ st2 st2 keys) by reflexivity.
  destruct (pass_spec "i18n"
              (fun i => get_actual_i18n_content i lang_file VNone)
              (text_in (VDict d) "i18n") (st_runtime st) target)
    with (keys := keys) (st := st2)
         (raw := substitute "env" (text_in (VDict e) "env")
                       (DATA_ENV_KEYS (st_runtime st)) raw)
    as (st3 & Hrun3 & R3 & T3 & F3); auto.
  { intros i st0 Hrt.
    rewrite (get_actual_i18n_content_registry i lang_file VNone st0 d eq_refl)
      by now rewrite Hrt.
    apply (text_in_spec (VDict d) "i18n" i). }
  cbv beta in Hrun3. rewrite (bind_ok _ _ _ _ _ Hrun3).
  eexists. split; [reflexivity|]. exact F3.
Qed.

End Rendering.

(** * The claims *)

(** C1, as stated, fails.  The key ["a.b"] of the first map flattens to
    ["a.b"], which resolves to the fallback and not to the text ["X"] of
    its value; the key ["n"] of the second map flattens to ["n"], which
    resolves to the fallback, its value being [None]; and the key ["a"] of
    the third map, whose value is an integer of 4301 digits, resolves to
    the fallback, a line being printed, since [str] raises. *)
Lemma flattened_key_resolves_to_fallback :
  load_keys_data (VDict [(KStr "a.b", VStr "X")]) = Ok ["a.b"]
  /\ @get_actual_content example_interpreter "a.b"
       (VDict [(KStr "a.b", VStr "X")]) "FB" ordering_example
     = (Ok "FB", ordering_example)
  /\ load_keys_data (VDict [(KStr "n", VNone)]) = Ok ["n"]
  /\ @get_actual_content example_interpreter "n"
       (VDict [(KStr "n", VNone)]) "FB" ordering_example
     = (Ok "FB", ordering_example)
  /\ load_keys_data (VDict [(KStr "a", VInt (10 ^ 4300))]) = Ok ["a"]
  /\ @get_actual_content example_interpreter "a"
       (VDict [(KStr "a", VInt (10 ^ 4300))]) "FB" ordering_example
     = (Ok "FB",
        log_event
          (Printed
             "DBG: Error accessing key a: Exceeds the limit (4300 digits) for integer string conversion; use sys.set_int_max_str_digits() to increase the limit")
          ordering_example).
Proof.
  split; [reflexivity|]. split; [reflexivity|]. split; [reflexivity|].
  split; [reflexivity|]. split; [reflexivity|].
  vm_compute. reflexivity.
Qed.

(** C1, as the code has it.  In a nested map whose mappings bind clean
    [str] keys only (not empty, without a dot, no white space at the ends),
    each once, every key that [load_keys] returns is the keys of a path to a
    value that is not a map, joined by dots, and [get_actual_content]
    resolves it, whatever the fallback, to the text of that value: the text
    itself, [str] of another value, and the fallback for [None] and for a
    value on which [str] raises.  Nothing but the trace changes: no line is
    printed when [str] returns, and one line when it raises. *)
Theorem flattened_clean_key_resolves {I : Interpreter} (data : value)
  (l : list string) (k fallback : string) (st : state) :
  clean_map data = true -> load_keys_data data = Ok l -> In k l ->
  exists ss v,
    path_to data (map KStr ss) v /\ is_dict v = false
    /\ k = Py.join "." ss
    /\ fst (get_actual_content k data fallback st) = Ok (text_of v fallback)
    /\ (v = VNone \/ (exists s, py_str v = Ok s) ->
        snd (get_actual_content k data fallback st) = st)
    /\ (forall e, v <> VNone -> py_str v = Raise e ->
        snd (get_actual_content k data fallback st)
        = log_event
            (Printed ("DBG: Error accessing key " ++ k ++ ": " ++ exn_text e))
            st).
Proof.
  intros Hc Hl Hk.
  apply (load_keys_data_keys _ _ Hl) in Hk.
  destruct Hk as (ks & v & Hp & Hv & Hkey).
  destruct (clean_path_resolves _ _ _ Hp Hc Hv) as (ss & -> & Hne & Hss & Hw).
  rewrite (key_of_path_clean ss Hss) in Hkey. injection Hkey as <-.
  exists ss, v. split; [exact Hp|]. split; [exact Hv|].
  split; [reflexivity|].
  rewrite get_actual_content_run, (split_key_by_dot_join ss Hne Hss), Hw.
  unfold text_of. cbn [get_actual_content_walk].
  destruct v as [s|z|b| |items|items]; try discriminate; cbn [fst snd].
  - repeat split; auto. intros e _ H. discriminate H.
  - destruct (py_str (VInt z)) as [s|e] eqn:E; cbn [fst snd].
    + repeat split; auto. intros e _ H. discriminate H.
    + split; [reflexivity|]. split.
      * intros [H|[s H]]; discriminate H.
      * intros e' _ H. now injection H as <-.
  - destruct (py_str (VBool b)) as [s|e] eqn:E; cbn [fst snd].
    + repeat split; auto. intros e _ H. discriminate H.
    + split; [reflexivity|]. split.
      * intros [H|[s H]]; discriminate H.
      * intros e' _ H. now injection H as <-.
  - repeat split; auto. intros e H. contradiction.
  - destruct (py_str (VList items)) as [s|e] eqn:E; cbn [fst snd].
    + repeat split; auto. intros e _ H. discriminate H.
    + split; [reflexivity|]. split.
      * intros [H|[s H]]; discriminate H.
      * intros e' _ H. now injection H as <-.
Qed.

Lemma flattened_clean_key_resolves_witness :
  load_keys_data
    (VDict [(KStr "a", VDict [(KStr "b", VStr "X"); (KStr "n", VInt 3)]);
            (KStr "c", VNone)])
  = Ok ["a.b"; "a.n"; "c"]
  /\ @get_actual_content example_interpreter "a.n"
       (VDict [(KStr "a", VDict [(KStr "b", VStr "X"); (KStr "n", VInt 3)]);
               (KStr "c", VNone)]) "FB" ordering_example
     = (Ok "3", ordering_example)
  /\ exists ss v,
      path_to
        (VDict [(KStr "a", VDict [(KStr "b", VStr "X"); (KStr "n", VInt 3)]);
                (KStr "c", VNone)]) (map KStr ss) v
      /\ is_dict v = false
      /\ "a.n" = Py.join "." ss
      /\ fst (@get_actual_content example_interpreter "a.n"
                (VDict [(KStr "a", VDict [(KStr "b", VStr "X");
                                          (KStr "n", VInt 3)]);
                        (KStr "c", VNone)]) "FB" ordering_example)
         = Ok (@text_of example_interpreter v "FB").
Proof.
  split; [reflexivity|]. split; [vm_compute; reflexivity|].
  destruct (@flattened_clean_key_resolves example_interpreter
              (VDict [(KStr "a", VDict [(KStr "b", VStr "X");
                                        (KStr "n", VInt 3)]);
                      (KStr "c", VNone)])
              ["a.b"; "a.n"; "c"] "a.n" "FB" ordering_example)
    as (ss & v & H1 & H2 & H3 & H4 & _).
  - reflexivity.
  - reflexivity.
  - simpl. auto.
  - exists ss, v. auto.
Defined.

(** C2, as stated, fails.  In the run of [ordering_example] the language
    [en.yml] is selected and rendered: the environment resolves [foo] to
    ["BAR"], which replaces the token of the template, while the place of
    the token of [greeting] ends up holding the literal ["env:foo"]. *)
Lemma language_value_env_token_not_substituted :
  fst (@get_actual_env_content example_interpreter "foo" VNone
         ordering_example) = Ok "BAR"
  /\ fst ((@on_user_input example_interpreter "en.yml" ;;
           @main example_interpreter "en.yml") ordering_example) = Ok tt
  /\ lookup
       (st_files (snd ((@on_user_input example_interpreter "en.yml" ;;
                        @main example_interpreter "en.yml")
                         ordering_example)))
       "index.en.html"
     = Some (mk_file "<p>env:foo</p><b>BAR</b>" true true).
Proof. repeat split; vm_compute; reflexivity. Qed.

(** C2, as the code has it.  A full render of an output file that is a
    text file, readable and writable, with an HTML suffix, is the language
    pass on what the environment pass made of the file, and nothing comes
    after it.  So where the language map resolves a key [k] to the text
    ["env:foo"], the call for [k] puts the literal ["env:foo"] in the place
    of every token of [k], and there it stays, whatever the environment
    map holds for [foo]: when the tokens of the other language keys occur
    neither before nor after that call, the file ends as the text read
    after the environment pass with the tokens of [k] replaced by
    ["env:foo"]. *)
Theorem language_value_keeps_env_token {I : Interpreter} (st : state)
  (lang_file target raw : string) (e d : list (pykey * value))
  (keys : list string) (f : file) :
  DATA_ENV (st_runtime st) = VDict e ->
  lookup (DATA_I18N (st_runtime st)) lang_file = Some (VDict d) ->
  lookup (DATA_I18N_TRKEYS (st_runtime st)) lang_file = Some keys ->
  HTML_COPIED_FILE st = target ->
  Py.contains "html" (Py.lower (path_suffix target)) = true ->
  lookup (st_files st) target = Some f ->
  f_content f = Text raw ->
  f_readable f = true -> f_writable f = true ->
  exists st',
    main lang_file st = (Ok tt, st')
    /\ lookup (st_files st') target
       = Some (mk_file
                 (substitute "i18n" (text_in (VDict d) "i18n") keys
                    (substitute "env" (text_in (VDict e) "env")
                       (DATA_ENV_KEYS (st_runtime st)) raw))
                 true true)
    /\ forall k keys1 keys2 after_env,
        keys = (keys1 ++ k :: keys2)%list ->
        text_in (VDict d) "i18n" k = "env:foo" ->
        after_env
        = Py.universal_newlines
            (substitute "env" (text_in (VDict e) "env")
               (DATA_ENV_KEYS (st_runtime st)) raw) ->
        (forall j, In j keys1 ->
                   Py.contains ("i18n:" ++ j) after_env = false) ->
        Py.contains ("i18n:" ++ k) after_env = true ->
        (forall j, In j keys2 ->
                   Py.contains ("i18n:" ++ j)
                     (Py.universal_newlines
                        (Py.replace ("i18n:" ++ k) "env:foo" after_env))
                   = false) ->
        lookup (st_files st') target
        = Some (mk_file (Py.replace ("i18n:" ++ k) "env:foo" after_env)
                  true true)
        /\ Py.contains "env:foo"
             (Py.replace ("i18n:" ++ k) "env:foo" after_env) = true.
Proof.
  intros He Hlang Htr Ht Hs Hf Hc Hr Hw.
  destruct (main_substitutes st lang_file target raw e d keys f
              He Hlang Htr Ht Hs Hf Hc Hr Hw) as (st' & Hrun & Hfile).
  exists st'. split; [exact Hrun|]. split; [exact Hfile|].
  intros k keys1 keys2 after_env -> Htext -> H1 Hk H2.
  split; [|now apply contains_replace].
  rewrite Hfile. do 3 f_equal.
  rewrite substitute_app, (substitute_absent "i18n" _ keys1) by exact H1.
  change (k :: keys2) with ([k] ++ keys2)%list. rewrite substitute_app.
  assert (Hstep :
    substitute "i18n" (text_in (VDict d) "i18n") [k]
      (substitute "env" (text_in (VDict e) "env")
         (DATA_ENV_KEYS (st_runtime st)) raw)
    = Py.replace ("i18n:" ++ k) "env:foo"
        (Py.universal_newlines
           (substitute "env" (text_in (VDict e) "env")
              (DATA_ENV_KEYS (st_runtime st)) raw))).
  { unfold substitute at 1. cbn [fold_left]. unfold substitute_one.
    cbv zeta. change ("i18n" ++ ":" ++ k) with ("i18n:" ++ k).
    now rewrite Hk, Htext. }
  rewrite Hstep. now apply substitute_absent.
Qed.

Lemma language_value_keeps_env_token_witness :
  exists st',
    @main example_interpreter "en.yml"
      (mk_state
         (mk_runtime (VDict [(KStr "foo", VStr "BAR")]) ["foo"]
            [("en.yml", VDict [(KStr "greeting", VStr "env:foo");
                               (KStr "title", VStr "T")])]
            [("en.yml", ["greeting"; "title"])])
         ["en.yml"] "index.en.html" "index.en.html"
         [("index.en.html",
           mk_file "<p>i18n:greeting</p><b>env:foo</b>" true true)] [])
    = (Ok tt, st')
    /\ lookup (st_files st') "index.en.html"
       = Some (mk_file "<p>env:foo</p><b>BAR</b>" true true).
Proof.
  destruct (@language_value_keeps_env_token example_interpreter
              (mk_state
                 (mk_runtime (VDict [(KStr "foo", VStr "BAR")]) ["foo"]
                    [("en.yml", VDict [(KStr "greeting", VStr "env:foo");
                                       (KStr "title", VStr "T")])]
                    [("en.yml", ["greeting"; "title"])])
                 ["en.yml"] "index.en.html" "index.en.html"
                 [("index.en.html",
                   mk_file "<p>i18n:greeting</p><b>env:foo</b>" true true)]
                 [])
              "en.yml" "index.en.html"
              "<p>i18n:greeting</p><b>env:foo</b>"
              [(KStr "foo", VStr "BAR")]
              [(KStr "greeting", VStr "env:foo"); (KStr "title", VStr "T")]
              ["greeting"; "title"]
              (mk_file "<p>i18n:greeting</p><b>env:foo</b>" true true))
    as (st' & Hrun & _ & Hfile); try reflexivity.
  exists st'. split; [exact Hrun|].
  destruct (Hfile "greeting" [] ["title"] "<p>i18n:greeting</p><b>BAR</b>")
    as [H _]; try reflexivity; try exact H.
  intros j [].
Defined.




(** C4, at the input where the code departs from it.  An empty key and a
    key of white space split into no segment, as the claim says; the
    resolver then converts the data themselves, so that on a map it returns
    the text of the whole map and not the fallback. *)
Theorem get_actual_content_empty_key_returns_map_text {I : Interpreter} :
  split_key_by_dot "" = [] /\ split_key_by_dot "   " = []
  /\ (forall data fallback st,
         fst (get_actual_content "" data fallback st)
         = Ok (text_of data fallback)
         /\ fst (get_actual_content "   " data fallback st)
            = Ok (text_of data fallback))
  /\ (forall st,
         3 <= repr_depth ->
         get_actual_content "" scenario_A "FB" st
         = (Ok "{'a': {'b': 'X'}}", st)
         /\ get_actual_content "   " scenario_A "FB" st
            = (Ok "{'a': {'b': 'X'}}", st)
         /\ fst (get_actual_content "" scenario_A "FB" st) <> Ok "FB").
Proof.
  split; [reflexivity|]. split; [reflexivity|]. split.
  - intros data fallback st.
    split; rewrite (proj1 (get_actual_content_returns _ _ _ _));
      f_equal; apply resolved_no_segment.
  - intros st Hd.
    assert (Hs : py_str scenario_A = Ok "{'a': {'b': 'X'}}").
    { unfold py_str, scenario_A.
      destruct repr_depth as [|[|[|n]]]; try lia. reflexivity. }
    assert (H1 : get_actual_content "" scenario_A "FB" st
                 = (Ok "{'a': {'b': 'X'}}", st)).
    { rewrite get_actual_content_run.
      change (split_key_by_dot "") with (@nil string).
      cbn [get_actual_content_walk scenario_A]. fold scenario_A.
      now rewrite Hs. }
    split; [exact H1|]. split.
    + rewrite get_actual_content_run.
      change (split_key_by_dot "   ") with (@nil string).
      cbn [get_actual_content_walk scenario_A]. fold scenario_A.
      now rewrite Hs.
    + rewrite H1. discriminate.
Qed.

(** C5. On every nested map with [str] keys [load_keys] returns a list;
    and whatever list of dotted keys [load_keys] returns, on any data, is in
    ascending lexicographic order and has no duplicate. *)
Theorem load_keys_sorted_without_duplicates (data : value) :
  (is_dict data = true -> str_keyed data = true ->
   exists l, load_keys_data data = Ok l)
  /\ (forall l, load_keys_data data = Ok l -> Sorted str_le l /\ NoDup l).
Proof.
  split.
  - apply load_keys_data_total.
  - apply load_keys_data_sorted.
Qed.

Lemma load_keys_sorted_without_duplicates_witness :
  load_keys_data
    (VDict [(KStr "z", VInt 0);
            (KStr "a", VDict [(KStr "y", VStr ""); (KStr "b", VBool false)]);
            (KStr "a.y", VInt 3)])
  = Ok ["a.b"; "a.y"; "z"]
  /\ Sorted str_le ["a.b"; "a.y"; "z"] /\ NoDup ["a.b"; "a.y"; "z"].
Proof.
  split; [reflexivity|].
  apply (proj2 (load_keys_sorted_without_duplicates
                  (VDict [(KStr "z", VInt 0);
                          (KStr "a", VDict [(KStr "y", VStr "");
                                            (KStr "b", VBool false)]);
                          (KStr "a.y", VInt 3)]))).
  reflexivity.
Defined.

(** C6. Whether a value is a leaf depends on its type alone.  On a nested
    map with [str] keys, [load_keys] returns a list; every value that is not
    a map, the empty text, zero and false among them, has the dotted key of
    its path in that list; every key of the list is the dotted key of a path
    to such a value; and a binding to an empty map adds nothing: without it
    the list is the same. *)
Theorem load_keys_leaf_by_type (data : value) :
  is_dict data = true -> str_keyed data = true ->
  (exists l,
      load_keys_data data = Ok l
      /\ (forall ks v, path_to data ks v -> is_dict v = false ->
                       exists k, key_of_path ks = Ok k /\ In k l)
      /\ (forall k, In k l ->
                    exists ks v, path_to data ks v /\ is_dict v = false
                                 /\ key_of_path ks = Ok k))
  /\ (forall d1 k d2,
         data = VDict (d1 ++ (k, VDict []) :: d2) ->
         load_keys_data data = load_keys_data (VDict (d1 ++ d2))).
Proof.
  intros Hd Hs. split.
  - destruct (load_keys_data_total data Hd Hs) as [l Hl]. exists l.
    split; [exact Hl|]. split.
    + intros ks v Hp Hv.
      destruct (path_to_str_keyed _ _ _ Hp Hs) as [Hks _].
      destruct (key_of_path_str ks Hks) as [k Hk]. exists k.
      split; [exact Hk|]. apply (load_keys_data_keys _ _ Hl). eauto.
    + intros k Hk. now apply (load_keys_data_keys _ _ Hl).
  - intros d1 k d2 ->.
    destruct (load_keys_data_total _ Hd Hs) as [l1 H1].
    destruct (load_keys_data_total (VDict (d1 ++ d2)) eq_refl
                (str_keyed_skip_empty _ _ _ Hs)) as [l2 H2].
    rewrite H1, H2. f_equal.
    destruct (load_keys_data_sorted _ _ H1) as [S1 N1].
    destruct (load_keys_data_sorted _ _ H2) as [S2 N2].
    apply sorted_nodup_ext; auto.
    intros x. rewrite (load_keys_data_keys _ _ H1 x).
    rewrite (load_keys_data_keys _ _ H2 x).
    split; intros (ks & v & Hp & Hv & Hk); exists ks, v;
      (split; [|auto]); now apply (path_to_skip_empty d1 d2 k ks v Hv).
Qed.

Lemma load_keys_leaf_by_type_witness :
  load_keys_data
    (VDict [(KStr "s", VStr ""); (KStr "e", VDict []);
            (KStr "n", VDict [(KStr "z", VInt 0); (KStr "f", VBool false)])])
  = Ok ["n.f"; "n.z"; "s"]
  /\ load_keys_data
       (VDict ([(KStr "s", VStr "")] ++ (KStr "e", VDict [])
               :: [(KStr "n", VDict [(KStr "z", VInt 0);
                                     (KStr "f", VBool false)])]))
     = load_keys_data
         (VDict ([(KStr "s", VStr "")]
                 ++ [(KStr "n", VDict [(KStr "z", VInt 0);
                                       (KStr "f", VBool false)])])).
Proof.
  split; [reflexivity|].
  exact (proj2 (load_keys_leaf_by_type
                  (VDict [(KStr "s", VStr ""); (KStr "e", VDict []);
                          (KStr "n", VDict [(KStr "z", VInt 0);
                                            (KStr "f", VBool false)])])
                  eq_refl eq_refl)
           [(KStr "s", VStr "")] (KStr "e")
           [(KStr "n", VDict [(KStr "z", VInt 0); (KStr "f", VBool false)])]
           eq_refl).
Defined.

(** C7. Scenario A: the map [{a: {b: "X"}}] flattens to the one key ["a.b"];
    ["a.b"] resolves to ["X"], and ["a.c"] to the fallback ["FB"]. *)
Theorem scenario_A_flatten_and_resolve {I : Interpreter} (st : state) :
  load_keys_data scenario_A = Ok ["a.b"]
  /\ get_actual_content "a.b" scenario_A "FB" st = (Ok "X", st)
  /\ get_actual_content "a.c" scenario_A "FB" st = (Ok "FB", st).
Proof. repeat split; rewrite ?get_actual_content_run; reflexivity. Qed.

(** C8. The language identifiers are those [get_languages] found in
    some state of the files, as [on_load] leaves them in [LANG_LIST]
    ([on_load_languages]).  For every one of them that is selected, [pre]
    being what stands before its first dot,
    [get_string_removed_dot_and_after] returns [pre], and [on_user_input]
    names the output file by the name of the template with [template]
    replaced by [pre]. *)
Theorem output_file_name {I : Interpreter} (st : state)
  (fs : list (string * file)) (user_input : string) :
  LANG_LIST st = languages_of LANG_FOLDER fs ->
  In user_input (LANG_LIST st) ->
  exists pre rest,
    user_input = pre ++ "." ++ rest /\ has_char "." pre = false
    /\ get_string_removed_dot_and_after user_input = pre
    /\ HTML_COPIED_FILE_NAME (snd (on_user_input user_input st))
       = Py.replace "template" pre HTML_TEMPLATE_FILE_NAME
    /\ HTML_COPIED_FILE_NAME (snd (on_user_input user_input st))
       = "index." ++ pre ++ ".html"
    /\ HTML_COPIED_FILE (snd (on_user_input user_input st))
       = HTML_COPIED_FILE_NAME (snd (on_user_input user_input st)).
Proof.
  intros Hl Hin.
  assert (Hdot : has_char "." user_input = true).
  { rewrite Hl in Hin. now apply languages_of_has_dot in Hin. }
  destruct (split_at_first_dot user_input Hdot) as (pre & rest & -> & Hpre).
  exists pre, rest. split; [reflexivity|]. split; [exact Hpre|].
  pose proof (get_string_removed_dot_and_after_spec pre rest Hpre) as Hg.
  split; [exact Hg|].
  unfold on_user_input, bind, gets, print, emit, modify, set_copied_file,
    path_exists, copy_file, set_files, raise, ret.
  rewrite (existsb_eqb_mem _ _ Hin), Hg. cbn -[Py.replace String.eqb].
  repeat match goal with
         | |- context [match lookup ?l ?k with _ => _ end] =>
             destruct (lookup l k); cbn -[Py.replace String.eqb]
         | |- context [match f_content ?f with _ => _ end] =>
             destruct (f_content f); cbn -[Py.replace String.eqb]
         | |- context [copy_tree ?a ?b ?c] =>
             destruct (copy_tree a b c) as [[[]|] ?];
               cbn -[Py.replace String.eqb]
         | |- context [if ?b then _ else _] =>
             destruct b; cbn -[Py.replace String.eqb]
         end.
  all: repeat split; reflexivity.
Qed.

Lemma output_file_name_witness :
  exists pre rest,
    "zh_cn.yml" = pre ++ "." ++ rest /\ has_char "." pre = false
    /\ get_string_removed_dot_and_after "zh_cn.yml" = pre
    /\ HTML_COPIED_FILE_NAME
         (snd (@on_user_input example_interpreter "zh_cn.yml"
                 (mk_state (mk_runtime (VDict []) [] [] [])
                    ["en.yml"; "zh_cn.yml"] "index.html" "index.html"
                    [("index.template.html", mk_file "i18n:k" true true)] [])))
       = "index." ++ pre ++ ".html".
Proof.
  destruct (@output_file_name example_interpreter
              (mk_state (mk_runtime (VDict []) [] [] [])
                 ["en.yml"; "zh_cn.yml"] "index.html" "index.html"
                 [("index.template.html", mk_file "i18n:k" true true)] [])
              [("lang/zh_cn.yml", mk_file "k: v" true true);
               ("lang/en.yml", mk_file "k: v" true true);
               ("lang/notes.txt", mk_file "" true true);
               ("lang/old/de.yml", mk_file "" true true);
               ("env.yml", mk_file "foo: BAR" true true)]
              "zh_cn.yml")
    as (pre & rest & H1 & H2 & H3 & _ & H5 & _).
  - reflexivity.
  - simpl. auto.
  - exists pre, rest. auto.
Defined.




(** C10. An empty mapping given as the data argument counts as none: both
    [get_actual_env_content] and [get_actual_i18n_content] resolve the key
    against the mapping of the registry. *)
Theorem empty_data_argument_uses_registry {I : Interpreter}
  (key lang_file : string) (st : state) (d : list (pykey * value)) :
  (DATA_ENV (st_runtime st) = VDict d ->
   get_actual_env_content key (VDict []) st
   = get_actual_content key (VDict d) ("env:" ++ key) st)
  /\ (lookup (DATA_I18N (st_runtime st)) lang_file = Some (VDict d) ->
      get_actual_i18n_content key lang_file (VDict []) st
      = get_actual_content key (VDict d) ("i18n:" ++ key) st).
Proof.
  split; intros H.
  - now apply get_actual_env_content_registry.
  - now apply get_actual_i18n_content_registry.
Qed.

Lemma empty_data_argument_uses_registry_witness :
  @get_actual_env_content example_interpreter "title" (VDict [])
    (mk_state (mk_runtime (VDict [(KStr "title", VStr "Site")]) ["title"]
                 [] []) [] "index.html" "index.html" [] [])
  = (Ok "Site",
     mk_state (mk_runtime (VDict [(KStr "title", VStr "Site")]) ["title"]
                 [] []) [] "index.html" "index.html" [] []).
Proof.
  rewrite (proj1 (@empty_data_argument_uses_registry example_interpreter
                    "title" "en.yml"
                    (mk_state
                       (mk_runtime (VDict [(KStr "title", VStr "Site")])
                          ["title"] [] [])
                       [] "index.html" "index.html" [] [])
                    [(KStr "title", VStr "Site")]) eq_refl).
  reflexivity.
Defined.

(* ================================================================== *)
(** * Further properties of the code *)
(* ================================================================== *)

(** ** Keys: splitting and merging *)

Section Stripping.

Variable p : ascii -> bool.

Lemma lstrip_by_head (s : string) :
  Py.lstrip_by p s = ""
  \/ exists c t, Py.lstrip_by p s = String c t /\ p c = false.
Proof.
  induction s as [|c s IH]; simpl; [now left|].
  destruct (p c) eqn:E; [exact IH|]. right. eauto.
Qed.

Lemma rstrip_by_keeps_head (c : ascii) (t : string) :
  p c = false -> exists r, Py.rstrip_by p (String c t) = String c r.
Proof.
  intros H. simpl. destruct (Py.rstrip_by p t); [rewrite H|]; eauto.
Qed.

Lemma rstrip_by_idempotent (s : string) :
  Py.rstrip_by p (Py.rstrip_by p s) = Py.rstrip_by p s.
Proof.
  induction s as [|c s IH]; [reflexivity|]. simpl.
  destruct (Py.rstrip_by p s) as [|c' r] eqn:E.
  - destruct (p c) eqn:Hc; [reflexivity|]. simpl. now rewrite Hc.
  - simpl in *. now rewrite IH.
Qed.

(** What [strip] returns has nothing more to strip at either end. *)
Lemma strip_by_ends (s : string) :
  Py.lstrip_by p (Py.strip_by p s) = Py.strip_by p s
  /\ Py.rstrip_by p (Py.strip_by p s) = Py.strip_by p s.
Proof.
  unfold Py.strip_by. split; [|apply rstrip_by_idempotent].
  destruct (lstrip_by_head s) as [->|(c & t & -> & Hc)]; [reflexivity|].
  destruct (rstrip_by_keeps_head c t Hc) as [r ->]. simpl. now rewrite Hc.
Qed.

Lemma lstrip_by_without_char (c : ascii) (s : string) :
  has_char c s = false -> has_char c (Py.lstrip_by p s) = false.
Proof.
  induction s as [|a s IH]; simpl; [auto|]. intros H.
  destruct (p a); [|exact H].
  rewrite has_char_cons in H. apply orb_false_iff in H. now apply IH.
Qed.

Lemma rstrip_by_without_char (c : ascii) (s : string) :
  has_char c s = false -> has_char c (Py.rstrip_by p s) = false.
Proof.
  induction s as [|a s IH]; simpl; [auto|]. intros H.
  rewrite has_char_cons in H. apply orb_false_iff in H. destruct H as [Ha Hs].
  specialize (IH Hs).
  destruct (Py.rstrip_by p s) as [|a' r].
  - destruct (p a); [reflexivity|]. now rewrite has_char_cons, Ha.
  - now rewrite has_char_cons, Ha, IH.
Qed.

Lemma strip_by_without_char (c : ascii) (s : string) :
  has_char c s = false -> has_char c (Py.strip_by p s) = false.
Proof.
  intros H. unfold Py.strip_by.
  now apply rstrip_by_without_char, lstrip_by_without_char.
Qed.

End Stripping.

(** No piece of a split holds the separator. *)
Lemma split_pieces_without_sep (sep : ascii) (s : string) :
  forall piece, In piece (Py.split sep s) -> has_char sep piece = false.
Proof.
  induction s as [|c s IH]; simpl.
  - intros piece [<-|[]]. reflexivity.
  - destruct (Ascii.eqb c sep) eqn:E.
    + intros piece [<-|H]; [reflexivity | now apply IH].
    + destruct (Py.split sep s) as [|q qs].
      * intros piece [<-|[]]. now rewrite has_char_cons, E.
      * intros piece [<-|H].
        -- rewrite has_char_cons, E. apply IH. now left.
        -- apply IH. now right.
Qed.

Lemma split_key_by_dot_segments (key seg : string) :
  In seg (split_key_by_dot key) -> clean_key seg = true.
Proof.
  unfold split_key_by_dot. destruct (String.eqb key ""); [intros []|].
  destruct (String.eqb (Py.strip key) ""); [intros []|].
  intros H. apply in_map_iff in H. destruct H as (part & <- & H).
  apply filter_In in H. destruct H as [Hin Hne].
  apply split_pieces_without_sep in Hin.
  destruct (strip_by_ends Py.isspace part) as [Hl Hr].
  unfold clean_key. fold (Py.strip part) in Hl, Hr.
  rewrite Hne, Hl, Hr, !String.eqb_refl.
  unfold Py.strip. now rewrite (strip_by_without_char _ _ _ Hin).
Qed.

Lemma split_key_by_dot_clean (key : string) :
  forallb clean_key (split_key_by_dot key) = true.
Proof. apply forallb_forall. intros seg. apply split_key_by_dot_segments. Qed.

Lemma split_key_by_dot_rejoined (key : string) :
  split_key_by_dot (Py.join "." (split_key_by_dot key)) = split_key_by_dot key.
Proof.
  destruct (split_key_by_dot key) as [|seg segs] eqn:E; [reflexivity|].
  apply split_key_by_dot_join; [discriminate|].
  rewrite <- E. apply split_key_by_dot_clean.
Qed.

(** X1. Every segment that [split_key_by_dot] returns is a clean key: it
    is not empty, holds no dot, and has no white space at its ends. *)
Theorem split_key_by_dot_gives_clean_segments (key : string) :
  forall seg, In seg (split_key_by_dot key) ->
    seg <> "" /\ has_char "." seg = false /\ Py.strip seg = seg.
Proof.
  intros seg H. apply split_key_by_dot_segments in H.
  pose proof (clean_key_strip seg H) as Hs.
  apply clean_key_spec in H. tauto.
Qed.

Lemma split_key_by_dot_gives_clean_segments_witness :
  split_key_by_dot " a . .b " = ["a"; "b"]
  /\ "b" <> "" /\ has_char "." "b" = false /\ Py.strip "b" = "b".
Proof.
  split; [reflexivity|].
  apply (split_key_by_dot_gives_clean_segments " a . .b " "b").
  simpl. auto.
Defined.


Section JoinedEnds.

Variable p : ascii -> bool.

Lemma lstrip_by_app (s t : string) :
  s <> "" -> Py.lstrip_by p s = s -> Py.lstrip_by p (s ++ t) = s ++ t.
Proof.
  destruct s as [|c s]; [contradiction|]. intros _ H. simpl in *.
  destruct (p c); [|reflexivity]. exfalso.
  assert (L : String.length (Py.lstrip_by p s) <= String.length s).
  { clear. induction s as [|c' s IH]; simpl; [lia|].
    destruct (p c'); simpl; lia. }
  rewrite H in L. simpl in L. lia.
Qed.

(** Trimmed parts joined by a separator make a trimmed text. *)
Lemma join_trimmed (sep : string) (parts : list string) :
  parts <> [] -> Forall (trimmed p) parts -> trimmed p (Py.join sep parts).
Proof.
  induction parts as [|s parts IH]; [contradiction|]. intros _ H.
  inversion H as [|? ? Hs Hparts]; subst.
  destruct parts as [|s' parts]; [exact Hs|].
  destruct IH as (Hne & Hl & Hr); [discriminate | exact Hparts|].
  destruct Hs as (Hsne & Hsl & Hsr).
  change (Py.join sep (s :: s' :: parts))
    with (s ++ sep ++ Py.join sep (s' :: parts)).
  repeat split.
  - destruct s; [contradiction | discriminate].
  - now apply lstrip_by_app.
  - apply rstrip_by_app.
    + destruct sep; [exact Hne | discriminate].
    + now apply rstrip_by_app.
Qed.

End JoinedEnds.

(** The part [merge_args_to_key] makes of a [str] argument. *)
Lemma merge_args_loop_parts (ss : list string) :
  forall acc,
    merge_args_loop (map KStr ss) acc
    = Ok (acc ++ filter (fun part => negb (String.eqb part ""))
                   (map (fun s => Py.strip_dots (Py.strip s)) ss))%list.
Proof.
  induction ss as [|s ss IH]; intros acc; simpl.
  - now rewrite app_nil_r.
  - destruct (String.eqb (Py.strip_dots (Py.strip s)) ""); simpl.
    + apply IH.
    + rewrite IH. now rewrite <- app_assoc.
Qed.

Lemma merge_args_loop_not_str (args : list pykey) :
  forallb is_KStr args = false ->
  forall acc, merge_args_loop args acc = Raise TypeError.
Proof.
  induction args as [|[s| | |] args IH]; simpl; intros H acc;
    try discriminate; try reflexivity.
  destruct (String.eqb _ ""); now apply IH.
Qed.

Lemma all_KStr_map (args : list pykey) :
  forallb is_KStr args = true -> exists ss, args = map KStr ss.
Proof.
  induction args as [|[s| | |] args IH]; simpl; intros H; try discriminate.
  - now exists [].
  - destruct (IH H) as [ss ->]. now exists (s :: ss).
Qed.

(** X3. [merge_args_to_key] raises [TypeError] exactly when one of its
    arguments is not a [str]; otherwise it returns the parts that are not
    empty joined by dots, a text that neither begins nor ends with a
    dot. *)
Theorem merge_args_to_key_result (args : list pykey) :
  (forallb is_KStr args = false -> merge_args_to_key args = Raise TypeError)
  /\ (forall ss, args = map KStr ss ->
        merge_args_to_key args
        = Ok (Py.join "."
                (filter (fun part => negb (String.eqb part ""))
                   (map (fun s => Py.strip_dots (Py.strip s)) ss))))
  /\ (forall key, merge_args_to_key args = Ok key ->
        forallb is_KStr args = true /\ Py.strip_dots key = key).
Proof.
  split; [|split].
  - intros H. unfold merge_args_to_key.
    now rewrite (merge_args_loop_not_str args H).
  - intros ss ->. unfold merge_args_to_key.
    now rewrite merge_args_loop_parts.
  - intros key H.
    destruct (forallb is_KStr args) eqn:E.
    + split; [reflexivity|].
      destruct (all_KStr_map args E) as [ss ->].
      unfold merge_args_to_key in H. rewrite merge_args_loop_parts in H.
      simpl in H. injection H as <-.
      set (parts := filter _ _).
      destruct parts as [|part parts'] eqn:Eparts; [reflexivity|].
      destruct (join_trimmed Py.is_dot "." parts) as (_ & Hl & Hr).
      * rewrite Eparts. discriminate.
      * apply Forall_forall. intros x Hx. subst parts.
        apply filter_In in Hx. destruct Hx as [Hx Hne].
        apply in_map_iff in Hx. destruct Hx as (s & <- & _).
        destruct (strip_by_ends Py.is_dot (Py.strip s)) as [Hl Hr].
        repeat split; try assumption.
        apply negb_true_iff, String.eqb_neq in Hne. exact Hne.
      * rewrite Eparts in Hl, Hr. unfold Py.strip_dots, Py.strip_by.
        now rewrite Hl, Hr.
    + unfold merge_args_to_key in H.
      rewrite (merge_args_loop_not_str args E) in H. discriminate.
Qed.

Lemma merge_args_to_key_result_witness :
  merge_args_to_key [KStr " .a. "; KStr ""; KStr "b.c"] = Ok "a.b.c"
  /\ Py.strip_dots "a.b.c" = "a.b.c"
  /\ merge_args_to_key [KStr "a"; KInt 1] = Raise TypeError.
Proof.
  split; [reflexivity|]. split.
  - apply (proj2 (proj2 (merge_args_to_key_result
                          [KStr " .a. "; KStr ""; KStr "b.c"]))).
    reflexivity.
  - apply (proj1 (merge_args_to_key_result [KStr "a"; KInt 1])).
    reflexivity.
Defined.

(** X4. Merging the segments of a key gives a key with the same segments:
    [merge_args_to_key] on what [split_key_by_dot] returns yields their
    dotted join, which splits into them again. *)
Theorem merge_of_split_round_trip (key : string) :
  merge_args_to_key (map KStr (split_key_by_dot key))
  = Ok (Py.join "." (split_key_by_dot key))
  /\ split_key_by_dot (Py.join "." (split_key_by_dot key))
     = split_key_by_dot key.
Proof.
  split; [|apply split_key_by_dot_rejoined].
  unfold merge_args_to_key.
  now rewrite (merge_args_loop_clean _ (split_key_by_dot_clean key)).
Qed.

(** X5. [get_template_text] raises [TypeError] for every mode other than
    ["i18n"] and ["env"], and its tokens tell mode and key: two calls that
    return the same token had the same mode and the same key. *)
Theorem get_template_text_tokens (mode1 key1 mode2 key2 token : string) :
  (mode1 <> "i18n" -> mode1 <> "env" ->
   get_template_text mode1 key1 = Raise TypeError)
  /\ (get_template_text mode1 key1 = Ok token ->
      get_template_text mode2 key2 = Ok token ->
      mode1 = mode2 /\ key1 = key2).
Proof.
  assert (Hmode : forall m k t, get_template_text m k = Ok t ->
                    (m = "i18n" /\ t = "i18n:" ++ k)
                    \/ (m = "env" /\ t = "env:" ++ k)).
  { intros m k t. unfold get_template_text.
    destruct (String.eqb m "i18n") eqn:E1.
    - apply String.eqb_eq in E1. subst. simpl. intros H.
      injection H as <-. now left.
    - destruct (String.eqb m "env") eqn:E2; simpl; [|discriminate].
      apply String.eqb_eq in E2. subst. intros H. injection H as <-.
      now right. }
  split.
  - intros H1 H2. unfold get_template_text.
    apply String.eqb_neq in H1, H2. now rewrite H1, H2.
  - intros Ha Hb. apply Hmode in Ha, Hb.
    destruct Ha as [[-> ->]|[-> ->]], Hb as [[-> E]|[-> E]];
      try discriminate; injection E as E; auto.
Qed.

Lemma get_template_text_tokens_witness :
  get_template_text "html" "title" = Raise TypeError
  /\ ("env" = "env" /\ "title" = "title").
Proof.
  split.
  - apply (proj1 (get_template_text_tokens "html" "title" "env" "x" ""));
      discriminate.
  - apply (proj2 (get_template_text_tokens "env" "title" "env" "title"
                    "env:title")); reflexivity.
Defined.

Lemma has_char_false_find (c : ascii) (s : string) :
  has_char c s = false -> (Py.find_char c s < 0)%Z.
Proof.
  unfold has_char. intros H. apply negb_false_iff in H.
  now apply Z.ltb_lt.
Qed.

(** X6. What [get_string_removed_dot_and_after] returns holds no dot and
    begins its argument; for an argument without a dot it is the empty
    text, not the argument. *)
Theorem get_string_removed_dot_and_after_result (s : string) :
  has_char "." (get_string_removed_dot_and_after s) = false
  /\ String.prefix (get_string_removed_dot_and_after s) s = true
  /\ (has_char "." s = false -> get_string_removed_dot_and_after s = "").
Proof.
  destruct (has_char "." s) eqn:E.
  - destruct (split_at_first_dot s E) as (pre & rest & -> & Hpre).
    rewrite (get_string_removed_dot_and_after_spec pre rest Hpre).
    repeat split; [exact Hpre | apply prefix_app | discriminate].
  - assert (H : get_string_removed_dot_and_after s = "").
    { unfold get_string_removed_dot_and_after.
      apply has_char_false_find in E.
      destruct (Py.find_char "." s <=? 0)%Z eqn:L; [reflexivity|].
      apply Z.leb_gt in L. lia. }
    rewrite H. repeat split. now destruct s.
Qed.

Lemma get_string_removed_dot_and_after_result_witness :
  get_string_removed_dot_and_after "README" = "".
Proof.
  apply (proj2 (proj2 (get_string_removed_dot_and_after_result "README"))).
  reflexivity.
Defined.

(** ** [replace_text_in_file] *)

Lemma lookup_update_other {A : Type} (l : list (string * A))
  (k k' : string) (a : A) :
  k' <> k -> lookup (update l k a) k' = lookup l k'.
Proof.
  intros H. induction l as [|[k0 a0] l IH]; simpl.
  - destruct (String.eqb k k') eqn:E; [|reflexivity].
    apply String.eqb_eq in E. congruence.
  - destruct (String.eqb k0 k) eqn:E; simpl.
    + apply String.eqb_eq in E. subst k0.
      destruct (String.eqb k k') eqn:E'; [|reflexivity].
      apply String.eqb_eq in E'. congruence.
    + now rewrite IH.
Qed.

Lemma same_but_refl (target : string) (st : state) : same_but target st st.
Proof. repeat split. Qed.

Lemma same_but_trans (target : string) (st1 st2 st3 : state) :
  same_but target st1 st2 -> same_but target st2 st3 ->
  same_but target st1 st3.
Proof.
  intros (A1 & A2 & A3 & A4 & A5) (B1 & B2 & B3 & B4 & B5).
  repeat split; try congruence.
  intros path H. now rewrite B5, A5.
Qed.

Lemma same_but_log (target : string) (ev : event) (st : state) :
  same_but target st (log_event ev st).
Proof. repeat split. Qed.

Lemma same_but_write (target content : string) (r w : bool) (st : state) :
  same_but target st
    (with_files (update (st_files st) target (mk_file content r w)) st).
Proof.
  repeat split. intros path H. simpl. now apply lookup_update_other.
Qed.

Lemma only_trace_same_but (target : string) (st st' : state) :
  only_trace st st' -> same_but target st st'.
Proof.
  intros (A1 & A2 & A3 & A4 & A5). repeat split; try assumption.
  intros path _. now rewrite A5.
Qed.

(** X7. Whatever its arguments and the files, [replace_text_in_file]
    returns, exits with status 255, or raises [UnicodeDecodeError] or
    [IsADirectoryError], which its handler does not catch.  It exits exactly
    when the file exists, the override flag is not set and the suffix does
    not hold [html]; it raises [UnicodeDecodeError] exactly when, past that
    guard, the file can be opened for reading and its bytes do not decode,
    and [IsADirectoryError] exactly when, past that guard, what can be
    opened is a directory.  It changes no file other than its target, nor
    the registry. *)
Theorem replace_text_in_file_frame (path new_text old_text : string)
  (flag : bool) (st : state) :
  (fst (replace_text_in_file path new_text old_text flag st) = Ok tt
   \/ fst (replace_text_in_file path new_text old_text flag st)
      = Raise (SystemExit 255)
   \/ fst (replace_text_in_file path new_text old_text flag st)
      = Raise UnicodeDecodeError
   \/ fst (replace_text_in_file path new_text old_text flag st)
      = Raise IsADirectoryError)
  /\ (fst (replace_text_in_file path new_text old_text flag st)
      = Raise (SystemExit 255)
      <-> (exists f, lookup (st_files st) path = Some f)
          /\ flag = false
          /\ Py.contains "html" (Py.lower (path_suffix path)) = false)
  /\ (fst (replace_text_in_file path new_text old_text flag st)
      = Raise UnicodeDecodeError
      <-> exists f,
            lookup (st_files st) path = Some f
            /\ flag || Py.contains "html" (Py.lower (path_suffix path)) = true
            /\ f_readable f = true /\ f_content f = Binary)
  /\ (fst (replace_text_in_file path new_text old_text flag st)
      = Raise IsADirectoryError
      <-> exists f,
            lookup (st_files st) path = Some f
            /\ flag || Py.contains "html" (Py.lower (path_suffix path)) = true
            /\ f_readable f = true /\ f_content f = Directory)
  /\ same_but path st
       (snd (replace_text_in_file path new_text old_text flag st)).
Proof.
  destruct (lookup (st_files st) path) as [f|] eqn:Hf.
  - destruct (negb flag
              && negb (Py.contains "html" (Py.lower (path_suffix path))))
      eqn:Hg.
    + destruct (replace_text_in_file_guard path new_text old_text flag st f
                  Hf Hg) as (st' & lines & -> & Ho & _).
      cbn [fst snd].
      apply andb_prop in Hg. destruct Hg as [Hg1 Hg2].
      apply negb_true_iff in Hg1, Hg2. rewrite Hg1, Hg2. cbn [orb].
      repeat split; eauto; try discriminate;
        try (intros (g & _ & ? & _); discriminate);
        try (now apply only_trace_same_but);
        destruct Ho as (? & ? & ? & ? & ?); try assumption.
    + rewrite (replace_text_in_file_past_guard path new_text old_text flag st
                 f Hf Hg).
      assert (Hg' : flag || Py.contains "html" (Py.lower (path_suffix path))
                    = true).
      { destruct flag; [reflexivity|]. cbn [negb andb orb] in *.
        now apply negb_false_iff in Hg. }
      assert (Hx : ~ (flag = false
                      /\ Py.contains "html" (Py.lower (path_suffix path))
                         = false)).
      { intros [-> E]. rewrite E in Hg'. discriminate. }
      destruct (f_readable f) eqn:Hr; cbn [negb].
      * destruct (f_content f) as [raw| |] eqn:Hc.
        -- destruct (Py.contains old_text (Py.universal_newlines raw));
             cbn [negb]; [destruct (f_writable f)|]; cbn [fst snd];
             (split; [now left|]);
             (split; [split; [discriminate | intros (_ & H); tauto]|]);
             (split; [split; [discriminate
                             | intros (g & E & _ & _ & Hb);
                               injection E as <-; congruence]|]);
             (split; [split; [discriminate
                             | intros (g & E & _ & _ & Hb);
                               injection E as <-; congruence]|]).
           ++ eapply same_but_trans; [apply same_but_log|].
              eapply same_but_trans; [apply same_but_write|].
              apply same_but_log.
           ++ eapply same_but_trans; apply same_but_log.
           ++ apply same_but_log.
        -- cbn [fst snd]. split; [auto|].
           split; [split; [discriminate | intros (_ & H); tauto]|].
           split; [split; [eauto 6 | reflexivity]|].
           split; [split; [discriminate
                          | intros (g & E & _ & _ & Hb);
                            injection E as <-; congruence]|].
           apply same_but_log.
        -- cbn [fst snd]. split; [auto|].
           split; [split; [discriminate | intros (_ & H); tauto]|].
           split; [split; [discriminate
                          | intros (g & E & _ & _ & Hb);
                            injection E as <-; congruence]|].
           split; [split; [eauto 6 | reflexivity]|].
           apply same_but_refl.
      * cbn [fst snd]. split; [now left|].
        split; [split; [discriminate | intros (_ & H); tauto]|].
        split; [split; [discriminate
                       | intros (g & E & _ & Hb & _);
                         injection E as <-; congruence]|].
        split; [split; [discriminate
                       | intros (g & E & _ & Hb & _);
                         injection E as <-; congruence]|].
        apply same_but_log.
  - rewrite (replace_text_in_file_missing path new_text old_text flag st Hf).
    cbn [fst snd]. split; [now left|].
    split; [split; [discriminate | intros ([g Hg] & _); discriminate]|].
    split; [split; [discriminate | intros (g & Hg & _); discriminate]|].
    split; [split; [discriminate | intros (g & Hg & _); discriminate]|].
    apply same_but_log.
Qed.

(** X8. The soft failures of [replace_text_in_file]: on a missing file, on
    a file that cannot be opened for reading, and on a text file whose text
    holds the old text and that cannot be written, it prints a message and
    returns, raising nothing and leaving every file as it is. *)
Theorem replace_text_in_file_soft_failures (path new_text old_text : string)
  (flag : bool) (st : state) :
  (lookup (st_files st) path = None ->
   replace_text_in_file path new_text old_text flag st
   = (Ok tt,
      log_event (Printed ("Target file `" ++ path ++ "` not exists!")) st))
  /\ (forall f,
        lookup (st_files st) path = Some f ->
        flag || Py.contains "html" (Py.lower (path_suffix path)) = true ->
        (f_readable f = false ->
         replace_text_in_file path new_text old_text flag st
         = (Ok tt,
            log_event
              (Printed
                 "ERR: Permission denied, check filesystem permissions.")
              st))
        /\ (forall raw,
              f_readable f = true -> f_writable f = false ->
              f_content f = Text raw ->
              Py.contains old_text (Py.universal_newlines raw) = true ->
              replace_text_in_file path new_text old_text flag st
              = (Ok tt,
                 log_event
                   (Printed
                      "ERR: Permission denied, check filesystem permissions.")
                   (log_event (FileRead path) st)))).
Proof.
  split.
  - apply replace_text_in_file_missing.
  - intros f Hf Hguard.
    assert (Hg : negb flag
                 && negb (Py.contains "html" (Py.lower (path_suffix path)))
                 = false).
    { destruct flag; [reflexivity|]. simpl in *. now rewrite Hguard. }
    rewrite (replace_text_in_file_past_guard path new_text old_text flag st
               f Hf Hg).
    split.
    + now intros ->.
    + intros raw -> -> -> ->. reflexivity.
Qed.

Lemma replace_text_in_file_soft_failures_witness :
  replace_text_in_file "index.en.html" "Site" "env:title" false
    (mk_state (mk_runtime (VDict []) [] [] []) [] "index.html" "index.html"
       [("index.en.html", mk_file "env:title" true false)] [])
  = (Ok tt,
     mk_state (mk_runtime (VDict []) [] [] []) [] "index.html" "index.html"
       [("index.en.html", mk_file "env:title" true false)]
       [FileRead "index.en.html";
        Printed "ERR: Permission denied, check filesystem permissions."]).
Proof.
  apply (proj2 (proj2 (replace_text_in_file_soft_failures
                         "index.en.html" "Site" "env:title" false
                         (mk_state (mk_runtime (VDict []) [] [] []) []
                            "index.html" "index.html"
                            [("index.en.html",
                              mk_file "env:title" true false)] []))
                  (mk_file "env:title" true false) eq_refl eq_refl)
           "env:title");
    reflexivity.
Defined.

(** ** [main] *)

Section Contained.

Context {I : Interpreter}.

Variable target : string.

Lemma contained_bind {A B : Type} (m : M A) (k : A -> M B) :
  contained target m -> (forall a, contained target (k a)) ->
  contained target (bind m k).
Proof.
  intros Hm Hk st Ht. unfold bind. destruct (Hm st Ht) as [Hs Ho].
  destruct (m st) as [[a|e] st1]; simpl in *; [|auto].
  assert (Ht1 : HTML_COPIED_FILE st1 = target).
  { destruct Hs as (_ & _ & _ & H & _). congruence. }
  destruct (Hk a st1 Ht1) as [Hs' Ho']. split; [|exact Ho'].
  now apply same_but_trans with st1.
Qed.

Lemma contained_pure {A : Type} (f : state -> A) :
  contained target (fun st => (Ok (f st), st)).
Proof. intros st _. split; [apply same_but_refl | exact Logic.I]. Qed.

Lemma contained_print (line : string) : contained target (print line).
Proof. intros st _. split; [apply same_but_log | exact Logic.I]. Qed.

Lemma contained_for_each {A : Type} (l : list A) (body : A -> M unit) :
  (forall a, contained target (body a)) -> contained target (for_each l body).
Proof.
  intros Hb. induction l as [|a l IH]; simpl.
  - apply (contained_pure (fun _ => tt)).
  - apply contained_bind; [apply Hb | intros _; exact IH].
Qed.

Lemma contained_template_text (mode i : string) :
  mode = "env" \/ mode = "i18n" ->
  contained target (lift (get_template_text mode i)).
Proof.
  intros [->| ->] st _; (split; [apply same_but_refl | exact Logic.I]).
Qed.

Lemma contained_py_copy (v : value) : contained target (lift (py_copy v)).
Proof.
  intros st _. split; [apply same_but_refl|].
  destruct v; simpl; auto.
Qed.

Lemma contained_get_actual_content (key : string) (data : value)
  (fallback : string) :
  contained target (get_actual_content key data fallback).
Proof.
  intros st _.
  destruct (get_actual_content_returns key data fallback st) as [Hr Ho].
  split; [now apply only_trace_same_but|]. now rewrite Hr.
Qed.

Lemma contained_env_content (i : string) (data : value) :
  contained target (get_actual_env_content i data).
Proof.
  unfold get_actual_env_content.
  apply contained_bind; [apply contained_template_text; auto | intros fb].
  apply contained_bind; [apply contained_pure | intros d].
  apply contained_bind; [|intros d'; apply contained_get_actual_content].
  destruct (truthy data);
    [apply (contained_pure (fun _ => data)) | apply contained_py_copy].
Qed.

Lemma contained_i18n_content (i lang_file : string) (data : value) :
  contained target (get_actual_i18n_content i lang_file data).
Proof.
  unfold get_actual_i18n_content.
  apply contained_bind; [apply contained_template_text; auto | intros fb].
  apply contained_bind; [apply contained_pure | intros registry].
  apply contained_bind.
  { destruct (lookup registry lang_file) as [d|].
    - apply (contained_pure (fun _ => d)).
    - intros st _. split; [apply same_but_refl | now left]. }
  intros d.
  apply contained_bind; [|intros d'; apply contained_get_actual_content].
  destruct (truthy data);
    [apply (contained_pure (fun _ => data)) | apply contained_py_copy].
Qed.

Lemma replace_text_in_file_contained (path new_text old_text : string)
  (flag : bool) (st : state) :
  same_but path st (snd (replace_text_in_file path new_text old_text flag st))
  /\ render_outcome
       (fst (replace_text_in_file path new_text old_text flag st)).
Proof.
  destruct (lookup (st_files st) path) as [f|] eqn:Hf.
  - destruct (negb flag
              && negb (Py.contains "html" (Py.lower (path_suffix path))))
      eqn:Hg.
    + destruct (replace_text_in_file_guard path new_text old_text flag st f
                  Hf Hg) as (st' & lines & -> & Ho & _).
      split; [now apply only_trace_same_but | simpl; auto].
    + rewrite (replace_text_in_file_past_guard path new_text old_text flag st
                 f Hf Hg).
      destruct (f_readable f); cbn [negb];
        [|split; [apply same_but_log | exact Logic.I]].
      destruct (f_content f) as [raw| |].
      * destruct (Py.contains old_text (Py.universal_newlines raw));
          cbn [negb]; [destruct (f_writable f)|];
          (split; [|exact Logic.I]); cbn [snd].
        -- eapply same_but_trans; [apply same_but_log|].
           eapply same_but_trans; [apply same_but_write|].
           apply same_but_log.
        -- eapply same_but_trans; apply same_but_log.
        -- apply same_but_log.
      * split; [apply same_but_log | simpl; auto 6].
      * split; [apply same_but_refl | simpl; auto 6].
  - rewrite (replace_text_in_file_missing path new_text old_text flag st Hf).
    split; [apply same_but_log | exact Logic.I].
Qed.

Lemma contained_replace (new_text old_text : string) :
  contained target
    (path <- gets HTML_COPIED_FILE ;;
     replace_text_in_file path new_text old_text false).
Proof.
  intros st Ht. unfold bind, gets. rewrite Ht.
  apply replace_text_in_file_contained.
Qed.

Lemma contained_main (lang_file : string) : contained target (main lang_file).
Proof.
  unfold main.
  apply contained_bind; [apply contained_pure | intros env_keys].
  apply contained_bind.
  { apply contained_for_each. intros i.
    apply contained_bind; [apply contained_template_text; auto | intros o].
    apply contained_bind; [apply contained_env_content | intros n].
    apply contained_replace. }
  intros _. apply contained_bind; [apply contained_print | intros _].
  apply contained_bind; [apply contained_pure | intros trkeys].
  apply contained_bind.
  { destruct (lookup trkeys lang_file).
    - apply (contained_pure (fun _ => l)).
    - intros st _. split; [apply same_but_refl | now left]. }
  intros i18n_keys. apply contained_bind.
  { apply contained_for_each. intros i.
    apply contained_bind; [apply contained_template_text; auto | intros o].
    apply contained_bind; [apply contained_i18n_content | intros n].
    apply contained_replace. }
  intros _. apply contained_print.
Qed.

End Contained.

(** X9. Whatever the interpreter, the registry and the files, [main]
    changes no file other than the output file, and neither the registry,
    the language list nor the names of the output file; and it ends by
    returning, by a [KeyError], by an [AttributeError], by the exit with
    status 255, or by the [IsADirectoryError] or the [UnicodeDecodeError]
    of an output file that is a directory or does not decode, never
    otherwise. *)
Theorem main_is_contained {I : Interpreter} (lang_file : string)
  (st : state) :
  same_but (HTML_COPIED_FILE st) st (snd (main lang_file st))
  /\ render_outcome (fst (main lang_file st)).
Proof. now apply contained_main. Qed.

(** X10. A full render is the language pass on what the environment pass
    made of the output file: with mappings in the registry and an output
    file with an HTML suffix that is a text file and can be read and
    written, [main] returns, and the file then holds the text in which first
    every environment token, key after key, and then every language token,
    key after key, has been replaced by the text the resolver gives for its
    key: the token itself where the resolver falls back, also when the
    conversion of the value raises.  Each replacement is made in the text
    as it is read, with its ends of lines translated; a call whose token
    does not occur leaves the file as it is. *)
Theorem main_renders_env_then_i18n {I : Interpreter} (st : state)
  (lang_file target raw : string) (e d : list (pykey * value))
  (keys : list string) (f : file) :
  DATA_ENV (st_runtime st) = VDict e ->
  lookup (DATA_I18N (st_runtime st)) lang_file = Some (VDict d) ->
  lookup (DATA_I18N_TRKEYS (st_runtime st)) lang_file = Some keys ->
  HTML_COPIED_FILE st = target ->
  Py.contains "html" (Py.lower (path_suffix target)) = true ->
  lookup (st_files st) target = Some f ->
  f_content f = Text raw ->
  f_readable f = true -> f_writable f = true ->
  exists st',
    main lang_file st = (Ok tt, st')
    /\ lookup (st_files st') target
       = Some (mk_file
                 (substitute "i18n" (text_in (VDict d) "i18n") keys
                    (substitute "env" (text_in (VDict e) "env")
                       (DATA_ENV_KEYS (st_runtime st)) raw))
                 true true).
Proof. apply main_substitutes. Qed.

Lemma main_renders_env_then_i18n_witness :
  exists st',
    @main example_interpreter "en.yml"
      (mk_state
         (mk_runtime (VDict [(KStr "title", VStr "Site")]) ["title"]
            [("en.yml", VDict [(KStr "greeting", VStr "Hello")])]
            [("en.yml", ["greeting"])])
         ["en.yml"] "index.en.html" "index.en.html"
         [("index.en.html",
           mk_file
             ("<h1>env:title</h1>"
              ++ String "013" (String "010" "<p>i18n:greeting</p>"))
             true true)] [])
    = (Ok tt, st')
    /\ lookup (st_files st') "index.en.html"
       = Some (mk_file ("<h1>Site</h1>" ++ String "010" "<p>Hello</p>")
                 true true).
Proof.
  apply (@main_renders_env_then_i18n example_interpreter
           (mk_state
              (mk_runtime (VDict [(KStr "title", VStr "Site")]) ["title"]
                 [("en.yml", VDict [(KStr "greeting", VStr "Hello")])]
                 [("en.yml", ["greeting"])])
              ["en.yml"] "index.en.html" "index.en.html"
              [("index.en.html",
                mk_file
                  ("<h1>env:title</h1>"
                   ++ String "013" (String "010" "<p>i18n:greeting</p>"))
                  true true)]
              [])
           "en.yml" "index.en.html"
           ("<h1>env:title</h1>"
            ++ String "013" (String "010" "<p>i18n:greeting</p>"))
           [(KStr "title", VStr "Site")]
           [(KStr "greeting", VStr "Hello")] ["greeting"]
           (mk_file
              ("<h1>env:title</h1>"
               ++ String "013" (String "010" "<p>i18n:greeting</p>"))
              true true));
    reflexivity.
Defined.

(** X11. Rendering a text file in which, as it is read, no token of the
    loaded keys occurs changes nothing: [main] returns and every file is as
    before.  In particular a second render of a file in which no token is
    left is without effect. *)
Theorem main_without_tokens_changes_nothing {I : Interpreter} (st : state)
  (lang_file target raw : string) (e d : list (pykey * value))
  (keys : list string) (f : file) :
  DATA_ENV (st_runtime st) = VDict e ->
  lookup (DATA_I18N (st_runtime st)) lang_file = Some (VDict d) ->
  lookup (DATA_I18N_TRKEYS (st_runtime st)) lang_file = Some keys ->
  HTML_COPIED_FILE st = target ->
  Py.contains "html" (Py.lower (path_suffix target)) = true ->
  lookup (st_files st) target = Some f ->
  f_content f = Text raw ->
  f_readable f = true -> f_writable f = true ->
  (forall i, In i (DATA_ENV_KEYS (st_runtime st)) ->
             Py.contains ("env:" ++ i) (Py.universal_newlines raw) = false) ->
  (forall i, In i keys ->
             Py.contains ("i18n:" ++ i) (Py.universal_newlines raw) = false) ->
  exists st',
    main lang_file st = (Ok tt, st')
    /\ forall path, lookup (st_files st') path = lookup (st_files st) path.
Proof.
  intros He Hd Hkeys Ht Hs Hf Hc Hr Hw Henv Hlang.
  destruct (main_substitutes st lang_file target raw e d keys f
              He Hd Hkeys Ht Hs Hf Hc Hr Hw) as (st' & Hrun & Hfile).
  exists st'. split; [exact Hrun|].
  rewrite (substitute_absent "env") in Hfile by exact Henv.
  rewrite (substitute_absent "i18n") in Hfile by exact Hlang.
  intros path. destruct (String.eqb path target) eqn:E.
  - apply String.eqb_eq in E. subst path. rewrite Hfile, Hf.
    destruct f; simpl in *. now subst.
  - apply String.eqb_neq in E.
    destruct (contained_main target lang_file st Ht)
      as [(_ & _ & _ & _ & Hother) _].
    rewrite Hrun in Hother. now apply Hother.
Qed.

Lemma main_without_tokens_changes_nothing_witness :
  exists st',
    @main example_interpreter "en.yml"
      (mk_state
         (mk_runtime (VDict [(KStr "title", VStr "Site")]) ["title"]
            [("en.yml", VDict [(KStr "greeting", VStr "Hello")])]
            [("en.yml", ["greeting"])])
         ["en.yml"] "index.en.html" "index.en.html"
         [("index.en.html", mk_file "<h1>Site</h1><p>Hello</p>" true true)]
         [])
    = (Ok tt, st')
    /\ lookup (st_files st') "index.en.html"
       = Some (mk_file "<h1>Site</h1><p>Hello</p>" true true).
Proof.
  destruct (@main_without_tokens_changes_nothing example_interpreter
              (mk_state
                 (mk_runtime (VDict [(KStr "title", VStr "Site")]) ["title"]
                    [("en.yml", VDict [(KStr "greeting", VStr "Hello")])]
                    [("en.yml", ["greeting"])])
                 ["en.yml"] "index.en.html" "index.en.html"
                 [("index.en.html",
                   mk_file "<h1>Site</h1><p>Hello</p>" true true)] [])
              "en.yml" "index.en.html" "<h1>Site</h1><p>Hello</p>"
              [(KStr "title", VStr "Site")]
              [(KStr "greeting", VStr "Hello")] ["greeting"]
              (mk_file "<h1>Site</h1><p>Hello</p>" true true))
    as (st' & Hrun & Hsame); try reflexivity;
    try (intros i [<-|[]]; reflexivity).
  exists st'. split; [exact Hrun|]. now rewrite Hsame.
Defined.

(** X12. An unknown language is met late: when the registry holds no key
    list for [lang_file], [main] raises [KeyError] only after the
    environment pass, whose substitutions, made as in a full render, are in
    the output file by then. *)
Theorem main_unknown_language {I : Interpreter} (st : state)
  (lang_file target raw : string) (e : list (pykey * value)) (f : file) :
  DATA_ENV (st_runtime st) = VDict e ->
  lookup (DATA_I18N_TRKEYS (st_runtime st)) lang_file = None ->
  HTML_COPIED_FILE st = target ->
  Py.contains "html" (Py.lower (path_suffix target)) = true ->
  lookup (st_files st) target = Some f ->
  f_content f = Text raw ->
  f_readable f = true -> f_writable f = true ->
  exists st',
    main lang_file st = (Raise KeyError, st')
    /\ lookup (st_files st') target
       = Some (mk_file
                 (substitute "env" (text_in (VDict e) "env")
                    (DATA_ENV_KEYS (st_runtime st)) raw)
                 true true).
Proof.
  intros He Hkeys Ht Hs Hf Hc Hr Hw.
  assert (Hf' : lookup (st_files st) target = Some (mk_file raw true true)).
  { rewrite Hf. destruct f; simpl in *. now subst. }
  unfold main.
  rewrite (bind_ok _ _ st st (DATA_ENV_KEYS (st_runtime st))) by reflexivity.
  destruct (pass_spec "env" (fun i => get_actual_env_content i VNone)
              (text_in (VDict e) "env") (st_runtime st) target)
    with (keys := DATA_ENV_KEYS (st_runtime st)) (st := st)
         (raw := raw)
    as (st1 & Hrun1 & R1 & T1 & F1); auto.
  { intros i st0 Hrt.
    rewrite (get_actual_env_content_registry i VNone st0 e eq_refl)
      by now rewrite Hrt.
    apply (text_in_spec (VDict e) "env" i). }
  cbv beta in Hrun1. rewrite (bind_ok _ _ _ _ _ Hrun1).
  remember (log_event (Printed "Replaced environment texts!") st1) as st2
    eqn:E2.
  rewrite (bind_ok _ _ st1 st2 tt) by (now subst st2).
  rewrite (bind_ok _ _ st2 st2 (DATA_I18N_TRKEYS (st_runtime st)))
    by (unfold gets; subst st2; cbn; now rewrite R1).
  rewrite Hkeys.
  exists st2. split; [reflexivity | subst st2; exact F1].
Qed.

Lemma main_unknown_language_witness :
  exists st',
    @main example_interpreter "fr.yml"
      (mk_state
         (mk_runtime (VDict [(KStr "title", VStr "Site")]) ["title"]
            [("en.yml", VDict [(KStr "greeting", VStr "Hello")])]
            [("en.yml", ["greeting"])])
         ["en.yml"] "index.fr.html" "index.fr.html"
         [("index.fr.html",
           mk_file
             ("<h1>env:title</h1>"
              ++ String "013" "<p>i18n:greeting</p>") true true)] [])
    = (Raise KeyError, st')
    /\ lookup (st_files st') "index.fr.html"
       = Some (mk_file
                 ("<h1>Site</h1>" ++ String "010" "<p>i18n:greeting</p>")
                 true true).
Proof.
  apply (@main_unknown_language example_interpreter
           (mk_state
              (mk_runtime (VDict [(KStr "title", VStr "Site")]) ["title"]
                 [("en.yml", VDict [(KStr "greeting", VStr "Hello")])]
                 [("en.yml", ["greeting"])])
              ["en.yml"] "index.fr.html" "index.fr.html"
              [("index.fr.html",
                mk_file
                  ("<h1>env:title</h1>"
                   ++ String "013" "<p>i18n:greeting</p>") true true)]
              [])
           "fr.yml" "index.fr.html"
           ("<h1>env:title</h1>" ++ String "013" "<p>i18n:greeting</p>")
           [(KStr "title", VStr "Site")]
           (mk_file
              ("<h1>env:title</h1>"
               ++ String "013" "<p>i18n:greeting</p>") true true));
    reflexivity.
Defined.

(** ** [on_user_input] *)

Lemma existsb_eqb_not_mem (x : string) (l : list string) :
  ~ In x l -> existsb (String.eqb x) l = false.
Proof.
  intros H. destruct (existsb (String.eqb x) l) eqn:E; [|reflexivity].
  apply existsb_eqb_In in E. contradiction.
Qed.

(** X13. A language that is not in the language list is refused before
    anything is done: [on_user_input] prints its message and exits with
    status 255; no output file is named, copied or touched. *)
Theorem on_user_input_refuses_unknown_language {I : Interpreter}
  (user_input : string) (st : state) :
  ~ In user_input (LANG_LIST st) ->
  on_user_input user_input st
  = (Raise (SystemExit 255),
     log_event (Printed "The language file is not supported!") st).
Proof.
  intros H. unfold on_user_input, bind, gets, print, emit, modify, raise.
  now rewrite (existsb_eqb_not_mem _ _ H).
Qed.

Lemma on_user_input_refuses_unknown_language_witness :
  fst (@on_user_input example_interpreter "fr.yml" ordering_example)
  = Raise (SystemExit 255)
  /\ st_files (snd (@on_user_input example_interpreter "fr.yml"
                      ordering_example))
     = st_files ordering_example.
Proof.
  rewrite (@on_user_input_refuses_unknown_language example_interpreter
             "fr.yml" ordering_example).
  - split; reflexivity.
  - simpl. intros [H|[]]. discriminate.
Defined.

(** X14. A language of the list is accepted: when the template is a file,
    not a directory, that can be read, and the output file, named after the
    language, is another path that is absent or holds a file that can be
    written, [on_user_input] returns the language, makes the output file
    the current one and gives it the content of the template; the template
    and the registry stay as they are. *)
Theorem on_user_input_copies_template {I : Interpreter}
  (user_input : string) (st : state) (template : file) :
  In user_input (LANG_LIST st) ->
  lookup (st_files st) HTML_TEMPLATE_FILE = Some template ->
  is_file template = true ->
  f_readable template = true ->
  Py.replace "template" (get_string_removed_dot_and_after user_input)
    HTML_TEMPLATE_FILE_NAME <> HTML_TEMPLATE_FILE ->
  (forall g,
      lookup (st_files st)
        (Py.replace "template" (get_string_removed_dot_and_after user_input)
           HTML_TEMPLATE_FILE_NAME) = Some g ->
      is_file g = true /\ f_writable g = true) ->
  exists st' copy,
    on_user_input user_input st = (Ok user_input, st')
    /\ HTML_COPIED_FILE st'
       = Py.replace "template" (get_string_removed_dot_and_after user_input)
           HTML_TEMPLATE_FILE_NAME
    /\ lookup (st_files st') (HTML_COPIED_FILE st') = Some copy
    /\ f_content copy = f_content template
    /\ lookup (st_files st') HTML_TEMPLATE_FILE = Some template
    /\ st_runtime st' = st_runtime st.
Proof.
  intros Hin Ht Hk Hr Hne Hw.
  remember (Py.replace "template"
              (get_string_removed_dot_and_after user_input)
              HTML_TEMPLATE_FILE_NAME) as name eqn:Ename.
  assert (Hneb : String.eqb HTML_TEMPLATE_FILE name = false).
  { apply String.eqb_neq. congruence. }
  assert (Hother : forall c : file,
             lookup (update (st_files st) name c) HTML_TEMPLATE_FILE
             = Some template).
  { intros c. rewrite lookup_update_other; [exact Ht | congruence]. }
  assert (Hcopy : forall st0,
            st_files st0 = st_files st ->
            exists copy,
              copy_file HTML_TEMPLATE_FILE name st0
              = (Ok tt,
                 log_event (FileCopied HTML_TEMPLATE_FILE name)
                   (with_files (update (st_files st) name copy) st0))
              /\ f_content copy = f_content template).
  { intros st0 Hfs.
    unfold copy_file, set_files, emit, gets, modify, raise, bind.
    rewrite Hfs, Ht, Hneb, Hr. cbn [negb].
    unfold is_file in Hk.
    destruct (lookup (st_files st) name) as [g|] eqn:Hg.
    - destruct (Hw g eq_refl) as [Hkg Hwg]. unfold is_file in Hkg.
      rewrite Hwg.
      exists (mk_file (f_content template) (f_readable g) true).
      split; [|reflexivity].
      destruct (f_content template); try discriminate;
        destruct (f_content g); try discriminate; reflexivity.
    - exists (mk_file (f_content template) true true).
      split; [|reflexivity].
      destruct (f_content template); try discriminate; reflexivity. }
  unfold on_user_input.
  rewrite (bind_ok _ _ st st (LANG_LIST st)) by reflexivity.
  rewrite (existsb_eqb_mem _ _ Hin). cbn [negb].
  rewrite (bind_ok _ _ st st tt) by reflexivity.
  rewrite <- Ename.
  remember (log_event (Printed ("You selected language: " ++ user_input)) st)
    as s1 eqn:E1.
  rewrite (bind_ok _ _ st s1 tt) by (now subst s1).
  remember (mk_state (st_runtime s1) (LANG_LIST s1) name name (st_files s1)
              (st_log s1)) as s2 eqn:E2.
  rewrite (bind_ok _ _ s1 s2 tt) by (now subst s2).
  rewrite (bind_ok _ _ s2 s2 name) by (now subst s2).
  assert (F2 : st_files s2 = st_files st) by (now subst s2 s1).
  assert (T2 : HTML_COPIED_FILE s2 = name) by (now subst s2).
  assert (R2 : st_runtime s2 = st_runtime st) by (now subst s2 s1).
  clear E1 E2.
  unfold path_exists at 1.
  rewrite (bind_ok _ _ s2 s2
             (match lookup (st_files s2) name with
              | Some _ => true
              | None => false
              end)) by reflexivity.
  assert (Hfin : forall s3,
            st_files s3 = st_files st -> HTML_COPIED_FILE s3 = name ->
            st_runtime s3 = st_runtime st ->
            exists st' copy,
              (target <- gets HTML_COPIED_FILE ;;
               copy_file HTML_TEMPLATE_FILE target ;;
               ret user_input) s3 = (Ok user_input, st')
              /\ HTML_COPIED_FILE st' = name
              /\ lookup (st_files st') (HTML_COPIED_FILE st') = Some copy
              /\ f_content copy = f_content template
              /\ lookup (st_files st') HTML_TEMPLATE_FILE = Some template
              /\ st_runtime st' = st_runtime st).
  { intros s3 F3 T3 R3.
    rewrite (bind_ok _ _ s3 s3 name) by (unfold gets; now rewrite T3).
    destruct (Hcopy s3 F3) as (copy & Hrun & Hc).
    rewrite (bind_ok _ _ _ _ _ Hrun).
    eexists. exists copy. split; [reflexivity|].
    cbn [HTML_COPIED_FILE log_event with_files st_files st_runtime].
    rewrite T3, lookup_update_same, Hother. auto. }
  destruct (lookup (st_files s2) name).
  - rewrite (bind_ok _ _ s2
               (log_event
                  (Printed "WARN: You will overriding a present HTML file!")
                  s2) tt) by reflexivity.
    apply Hfin; assumption.
  - rewrite (bind_ok _ _ s2 s2 tt) by reflexivity.
    apply Hfin; assumption.
Qed.

Lemma on_user_input_copies_template_witness :
  exists st' copy,
    @on_user_input example_interpreter "en.yml" ordering_example
    = (Ok "en.yml", st')
    /\ lookup (st_files st') (HTML_COPIED_FILE st') = Some copy
    /\ f_content copy = Text "<p>i18n:greeting</p><b>env:foo</b>".
Proof.
  destruct (@on_user_input_copies_template example_interpreter "en.yml"
              ordering_example
              (mk_file "<p>i18n:greeting</p><b>env:foo</b>" true true))
    as (st' & copy & H1 & _ & H3 & H4 & _).
  - simpl. auto.
  - reflexivity.
  - reflexivity.
  - reflexivity.
  - discriminate.
  - intros g H. discriminate H.
  - exists st', copy. auto.
Defined.

(** ** Loading *)

Lemma bind_inv {A B : Type} (m : M A) (k : A -> M B) (st st' : state)
  (b : B) :
  bind m k st = (Ok b, st') ->
  exists a st1, m st = (Ok a, st1) /\ k a st1 = (Ok b, st').
Proof.
  unfold bind. destruct (m st) as [[a|e] st1]; [eauto | discriminate].
Qed.

Section LoadingFiles.

Variable yaml_load : string -> result value.

(** A document that [load_data] returns is what the parser makes of the
    text read from the file, and is not [None]; the file has been read
    once. *)
Lemma load_data_inv (file_path : string) (st st1 : state) (data : value) :
  load_data yaml_load file_path st = (Ok data, st1) ->
  st1 = log_event (FileRead file_path) st
  /\ data <> VNone
  /\ exists f text,
      lookup (st_files st) file_path = Some f
      /\ f_readable f = true
      /\ (let suffix := Py.lower (path_suffix file_path) in
          String.eqb suffix ".yml" || String.eqb suffix ".yaml") = true
      /\ f_content f = Text text
      /\ yaml_load (Py.universal_newlines text) = Ok data.
Proof.
  unfold load_data, read_file, path_exists, path_is_dir, emit, lift, gets,
    modify, raise, ret, bind.
  destruct (lookup (st_files st) file_path) as [f|] eqn:Hf; cbn [negb orb];
    [|discriminate].
  destruct f as [[text| |] r w]; cbn [negb orb]; try discriminate.
  - cbv zeta.
    destruct (String.eqb (Py.lower (path_suffix file_path)) ".yml"
              || String.eqb (Py.lower (path_suffix file_path)) ".yaml")
      eqn:Hs; cbn [negb]; [|discriminate].
    rewrite Hf. cbn [f_readable f_content].
    destruct r; cbn [negb read_text]; [|discriminate].
    destruct (yaml_load (Py.universal_newlines text)) as [d|e] eqn:Hy;
      [|discriminate].
    destruct d; intros H; try discriminate; injection H as <- <-;
      (split; [reflexivity|]); (split; [discriminate|]);
      exists (mk_file text true w), text; auto.
  - cbv zeta.
    destruct (String.eqb (Py.lower (path_suffix file_path)) ".yml"
              || String.eqb (Py.lower (path_suffix file_path)) ".yaml");
      cbn [negb]; [|discriminate].
    rewrite Hf. cbn [f_readable f_content].
    destruct r; cbn [negb read_text]; discriminate.
Qed.

Lemma load_keys_inv (file_path : string) (st st1 : state)
  (keys : list string) :
  load_keys yaml_load file_path st = (Ok keys, st1) ->
  st1 = log_event (FileRead file_path) st
  /\ exists data,
      load_data yaml_load file_path st = (Ok data, st1)
      /\ load_keys_data data = Ok keys.
Proof.
  unfold load_keys. intros H.
  apply bind_inv in H. destruct H as (present & s1 & H1 & H).
  unfold path_exists, gets in H1. injection H1 as <- <-.
  apply bind_inv in H. destruct H as ([] & s2 & H2 & H).
  assert (s2 = st).
  { destruct (lookup (st_files st) file_path); cbn in H2;
      [injection H2 as <-; reflexivity | discriminate]. }
  subst s2. apply bind_inv in H. destruct H as (data & s3 & H3 & H).
  unfold lift in H. injection H as H <-.
  split; [now apply load_data_inv in H3|]. eauto.
Qed.

End LoadingFiles.

(** X15. A path that names nothing, a directory, or a file whose suffix is
    neither [.yml] nor [.yaml] in any letter case, is refused before
    anything is read, whatever the parser: [load_data] raises [TypeError]
    in all three cases; [load_keys] raises [FileNotFoundError] for the
    missing path and [TypeError] for the others.  The state is left as it
    was. *)
Theorem load_refuses_without_reading (yaml_load : string -> result value)
  (file_path : string) (st : state) :
  lookup (st_files st) file_path = None
  \/ (exists f, lookup (st_files st) file_path = Some f /\ is_file f = false)
  \/ (let suffix := Py.lower (path_suffix file_path) in
      String.eqb suffix ".yml" || String.eqb suffix ".yaml") = false ->
  load_data yaml_load file_path st = (Raise TypeError, st)
  /\ load_keys yaml_load file_path st
     = (Raise (match lookup (st_files st) file_path with
               | None => FileNotFoundError
               | Some _ => TypeError
               end), st).
Proof.
  cbv zeta. intros H.
  assert (Hd : load_data yaml_load file_path st = (Raise TypeError, st)).
  { unfold load_data.
    destruct (lookup (st_files st) file_path) as [f|] eqn:Hf.
    - rewrite (bind_ok _ _ _ _ _ (path_exists_found file_path st f Hf)).
      rewrite (bind_ok _ _ _ _ _ (path_is_dir_file file_path st f Hf)).
      cbn [negb orb].
      destruct (is_file f) eqn:Hk; cbn [negb]; [|reflexivity].
      rewrite (bind_ok _ _ st st tt) by reflexivity.
      destruct H as [H|[(g & Hg & Hkg)|H]]; [discriminate| |].
      + injection Hg as <-. congruence.
      + cbv zeta. now rewrite H.
    - unfold bind, path_exists, path_is_dir, gets. now rewrite Hf. }
  split; [exact Hd|].
  unfold load_keys. unfold bind at 1. unfold path_exists at 1, gets at 1.
  destruct (lookup (st_files st) file_path) as [f|]; cbn [negb];
    [|reflexivity].
  unfold bind at 1. unfold ret at 1. unfold bind at 1. now rewrite Hd.
Qed.

Lemma load_refuses_without_reading_witness :
  load_data (fun _ => Ok scenario_A) "lang/en.json"
    (with_files [("lang/en.json", mk_file "a: {b: X}" true true)]
       ordering_example)
  = (Raise TypeError,
     with_files [("lang/en.json", mk_file "a: {b: X}" true true)]
       ordering_example)
  /\ load_keys (fun _ => Ok scenario_A) "lang/en.yml"
       (with_files [("lang/en.yml", mk_file Directory true true)]
          ordering_example)
     = (Raise TypeError,
        with_files [("lang/en.yml", mk_file Directory true true)]
          ordering_example).
Proof.
  split.
  - apply (load_refuses_without_reading (fun _ => Ok scenario_A)
             "lang/en.json"
             (with_files [("lang/en.json", mk_file "a: {b: X}" true true)]
                ordering_example)).
    right. right. reflexivity.
  - apply (load_refuses_without_reading (fun _ => Ok scenario_A)
             "lang/en.yml"
             (with_files [("lang/en.yml", mk_file Directory true true)]
                ordering_example)).
    right. left. exists (mk_file Directory true true).
    split; reflexivity.
Defined.

(** X16. [load_keys] returns a list exactly when the path names a readable
    text file with a YAML suffix whose text, as it is read, the parser
    turns into a document other than [None] that the flattener accepts; the
    list is then the flattening of that document, [load_data] returns the
    document, and the one change to the state is that the file has been
    read once. *)
Theorem load_keys_returns (yaml_load : string -> result value)
  (file_path : string) (st st1 : state) (keys : list string) :
  load_keys yaml_load file_path st = (Ok keys, st1)
  <-> st1 = log_event (FileRead file_path) st
      /\ exists f text data,
          lookup (st_files st) file_path = Some f
          /\ f_readable f = true
          /\ (let suffix := Py.lower (path_suffix file_path) in
              String.eqb suffix ".yml" || String.eqb suffix ".yaml") = true
          /\ f_content f = Text text
          /\ yaml_load (Py.universal_newlines text) = Ok data
          /\ data <> VNone
          /\ load_data yaml_load file_path st = (Ok data, st1)
          /\ load_keys_data data = Ok keys.
Proof.
  split.
  - intros H. apply load_keys_inv in H.
    destruct H as (-> & data & Hd & Hk). split; [reflexivity|].
    pose proof (load_data_inv _ _ _ _ _ Hd)
      as (_ & Hn & f & text & Hf & Hr & Hs & Hc & Hy).
    exists f, text, data. auto 10.
  - intros (-> & f & text & data & Hf & Hr & Hs & Hc & Hy & Hn & _ & Hk).
    rewrite (load_keys_of_file yaml_load file_path st f text data
               Hf Hr Hs Hc Hy Hn).
    now rewrite Hk.
Qed.

Lemma load_keys_returns_witness :
  load_keys (fun _ => Ok scenario_A) "lang/en.yml"
    (with_files [("lang/en.yml", mk_file "a: {b: X}" true true)]
       ordering_example)
  = (Ok ["a.b"],
     log_event (FileRead "lang/en.yml")
       (with_files [("lang/en.yml", mk_file "a: {b: X}" true true)]
          ordering_example)).
Proof.
  apply (proj2 (load_keys_returns (fun _ => Ok scenario_A) "lang/en.yml"
                  _ _ ["a.b"])).
  split; [reflexivity|].
  exists (mk_file "a: {b: X}" true true), "a: {b: X}", scenario_A.
  repeat split; try reflexivity. discriminate.
Defined.

(** ** The languages found *)

Section Directories.

Variable sep : ascii.

Lemma split_single (s : string) :
  has_char sep s = false -> Py.split sep s = [s].
Proof.
  induction s as [|c s IH]; simpl; [reflexivity|].
  rewrite has_char_cons. intros H. apply orb_false_iff in H.
  destruct H as [Hc Hs]. rewrite Hc, (IH Hs). reflexivity.
Qed.

Lemma split_not_nil (s : string) : Py.split sep s <> [].
Proof.
  destruct s as [|c s]; simpl; [discriminate|].
  destruct (Ascii.eqb c sep); [discriminate|].
  destruct (Py.split sep s); discriminate.
Qed.

(** The pieces after the last separator of [s ++ sep ++ t] are those of
    [t]. *)
Lemma split_app_sep (s t : string) :
  exists l, l <> []
            /\ Py.split sep (s ++ String sep t) = (l ++ Py.split sep t)%list.
Proof.
  induction s as [|c s IH]; simpl.
  - rewrite Ascii.eqb_refl. exists [""]. split; [discriminate | reflexivity].
  - destruct IH as (l & Hl & ->).
    destruct (Ascii.eqb c sep).
    + exists ("" :: l). split; [discriminate | reflexivity].
    + destruct l as [|piece l]; [contradiction|]. simpl.
      exists (String c piece :: l). split; [discriminate | reflexivity].
Qed.

Lemma last_app_single {A : Type} (l : list A) (a d : A) :
  last (l ++ [a]) d = a.
Proof.
  induction l as [|b l IH]; [reflexivity|].
  simpl. destruct (l ++ [a])%list eqn:E; [now destruct l | exact IH].
Qed.

Lemma last_split_app_sep (s t : string) :
  has_char sep t = false -> last (Py.split sep (s ++ String sep t)) "" = t.
Proof.
  intros H. destruct (split_app_sep s t) as (l & _ & ->).
  rewrite (split_single t H). apply last_app_single.
Qed.

End Directories.

Lemma path_name_in_directory (directory name : string) :
  has_char "/" name = false -> path_name (directory ++ "/" ++ name) = name.
Proof. intros H. unfold path_name. now apply last_split_app_sep. Qed.

Lemma path_name_plain (name : string) :
  has_char "/" name = false -> path_name name = name.
Proof. intros H. unfold path_name. now rewrite (split_single _ _ H). Qed.

Lemma path_suffix_in_directory (directory name : string) :
  has_char "/" name = false ->
  path_suffix (directory ++ "/" ++ name) = path_suffix name.
Proof.
  intros H. unfold path_suffix.
  now rewrite (path_name_in_directory directory name H),
    (path_name_plain name H).
Qed.

Lemma prefix_drop (p s : string) :
  String.prefix p s = true -> s = p ++ Py.drop (String.length p) s.
Proof.
  revert s. induction p as [|a p IH]; intros s H; [reflexivity|].
  destruct s as [|b s]; [discriminate|]. simpl in H.
  destruct (ascii_dec a b) as [<-|]; [|discriminate].
  simpl. f_equal. now apply IH.
Qed.

Lemma drop_app_length (p t : string) :
  Py.drop (String.length p) (p ++ t) = t.
Proof. induction p as [|a p IH]; simpl; [now destruct t | exact IH]. Qed.

Lemma lookup_In_fst {A : Type} (l : list (string * A)) (k : string) :
  In k (map fst l) <-> exists a, lookup l k = Some a.
Proof.
  induction l as [|[k' a'] l IH]; simpl.
  - split; [intros [] | intros [a H]; discriminate].
  - destruct (String.eqb k' k) eqn:E.
    + apply String.eqb_eq in E. split; [eauto | auto].
    + apply String.eqb_neq in E. rewrite <- IH. tauto.
Qed.

Lemma append_assoc (s t u : string) : (s ++ t) ++ u = s ++ t ++ u.
Proof. induction s as [|c s IH]; simpl; [reflexivity | now rewrite IH]. Qed.

Lemma iterdir_files_spec (directory : string) (fs : list (string * file))
  (path : string) :
  In path (iterdir_files directory fs)
  <-> exists name,
        path = directory ++ "/" ++ name
        /\ has_char "/" name = false
        /\ is_file_at fs path = true.
Proof.
  unfold iterdir_files.
  rewrite filter_In, lookup_In_fst, !andb_true_iff, negb_true_iff.
  split.
  - intros (Hf & (Hp & Hn) & Hk). apply prefix_drop in Hp.
    rewrite length_app in Hp. simpl String.length in Hp.
    exists (Py.drop (String.length directory + 1) path).
    rewrite append_assoc in Hp.
    repeat split; assumption.
  - intros (name & -> & Hn & Hk). split.
    { unfold is_file_at in Hk.
      destruct (lookup fs (directory ++ "/" ++ name)) as [f|];
        [eauto | discriminate]. }
    split; [|exact Hk].
    rewrite <- append_assoc.
    replace (String.length directory + 1)
      with (String.length (directory ++ "/"))
      by (rewrite length_app; reflexivity).
    rewrite drop_app_length.
    split; [apply prefix_app | exact Hn].
Qed.

Lemma languages_of_spec (directory : string) (fs : list (string * file))
  (name : string) :
  In name (languages_of directory fs)
  <-> is_file_at fs directory = false
      /\ has_char "/" name = false
      /\ is_file_at fs (directory ++ "/" ++ name) = true
      /\ (let suffix := Py.lower (path_suffix name) in
          String.eqb suffix ".yml" || String.eqb suffix ".yaml") = true.
Proof.
  unfold languages_of. cbv zeta.
  destruct (is_file_at fs directory);
    [split; [intros [] | intros (H & _); discriminate]|].
  split.
  - intros H. apply (Permutation_in _ (sort_perm _)) in H.
    apply in_map_iff in H. destruct H as (path & <- & H).
    apply filter_In in H. destruct H as [H Hs].
    apply iterdir_files_spec in H. destruct H as (name & -> & Hn & Hf).
    rewrite (path_name_in_directory directory name Hn).
    rewrite (path_suffix_in_directory directory name Hn) in Hs. auto.
  - intros (_ & Hn & Hf & Hs).
    apply (Permutation_in _ (Permutation_sym (sort_perm _))).
    apply in_map_iff. exists (directory ++ "/" ++ name).
    split; [now apply path_name_in_directory|].
    apply filter_In. split.
    + apply iterdir_files_spec. exists name. auto.
    + now rewrite (path_suffix_in_directory directory name Hn).
Qed.



(** ** What [on_load] leaves behind *)

Ltac on_load_prefix :=
  unfold bind at 1; unfold path_exists at 1, gets at 1; cbv beta iota;
  unfold bind at 1; unfold print at 1, emit at 1, modify at 1;
  cbv beta iota zeta;
  unfold bind at 1; unfold print at 1, emit at 1, modify at 1;
  cbv beta iota;
  unfold bind at 1; unfold get_languages at 1, gets at 1; cbv beta iota;
  unfold bind at 1; unfold set_LANG_LIST at 1, modify at 1; cbv beta iota;
  unfold bind at 1; unfold gets at 1; cbv beta iota.

Section AfterLoading.

Variable yaml_load : string -> result value.

Lemma keeps_language_loop (langs : list string) :
  keeps_langs_and_files
    (for_each langs (fun i =>
       print ("- " ++ i) ;;
       data <- load_data yaml_load (LANG_FOLDER ++ "/" ++ i) ;;
       rt <- gets st_runtime ;;
       set_runtime (mk_runtime (DATA_ENV rt) (DATA_ENV_KEYS rt)
                      (update (DATA_I18N rt) i data) (DATA_I18N_TRKEYS rt)) ;;
       keys <- load_keys yaml_load (LANG_FOLDER ++ "/" ++ i) ;;
       rt <- gets st_runtime ;;
       set_runtime (mk_runtime (DATA_ENV rt) (DATA_ENV_KEYS rt)
                      (DATA_I18N rt) (update (DATA_I18N_TRKEYS rt) i keys)))).
Proof.
  apply keeps_for_each. intros i.
  apply keeps_bind; [apply keeps_emit | intros _].
  apply keeps_bind; [apply keeps_load_data | intros data].
  apply keeps_bind; [apply keeps_pure | intros rt].
  apply keeps_bind; [apply keeps_set_runtime | intros _].
  apply keeps_bind; [apply keeps_load_keys | intros keys].
  apply keeps_bind; [apply keeps_pure | intros rt'].
  apply keeps_set_runtime.
Qed.

Lemma keeps_env_loading :
  keeps_langs_and_files
    (data <- load_data yaml_load ENV_CFG ;;
     rt <- gets st_runtime ;;
     set_runtime (mk_runtime data (DATA_ENV_KEYS rt)
                    (DATA_I18N rt) (DATA_I18N_TRKEYS rt)) ;;
     keys <- load_keys yaml_load ENV_CFG ;;
     rt <- gets st_runtime ;;
     set_runtime (mk_runtime (DATA_ENV rt) keys
                    (DATA_I18N rt) (DATA_I18N_TRKEYS rt)) ;;
     print "Loaded actual texts.").
Proof.
  apply keeps_bind; [apply keeps_load_data | intros data].
  apply keeps_bind; [apply keeps_pure | intros rt].
  apply keeps_bind; [apply keeps_set_runtime | intros _].
  apply keeps_bind; [apply keeps_load_keys | intros keys].
  apply keeps_bind; [apply keeps_pure | intros rt'].
  apply keeps_bind; [apply keeps_set_runtime | intros _].
  apply keeps_emit.
Qed.

(** [on_load] up to its loop: the two lines printed and the language list
    set. *)
Lemma on_load_from (st : state) :
  exists s,
    on_load yaml_load st
    = (for_each (LANG_LIST s) (fun i =>
         print ("- " ++ i) ;;
         data <- load_data yaml_load (LANG_FOLDER ++ "/" ++ i) ;;
         rt <- gets st_runtime ;;
         set_runtime (mk_runtime (DATA_ENV rt) (DATA_ENV_KEYS rt)
                        (update (DATA_I18N rt) i data)
                        (DATA_I18N_TRKEYS rt)) ;;
         keys <- load_keys yaml_load (LANG_FOLDER ++ "/" ++ i) ;;
         rt <- gets st_runtime ;;
         set_runtime (mk_runtime (DATA_ENV rt) (DATA_ENV_KEYS rt)
                        (DATA_I18N rt)
                        (update (DATA_I18N_TRKEYS rt) i keys))) ;;
       data <- load_data yaml_load ENV_CFG ;;
       rt <- gets st_runtime ;;
       set_runtime (mk_runtime data (DATA_ENV_KEYS rt)
                      (DATA_I18N rt) (DATA_I18N_TRKEYS rt)) ;;
       keys <- load_keys yaml_load ENV_CFG ;;
       rt <- gets st_runtime ;;
       set_runtime (mk_runtime (DATA_ENV rt) keys
                      (DATA_I18N rt) (DATA_I18N_TRKEYS rt)) ;;
       print "Loaded actual texts.") s
    /\ LANG_LIST s = languages_of LANG_FOLDER (st_files st)
    /\ st_files s = st_files st
    /\ st_runtime s = st_runtime st
    /\ st_log s
       = (st_log st
          ++ [Printed ("Checking env config: "
                       ++ match lookup (st_files st) ENV_CFG with
                          | Some _ => "ok."
                          | None => "Err: no exists!"
                          end);
              Printed "Detecting supported language files..."])%list.
Proof.
  eexists. split.
  - unfold on_load. on_load_prefix. reflexivity.
  - simpl. rewrite <- app_assoc. simpl.
    now destruct (lookup (st_files st) ENV_CFG).
Qed.

Lemma on_load_keeps (st : state) :
  LANG_LIST (snd (on_load yaml_load st))
  = languages_of LANG_FOLDER (st_files st)
  /\ st_files (snd (on_load yaml_load st)) = st_files st.
Proof.
  destruct (on_load_from st) as (s & -> & HL & HF & _).
  match goal with
  | |- LANG_LIST (snd (?m s)) = _ /\ _ =>
      assert (Hk : keeps_langs_and_files m);
        [|destruct (Hk s) as [H1 H2]; rewrite H1, H2; now split]
  end.
  apply keeps_bind; [apply keeps_language_loop | intros _].
  apply keeps_env_loading.
Qed.


(** A file loaded twice gives the same document: the key list that
    [load_keys] returns is the flattening of what [load_data] returned for
    the same path on the same files. *)
Lemma load_twice (file_path : string) (st sa st' sb : state) (data : value)
  (keys : list string) :
  load_data yaml_load file_path st = (Ok data, sa) ->
  st_files st' = st_files st ->
  load_keys yaml_load file_path st' = (Ok keys, sb) ->
  load_keys_data data = Ok keys.
Proof.
  intros Hd Hf Hk.
  apply load_data_inv in Hd.
  destruct Hd as (_ & _ & f & text & Hl & _ & _ & Hc & Hy).
  apply load_keys_inv in Hk. destruct Hk as (_ & data' & Hd' & Hk).
  apply load_data_inv in Hd'.
  destruct Hd' as (_ & _ & f' & text' & Hl' & _ & _ & Hc' & Hy').
  rewrite Hf, Hl in Hl'. injection Hl' as <-.
  rewrite Hc in Hc'. injection Hc' as <-.
  rewrite Hy in Hy'. injection Hy' as <-. exact Hk.
Qed.

Lemma registry_ok_update (rt : runtime) (i j : string) (data : value)
  (keys : list string) (env : value) (env_keys : list string) :
  load_keys_data data = Ok keys ->
  j = i \/ registry_ok rt j ->
  registry_ok
    (mk_runtime env env_keys (update (DATA_I18N rt) i data)
       (update (DATA_I18N_TRKEYS rt) i keys)) j.
Proof.
  intros Hk H. unfold registry_ok. simpl.
  destruct (string_dec j i) as [->|Hne].
  - exists data, keys. now rewrite !lookup_update_same.
  - destruct H as [H|(d & ks & H1 & H2 & H3)]; [contradiction|].
    exists d, ks. now rewrite !lookup_update_other.
Qed.

Lemma on_load_body_registry (i : string) (st st' : state) :
  (print ("- " ++ i) ;;
   data <- load_data yaml_load (LANG_FOLDER ++ "/" ++ i) ;;
   rt <- gets st_runtime ;;
   set_runtime (mk_runtime (DATA_ENV rt) (DATA_ENV_KEYS rt)
                  (update (DATA_I18N rt) i data) (DATA_I18N_TRKEYS rt)) ;;
   keys <- load_keys yaml_load (LANG_FOLDER ++ "/" ++ i) ;;
   rt <- gets st_runtime ;;
   set_runtime (mk_runtime (DATA_ENV rt) (DATA_ENV_KEYS rt)
                  (DATA_I18N rt) (update (DATA_I18N_TRKEYS rt) i keys)))
    st = (Ok tt, st') ->
  forall j, j = i \/ registry_ok (st_runtime st) j ->
            registry_ok (st_runtime st') j.
Proof.
  intros H j Hj.
  apply bind_inv in H. destruct H as ([] & s1 & H1 & H).
  unfold print, emit, modify in H1. injection H1 as <-.
  apply bind_inv in H. destruct H as (data & s2 & Hd & H).
  apply bind_inv in H. destruct H as (rt & s3 & Hg & H).
  unfold gets in Hg. injection Hg as <- <-.
  apply bind_inv in H. destruct H as ([] & s4 & Hs & H).
  unfold set_runtime, modify in Hs. injection Hs as <-.
  apply bind_inv in H. destruct H as (keys & s5 & Hk & H).
  apply bind_inv in H. destruct H as (rt' & s6 & Hg & H).
  unfold gets in Hg. injection Hg as <- <-.
  unfold set_runtime, modify in H. injection H as <-.
  pose proof (load_data_inv _ _ _ _ _ Hd) as (-> & _).
  pose proof (fun Hf => load_twice _ _ _ _ _ _ _ Hd Hf Hk) as Hflat.
  specialize (Hflat eq_refl).
  apply load_keys_inv in Hk. destruct Hk as (-> & _).
  simpl. now apply registry_ok_update.
Qed.

Lemma on_load_loop_registry (langs : list string) :
  forall st st',
    for_each langs (fun i =>
      print ("- " ++ i) ;;
      data <- load_data yaml_load (LANG_FOLDER ++ "/" ++ i) ;;
      rt <- gets st_runtime ;;
      set_runtime (mk_runtime (DATA_ENV rt) (DATA_ENV_KEYS rt)
                     (update (DATA_I18N rt) i data) (DATA_I18N_TRKEYS rt)) ;;
      keys <- load_keys yaml_load (LANG_FOLDER ++ "/" ++ i) ;;
      rt <- gets st_runtime ;;
      set_runtime (mk_runtime (DATA_ENV rt) (DATA_ENV_KEYS rt)
                     (DATA_I18N rt) (update (DATA_I18N_TRKEYS rt) i keys)))
      st = (Ok tt, st') ->
    forall j, In j langs \/ registry_ok (st_runtime st) j ->
              registry_ok (st_runtime st') j.
Proof.
  induction langs as [|i langs IH]; intros st st' H j Hj.
  - simpl in H. unfold ret in H. injection H as <-.
    destruct Hj as [[]|Hj]. exact Hj.
  - cbn [for_each] in H.
    apply bind_inv in H. destruct H as ([] & s1 & Hb & H).
    apply (IH _ _ H).
    destruct Hj as [[<-|Hj]|Hj]; [right | now left | right].
    + apply (on_load_body_registry _ _ _ Hb). now left.
    + apply (on_load_body_registry _ _ _ Hb). now right.
Qed.

Lemma on_load_env_registry (st st' : state) :
  (data <- load_data yaml_load ENV_CFG ;;
   rt <- gets st_runtime ;;
   set_runtime (mk_runtime data (DATA_ENV_KEYS rt)
                  (DATA_I18N rt) (DATA_I18N_TRKEYS rt)) ;;
   keys <- load_keys yaml_load ENV_CFG ;;
   rt <- gets st_runtime ;;
   set_runtime (mk_runtime (DATA_ENV rt) keys
                  (DATA_I18N rt) (DATA_I18N_TRKEYS rt)) ;;
   print "Loaded actual texts.") st = (Ok tt, st') ->
  load_keys_data (DATA_ENV (st_runtime st'))
  = Ok (DATA_ENV_KEYS (st_runtime st'))
  /\ DATA_I18N (st_runtime st') = DATA_I18N (st_runtime st)
  /\ DATA_I18N_TRKEYS (st_runtime st') = DATA_I18N_TRKEYS (st_runtime st).
Proof.
  intros H.
  apply bind_inv in H. destruct H as (data & s2 & Hd & H).
  apply bind_inv in H. destruct H as (rt & s3 & Hg & H).
  unfold gets in Hg. injection Hg as <- <-.
  apply bind_inv in H. destruct H as ([] & s4 & Hs & H).
  unfold set_runtime, modify in Hs. injection Hs as <-.
  apply bind_inv in H. destruct H as (keys & s5 & Hk & H).
  apply bind_inv in H. destruct H as (rt' & s6 & Hg & H).
  unfold gets in Hg. injection Hg as <- <-.
  apply bind_inv in H. destruct H as ([] & s7 & Hs & H).
  unfold set_runtime, modify in Hs. injection Hs as <-.
  unfold print, emit, modify in H. injection H as <-.
  pose proof (load_data_inv _ _ _ _ _ Hd) as (-> & _).
  pose proof (fun Hf => load_twice _ _ _ _ _ _ _ Hd Hf Hk) as Hflat.
  specialize (Hflat eq_refl).
  apply load_keys_inv in Hk. destruct Hk as (-> & _).
  simpl. auto.
Qed.










End AfterLoading.




Lemma on_load_leaves_registry (yaml_load : string -> result value)
  (st st' : state) :
  on_load yaml_load st = (Ok tt, st') ->
  load_keys_data (DATA_ENV (st_runtime st'))
  = Ok (DATA_ENV_KEYS (st_runtime st'))
  /\ forall lang, In lang (LANG_LIST st') ->
                  registry_ok (st_runtime st') lang.
Proof.
  intros H.
  pose proof (on_load_keeps yaml_load st) as [HL' _]. rewrite H in HL'.
  simpl in HL'.
  destruct (on_load_from yaml_load st) as (s & E & HL & _). rewrite E in H.
  apply bind_inv in H. destruct H as ([] & s1 & Hloop & H).
  apply on_load_env_registry in H. destruct H as (He & Hi & Ht).
  split; [exact He|]. intros lang Hin.
  rewrite HL', <- HL in Hin.
  pose proof (on_load_loop_registry yaml_load _ _ _ Hloop lang
                (or_introl Hin)) as (d & ks & H1 & H2 & H3).
  exists d, ks. now rewrite Hi, Ht.
Qed.

(** X20. When [on_load] returns, the registry it leaves is in order: the
    list of environment keys is the flattening of the environment map, and
    every language of [LANG_LIST] has a map and a key list in the registry,
    the key list being the flattening of the map. *)
Theorem on_load_registry (yaml_load : string -> result value)
  (st st' : state) :
  on_load yaml_load st = (Ok tt, st') ->
  load_keys_data (DATA_ENV (st_runtime st'))
  = Ok (DATA_ENV_KEYS (st_runtime st'))
  /\ forall lang, In lang (LANG_LIST st') ->
                  registry_ok (st_runtime st') lang.
Proof. apply on_load_leaves_registry. Qed.

Lemma on_load_registry_witness :
  load_keys_data
    (DATA_ENV
       (st_runtime
          (snd (on_load (fun _ => Ok scenario_A)
                  (with_files
                     [("lang/en.yml", mk_file "a: {b: X}" true true);
                      ("env.yml", mk_file "a: {b: X}" true true)]
                     ordering_example)))))
  = Ok ["a.b"]
  /\ registry_ok
       (st_runtime
          (snd (on_load (fun _ => Ok scenario_A)
                  (with_files
                     [("lang/en.yml", mk_file "a: {b: X}" true true);
                      ("env.yml", mk_file "a: {b: X}" true true)]
                     ordering_example))))
       "en.yml".
Proof.
  destruct (on_load_registry (fun _ => Ok scenario_A)
              (with_files
                 [("lang/en.yml", mk_file "a: {b: X}" true true);
                  ("env.yml", mk_file "a: {b: X}" true true)]
                 ordering_example)
              (snd (on_load (fun _ => Ok scenario_A)
                      (with_files
                         [("lang/en.yml", mk_file "a: {b: X}" true true);
                          ("env.yml", mk_file "a: {b: X}" true true)]
                         ordering_example))))
    as [H1 H2].
  - vm_compute. reflexivity.
  - split; [exact H1|]. apply H2. vm_compute. auto.
Defined.

(** ** A data argument that counts *)

(** X21. A data argument that counts as true takes the place of the
    registry map: the environment resolver then does not look at the
    registry at all, and the language resolver still raises [KeyError] when
    the language is not in the registry, before the argument is used. *)
Theorem data_argument_overrides_registry {I : Interpreter}
  (key lang_file : string) (data : value) (st : state) :
  truthy data = true ->
  get_actual_env_content key data st
  = get_actual_content key data ("env:" ++ key) st
  /\ get_actual_i18n_content key lang_file data st
     = match lookup (DATA_I18N (st_runtime st)) lang_file with
       | Some _ => get_actual_content key data ("i18n:" ++ key) st
       | None => (Raise KeyError, st)
       end.
Proof.
  intros Ht. split.
  - unfold get_actual_env_content.
    rewrite (bind_ok _ _ st st ("env:" ++ key)) by reflexivity.
    rewrite (bind_ok _ _ st st (DATA_ENV (st_runtime st))) by reflexivity.
    rewrite Ht. now rewrite (bind_ok _ _ st st data) by reflexivity.
  - unfold get_actual_i18n_content.
    rewrite (bind_ok _ _ st st ("i18n:" ++ key)) by reflexivity.
    rewrite (bind_ok _ _ st st (DATA_I18N (st_runtime st))) by reflexivity.
    destruct (lookup (DATA_I18N (st_runtime st)) lang_file) as [d|].
    + rewrite (bind_ok _ _ st st d) by reflexivity.
      rewrite Ht. now rewrite (bind_ok _ _ st st data) by reflexivity.
    + reflexivity.
Qed.

Lemma data_argument_overrides_registry_witness :
  @get_actual_env_content example_interpreter "foo"
    (VDict [(KStr "foo", VStr "other")]) ordering_example
  = (Ok "other", ordering_example)
  /\ @get_actual_i18n_content example_interpreter "foo" "fr.yml"
       (VDict [(KStr "foo", VStr "other")]) ordering_example
     = (Raise KeyError, ordering_example).
Proof.
  exact (@data_argument_overrides_registry example_interpreter "foo" "fr.yml"
           (VDict [(KStr "foo", VStr "other")]) ordering_example eq_refl).
Defined.

(** ** When the flattener fails *)

Section FlattenerFailure.

Lemma filter_all_str (ks : list pykey) :
  forallb is_KStr (filter (fun p => negb (is_None p) && key_truthy p) ks)
  = negb (existsb bad_key ks).
Proof.
  induction ks as [|k ks IH]; [reflexivity|].
  simpl. unfold bad_key at 1.
  destruct (negb (is_None k) && key_truthy k); simpl; [|exact IH].
  rewrite IH. now destruct (is_KStr k).
Qed.

Lemma key_of_path_outcome (ks : list pykey) :
  (key_of_path ks = Raise TypeError /\ existsb bad_key ks = true)
  \/ ((exists k, key_of_path ks = Ok k) /\ existsb bad_key ks = false).
Proof.
  pose proof (filter_all_str ks) as H.
  destruct (existsb bad_key ks); simpl in H.
  - left. split; [|reflexivity]. unfold key_of_path, merge_args_to_key.
    now rewrite (merge_args_loop_not_str _ H).
  - right. split; [|reflexivity]. unfold key_of_path, merge_args_to_key.
    destruct (merge_args_loop_str _ H []) as [parts ->]. simpl. eauto.
Qed.

Lemma load_keys_items_outcome (p : list pykey)
  (items : list (pykey * value)) :
  forall stack keys,
    match load_keys_items p items stack keys with
    | Ok _ =>
        forall kk v, In (kk, v) items -> is_dict v = false ->
                     existsb bad_key (p ++ [kk]) = false
    | Raise e =>
        e = TypeError
        /\ exists kk v, In (kk, v) items /\ is_dict v = false
                        /\ existsb bad_key (p ++ [kk]) = true
    end.
Proof.
  induction items as [|[k v] items IH]; intros stack keys; simpl.
  - intros kk v [].
  - destruct (is_dict v) eqn:Hd.
    + specialize (IH (((p ++ [k])%list, v) :: stack) keys).
      destruct (load_keys_items p items _ keys) as [[st ks]|e].
      * intros kk v' [E|Hin] Hv; [|now apply (IH kk v')].
        injection E as <- <-. congruence.
      * destruct IH as (-> & kk & v' & Hin & Hv & Hb).
        split; [reflexivity|]. exists kk, v'. auto.
    + destruct (p ++ [k])%list as [|p0 pl] eqn:Hp; [now destruct p|].
      rewrite <- Hp.
      change (merge_args_to_key
                (filter (fun p => negb (is_None p) && key_truthy p)
                   (p ++ [k])))
        with (key_of_path (p ++ [k])).
      destruct (key_of_path_outcome (p ++ [k])) as [[-> Hb]|[[key ->] Hb]];
        simpl.
      * split; [reflexivity|]. exists k, v. auto.
      * specialize (IH stack (keys ++ [key])%list).
        destruct (load_keys_items p items stack _) as [[st ks]|e].
        -- intros kk v' [E|Hin] Hv; [|now apply (IH kk v')].
           injection E as <- <-. exact Hb.
        -- destruct IH as (-> & kk & v' & Hin & Hv & Hb').
           split; [reflexivity|]. exists kk, v'. auto.
Qed.

Lemma load_keys_loop_outcome (stack : stack_t) (keys : list string) :
  (forall p d, In (p, d) stack -> is_dict d = true) ->
  match load_keys_loop stack keys with
  | Ok _ =>
      forall p d ks v, In (p, d) stack -> path_to d ks v ->
                       is_dict v = false ->
                       existsb bad_key (p ++ ks) = false
  | Raise e =>
      e = TypeError
      /\ exists p d ks v, In (p, d) stack /\ path_to d ks v
                          /\ is_dict v = false
                          /\ existsb bad_key (p ++ ks) = true
  end.
Proof.
  funelim (load_keys_loop stack keys); intros Hst.
  all: try (specialize (Hst _ _ (or_introl eq_refl)); discriminate).
  - intros p d ks v [].
  - clear Heqcall.
    destruct (load_keys_items_spec _ _ _ _ _ _ e) as [_ Hs].
    pose proof (load_keys_items_outcome key_path items stack' keys) as Hi.
    rewrite e in Hi.
    assert (Hst' : forall p d, In (p, d) stack'' -> is_dict d = true).
    { intros p d Hin. apply Hs in Hin.
      destruct Hin as [Hin|(kk & v & Hin & Hd & E)].
      - apply (Hst p d). now right.
      - injection E as -> ->. exact Hd. }
    specialize (H Hst').
    destruct (load_keys_loop stack'' keys') as [l|err].
    + intros p d ks v [E|Hin] Hp Hv.
      * injection E as <- <-. apply path_to_inv in Hp.
        destruct Hp as [(kk & -> & Hin)|(kk & d' & ks' & -> & Hin & Hd & Hp)].
        -- now apply (Hi kk v).
        -- replace (key_path ++ kk :: ks')%list
             with ((key_path ++ [kk]) ++ ks')%list
             by (now rewrite <- app_assoc).
           apply (H _ d' ks' v); auto.
           apply Hs. right. exists kk, d'. auto.
      * apply (H p d ks v); auto. apply Hs. now left.
    + destruct H as (-> & p & d & ks & v & Hin & Hp & Hv & Hb).
      split; [reflexivity|]. apply Hs in Hin.
      destruct Hin as [Hin|(kk & d' & Hin & Hd & E)].
      * exists p, d, ks, v. repeat split; auto. now right.
      * injection E as -> ->.
        exists key_path, (VDict items), (kk :: ks), v.
        rewrite <- app_assoc in Hb.
        repeat split; auto; [now left | now apply path_step with d'].
  - clear Heqcall.
    pose proof (load_keys_items_outcome key_path items stack' keys) as Hi.
    match goal with
    | E : load_keys_items _ _ _ _ = Raise _ |- _ => rewrite E in Hi
    end.
    destruct Hi as (-> & kk & v & Hin & Hv & Hb).
    split; [reflexivity|].
    exists key_path, (VDict items), [kk], v.
    repeat split; auto; [now left | now apply path_last].
Qed.

End FlattenerFailure.

(** X22. How the flattener fails.  On a document that is not a mapping it
    raises [AttributeError].  On a mapping it raises [TypeError] exactly
    when some path to a value that is not a mapping goes through a key that
    counts as true and is not a [str]; otherwise it returns a list.  Keys
    that are [None] or count as false are left out of the dotted key and
    make no failure. *)
Theorem load_keys_data_failure (data : value) :
  (is_dict data = false -> load_keys_data data = Raise AttributeError)
  /\ (is_dict data = true ->
      (load_keys_data data = Raise TypeError
       /\ exists ks v, path_to data ks v /\ is_dict v = false
                       /\ existsb bad_key ks = true)
      \/ ((exists l, load_keys_data data = Ok l)
          /\ forall ks v, path_to data ks v -> is_dict v = false ->
                          existsb bad_key ks = false)).
Proof.
  split.
  - intros H. destruct data; try discriminate; reflexivity.
  - intros Hd. unfold load_keys_data.
    assert (Hst : forall (p : list pykey) d,
               In (p, d) [([], data)] -> is_dict d = true).
    { intros p d [E|[]]. now injection E as <- <-. }
    pose proof (load_keys_loop_outcome [([], data)] [] Hst) as H.
    destruct (load_keys_loop [([], data)] []) as [l|e]; simpl.
    + right. split; [eauto|]. intros ks v Hp Hv.
      apply (H [] data ks v); auto. now left.
    + left. destruct H as (-> & p & d & ks & v & [E|[]] & Hp & Hv & Hb).
      injection E as <- <-. split; [reflexivity|]. eauto.
Qed.

Lemma load_keys_data_failure_witness :
  load_keys_data (VStr "text") = Raise AttributeError
  /\ load_keys_data (VDict [(KStr "a", VDict [(KInt 1, VStr "x")])])
     = Raise TypeError
  /\ load_keys_data (VDict [(KStr "a", VDict [(KInt 0, VStr "x")])])
     = Ok ["a"].
Proof.
  split; [|split].
  - apply (proj1 (load_keys_data_failure (VStr "text"))). reflexivity.
  - destruct (proj2 (load_keys_data_failure
                       (VDict [(KStr "a", VDict [(KInt 1, VStr "x")])]))
                eq_refl) as [[H _]|[[l H] _]]; [exact H | discriminate H].
  - reflexivity.
Defined.

(** ** A render that returns *)

Section Returning.

Context {I : Interpreter}.

Variable lang_file : string.
Variable target : string.

Lemma ready_same_but (st st' : state) :
  ready lang_file st -> HTML_COPIED_FILE st = target ->
  same_but target st st' -> plain_at target st' -> ready lang_file st'.
Proof.
  intros (H1 & H2 & H3 & _) Ht (E1 & _ & _ & E4 & _) Hp. unfold ready.
  rewrite Ht in H3. rewrite E1, E4, Ht. auto.
Qed.

Lemma ready_plain (st : state) :
  ready lang_file st -> HTML_COPIED_FILE st = target -> plain_at target st.
Proof. intros (_ & _ & _ & H) <-. exact H. Qed.

Lemma plain_at_only_trace (st st' : state) :
  only_trace st st' -> plain_at target st -> plain_at target st'.
Proof.
  intros (_ & _ & _ & _ & E) H f. rewrite E. apply H.
Qed.

Lemma returns_at_bind {A B : Type} (m : M A) (k : A -> M B) (st : state) :
  ready lang_file st -> HTML_COPIED_FILE st = target ->
  returns_at target m st ->
  (forall a st1,
      m st = (Ok a, st1) -> ready lang_file st1 ->
      HTML_COPIED_FILE st1 = target -> returns_at target (k a) st1) ->
  returns_at target (bind m k) st.
Proof.
  intros Hr Ht ([a Ha] & Hs & Hp) Hk. unfold returns_at, bind.
  destruct (m st) as [[a'|e] st1] eqn:E; simpl in Ha; [|discriminate].
  simpl in Hs, Hp.
  assert (Ht1 : HTML_COPIED_FILE st1 = target).
  { destruct Hs as (_ & _ & _ & H & _). congruence. }
  destruct (Hk a' st1 eq_refl (ready_same_but _ _ Hr Ht Hs Hp) Ht1)
    as (Ho & Hs' & Hp').
  split; [exact Ho|]. split; [|exact Hp'].
  now apply same_but_trans with st1.
Qed.

(** A computation that returns and changes nothing but the trace. *)
Lemma returns_at_only_trace {A : Type} (m : M A) (st : state) :
  ready lang_file st -> HTML_COPIED_FILE st = target ->
  (exists a, fst (m st) = Ok a) -> only_trace st (snd (m st)) ->
  returns_at target m st.
Proof.
  intros Hr Ht Ha Ho. split; [exact Ha|].
  split; [now apply only_trace_same_but|].
  apply (plain_at_only_trace st); [exact Ho | now apply ready_plain].
Qed.

Lemma returns_at_for_each {A : Type} (l : list A) (body : A -> M unit) :
  (forall a st, ready lang_file st -> HTML_COPIED_FILE st = target ->
                returns_at target (body a) st) ->
  forall st, ready lang_file st -> HTML_COPIED_FILE st = target ->
             returns_at target (for_each l body) st.
Proof.
  intros Hb. induction l as [|a l IH]; intros st Hr Ht; simpl.
  - apply returns_at_only_trace; auto;
      [now exists tt | apply only_trace_refl].
  - apply returns_at_bind; auto.
Qed.

Lemma returns_at_pure {A : Type} (f : state -> A) (st : state) :
  ready lang_file st -> HTML_COPIED_FILE st = target ->
  returns_at target (fun st => (Ok (f st), st)) st.
Proof.
  intros Hr Ht. apply returns_at_only_trace; auto;
    [now exists (f st) | apply only_trace_refl].
Qed.

Lemma returns_at_print (line : string) (st : state) :
  ready lang_file st -> HTML_COPIED_FILE st = target ->
  returns_at target (print line) st.
Proof.
  intros Hr Ht. apply returns_at_only_trace; auto;
    [now exists tt | apply only_trace_log].
Qed.

Lemma returns_at_env_content (i : string) (st : state) :
  ready lang_file st -> HTML_COPIED_FILE st = target ->
  returns_at target (get_actual_env_content i VNone) st.
Proof.
  intros Hr Ht. pose proof Hr as (Hd & _).
  destruct (DATA_ENV (st_runtime st)) as [| | | | |d] eqn:E;
    try discriminate.
  apply returns_at_only_trace; auto;
    rewrite (get_actual_env_content_registry i VNone st d eq_refl E);
    destruct (get_actual_content_returns i (VDict d) ("env:" ++ i) st)
      as [H1 H2]; eauto.
Qed.

Lemma returns_at_i18n_content (i : string) (st : state) :
  ready lang_file st -> HTML_COPIED_FILE st = target ->
  returns_at target (get_actual_i18n_content i lang_file VNone) st.
Proof.
  intros Hr Ht. pose proof Hr as (_ & (d & keys & Hl & Hd & _) & _).
  destruct d as [| | | | |d]; try discriminate.
  apply returns_at_only_trace; auto;
    rewrite (get_actual_i18n_content_registry i lang_file VNone st d eq_refl
               Hl);
    destruct (get_actual_content_returns i (VDict d) ("i18n:" ++ i) st)
      as [H1 H2]; eauto.
Qed.

Lemma plain_at_write (content : string) (r w : bool) (st : state) :
  plain_at target
    (with_files (update (st_files st) target (mk_file content r w)) st).
Proof.
  intros f. cbn [st_files with_files]. rewrite lookup_update_same.
  intros E _. injection E as <-. now exists content.
Qed.

Lemma plain_at_log (ev : event) (st : state) :
  plain_at target st -> plain_at target (log_event ev st).
Proof. intros H f. exact (H f). Qed.

Lemma returns_at_replace (new_text old_text : string) (st : state) :
  ready lang_file st -> HTML_COPIED_FILE st = target ->
  returns_at target
    (path <- gets HTML_COPIED_FILE ;;
     replace_text_in_file path new_text old_text false) st.
Proof.
  intros Hr Ht. pose proof (ready_plain st Hr Ht) as Hp.
  pose proof Hr as (_ & _ & Hh & _). rewrite Ht in Hh.
  unfold returns_at.
  rewrite (bind_ok _ _ st st target) by (unfold gets; now rewrite Ht).
  destruct (lookup (st_files st) target) as [f|] eqn:Hf.
  - rewrite (replace_text_in_file_past_guard target new_text old_text false
               st f Hf) by (now rewrite Hh).
    destruct (f_readable f) eqn:Hrd; cbn [negb].
    + destruct (Hp f Hf Hrd) as [raw ->].
      destruct (Py.contains old_text (Py.universal_newlines raw));
        cbn [negb]; [destruct (f_writable f)|]; cbn [fst snd];
        (split; [now exists tt|]).
      * split.
        -- eapply same_but_trans; [apply same_but_log|].
           eapply same_but_trans; [apply same_but_write|].
           apply same_but_log.
        -- apply plain_at_log.
           apply (plain_at_write _ _ _ (log_event (FileRead target) st)).
      * split; [eapply same_but_trans; apply same_but_log|].
        now do 2 apply plain_at_log.
      * split; [apply same_but_log | now apply plain_at_log].
    + cbn [fst snd]. split; [now exists tt|].
      split; [apply same_but_log | now apply plain_at_log].
  - rewrite (replace_text_in_file_missing target new_text old_text false st
               Hf).
    cbn [fst snd]. split; [now exists tt|].
    split; [apply same_but_log | now apply plain_at_log].
Qed.

Lemma returns_at_main (st : state) :
  ready lang_file st -> HTML_COPIED_FILE st = target ->
  returns_at target (main lang_file) st.
Proof.
  intros Hr Ht. unfold main.
  apply returns_at_bind; auto.
  { now apply (returns_at_pure (fun st => DATA_ENV_KEYS (st_runtime st))). }
  intros env_keys s1 E Hr1 Ht1. clear E.
  apply returns_at_bind; auto.
  { apply returns_at_for_each; auto. intros i s Hs Hts.
    apply returns_at_bind; auto.
    { now apply (returns_at_pure (fun _ => "env:" ++ i)). }
    intros old_text s' _ Hs' Hts'.
    apply returns_at_bind; auto.
    { now apply returns_at_env_content. }
    intros new_text s'' _ Hs'' Hts''.
    now apply returns_at_replace. }
  intros [] s2 _ Hr2 Ht2.
  apply returns_at_bind; auto.
  { now apply returns_at_print. }
  intros [] s3 _ Hr3 Ht3.
  apply returns_at_bind; auto.
  { now apply (returns_at_pure
                 (fun st => DATA_I18N_TRKEYS (st_runtime st))). }
  intros trkeys s4 E Hr4 Ht4. unfold gets in E. injection E as <- <-.
  pose proof Hr3 as (_ & (d & keys & _ & _ & Hk) & _). rewrite Hk.
  apply returns_at_bind; auto.
  { now apply (returns_at_pure (fun _ => keys)). }
  intros i18n_keys s5 _ Hr5 Ht5.
  apply returns_at_bind; auto.
  { apply returns_at_for_each; auto. intros i s Hs Hts.
    apply returns_at_bind; auto.
    { now apply (returns_at_pure (fun _ => "i18n:" ++ i)). }
    intros old_text s' _ Hs' Hts'.
    apply returns_at_bind; auto.
    { now apply returns_at_i18n_content. }
    intros new_text s'' _ Hs'' Hts''.
    now apply returns_at_replace. }
  intros [] s6 _ Hr6 Ht6.
  now apply returns_at_print.
Qed.

End Returning.

(** X23. With a registry that holds a mapping for the environment and a
    mapping and a key list for the language, an output file whose suffix
    holds [html] and at whose path there stands nothing, something that
    cannot be opened for reading, or a text file, [main] returns: it
    neither exits nor raises, whatever the interpreter and whether or not
    the file can be written, and it changes at most that file and the
    trace. *)
Theorem main_returns_when_ready {I : Interpreter} (lang_file : string)
  (st : state) :
  ready lang_file st ->
  fst (main lang_file st) = Ok tt
  /\ same_but (HTML_COPIED_FILE st) st (snd (main lang_file st)).
Proof.
  intros Hr.
  destruct (returns_at_main lang_file (HTML_COPIED_FILE st) st Hr eq_refl)
    as ([[] Ho] & Hs & _).
  auto.
Qed.

Lemma main_returns_when_ready_witness :
  fst (@main example_interpreter "en.yml"
         (with_files
            [("index.html",
              mk_file "<p>i18n:greeting</p><b>env:foo</b>" true false)]
            ordering_example))
  = Ok tt.
Proof.
  apply (@main_returns_when_ready example_interpreter "en.yml"
           (with_files
              [("index.html",
                mk_file "<p>i18n:greeting</p><b>env:foo</b>" true false)]
              ordering_example)).
  split; [reflexivity|]. split; [|split; [reflexivity|]].
  - exists (VDict [(KStr "greeting", VStr "env:foo")]), ["greeting"].
    repeat split.
  - intros f E _. injection E as <-.
    now exists "<p>i18n:greeting</p><b>env:foo</b>".
Defined.

(** ** From loading to rendering *)

Lemma rfind_char_absent (c : ascii) (s : string) :
  has_char c s = false -> (Py.rfind_char c s < 0)%Z.
Proof.
  intros H. destruct (Z.ltb_spec (Py.rfind_char c s) 0) as [L|L];
    [exact L|].
  apply rfind_char_has_char in L. congruence.
Qed.

Lemma rfind_char_last (c : ascii) (s t : string) :
  has_char c t = false ->
  Py.rfind_char c (s ++ String c t) = Z.of_nat (String.length s).
Proof.
  intros H. apply rfind_char_absent in H.
  induction s as [|a s IH].
  - cbn [append Py.rfind_char String.length].
    destruct (Py.rfind_char c t <? 0)%Z eqn:E;
      [now rewrite Ascii.eqb_refl | apply Z.ltb_ge in E; lia].
  - cbn [append Py.rfind_char String.length]. rewrite IH.
    destruct (Z.of_nat (String.length s) <? 0)%Z eqn:E;
      [apply Z.ltb_lt in E|]; lia.
Qed.

(** The suffix of a name that ends in a dot and an extension. *)
Lemma path_suffix_ext (stem ext : string) :
  has_char "/" (stem ++ String "." ext) = false ->
  has_char "." ext = false ->
  Py.lstrip_by Py.is_dot stem <> "" ->
  path_suffix (stem ++ String "." ext) = String "." ext.
Proof.
  intros Hs He Hn. unfold path_suffix.
  rewrite (path_name_plain _ Hs). cbv zeta.
  rewrite (rfind_char_last "." stem ext He).
  destruct (Z.of_nat (String.length stem) <? 0)%Z eqn:E;
    [apply Z.ltb_lt in E; lia|].
  assert (Hst : Py.slice_to (stem ++ String "." ext)
                  (Z.of_nat (String.length stem)) = stem).
  { unfold Py.slice_to. rewrite E.
    rewrite length_app, Z.min_l, Nat2Z.id by lia.
    apply substring_app_length. }
  rewrite Hst. apply String.eqb_neq in Hn. rewrite Hn.
  rewrite Nat2Z.id. apply drop_app_length.
Qed.

Lemma load_keys_data_dict (data : value) (keys : list string) :
  load_keys_data data = Ok keys -> is_dict data = true.
Proof. destruct data; try reflexivity; discriminate. Qed.

(** What a copy that returns has done: the registry and the names stay,
    and the copy of a text file is a text file with the same text. *)
Lemma copy_file_inv {I : Interpreter} (source target : string)
  (st st' : state) :
  copy_file source target st = (Ok tt, st') ->
  st_runtime st' = st_runtime st
  /\ HTML_COPIED_FILE st' = HTML_COPIED_FILE st
  /\ forall f raw,
      lookup (st_files st) source = Some f -> f_content f = Text raw ->
      exists copy,
        lookup (st_files st') target = Some copy
        /\ f_content copy = Text raw.
Proof.
  unfold copy_file, set_files, emit, gets, modify, raise, bind.
  destruct (lookup (st_files st) source) as [f|]; [|discriminate].
  destruct (String.eqb source target); [discriminate|].
  destruct (f_content f) as [raw| |] eqn:Hc.
  - destruct (f_readable f); cbn [negb]; [|discriminate].
    destruct (lookup (st_files st) target) as [g|].
    + destruct (f_content g); try discriminate;
        (destruct (f_writable g); [|discriminate]);
        intros H; injection H as <-; repeat split;
        intros f0 raw0 E E0; injection E as <-;
        cbn [st_files log_event with_files];
        rewrite lookup_update_same; eexists; split; try reflexivity;
        cbn [f_content]; congruence.
    + intros H; injection H as <-; repeat split.
      intros f0 raw0 E E0; injection E as <-.
      cbn [st_files log_event with_files].
      rewrite lookup_update_same. eexists. split; [reflexivity|].
      cbn [f_content]. congruence.
  - destruct (f_readable f); cbn [negb]; [|discriminate].
    destruct (lookup (st_files st) target) as [g|].
    + destruct (f_content g); try discriminate;
        (destruct (f_writable g); [|discriminate]);
        intros H; injection H as <-; repeat split;
        intros f0 raw0 E E0; injection E as <-; congruence.
    + intros H; injection H as <-; repeat split.
      intros f0 raw0 E E0; injection E as <-. congruence.
  - destruct (copy_tree source target (st_files st)) as [[[]|e] fs'];
      [|discriminate].
    intros H; injection H as <-; repeat split.
    intros f0 raw0 E E0; injection E as <-. congruence.
Qed.

(** What [on_user_input] has done when it returns. *)
Lemma on_user_input_inv {I : Interpreter} (user_input out : string)
  (st st' : state) :
  on_user_input user_input st = (Ok out, st') ->
  out = user_input
  /\ In user_input (LANG_LIST st)
  /\ st_runtime st' = st_runtime st
  /\ HTML_COPIED_FILE st'
     = Py.replace "template" (get_string_removed_dot_and_after user_input)
         HTML_TEMPLATE_FILE_NAME
  /\ forall f raw,
      lookup (st_files st) HTML_TEMPLATE_FILE = Some f ->
      f_content f = Text raw ->
      exists copy,
        lookup (st_files st') (HTML_COPIED_FILE st') = Some copy
        /\ f_content copy = Text raw.
Proof.
  remember (Py.replace "template"
              (get_string_removed_dot_and_after user_input)
              HTML_TEMPLATE_FILE_NAME) as name eqn:Ename.
  unfold on_user_input. rewrite <- Ename. intros H.
  apply bind_inv in H. destruct H as (langs & s1 & H1 & H).
  unfold gets in H1. injection H1 as <- <-.
  apply bind_inv in H. destruct H as ([] & s2 & H2 & H).
  destruct (existsb (String.eqb user_input) (LANG_LIST st)) eqn:Ex;
    cbn [negb] in H2; [|discriminate H2].
  apply existsb_eqb_In in Ex. unfold ret in H2. injection H2 as <-.
  apply bind_inv in H. destruct H as ([] & s3 & H3 & H).
  unfold print, emit, modify in H3. injection H3 as <-.
  apply bind_inv in H. destruct H as ([] & s4 & H4 & H).
  unfold set_copied_file, modify in H4. injection H4 as <-.
  apply bind_inv in H. destruct H as (n & s5 & H5 & H).
  unfold gets in H5. injection H5 as <- <-.
  apply bind_inv in H. destruct H as (present & s6 & H6 & H).
  unfold path_exists, gets in H6. injection H6 as <- <-.
  apply bind_inv in H. destruct H as ([] & s7 & H7 & H).
  assert (Hs7 : st_runtime s7 = st_runtime st
                /\ HTML_COPIED_FILE s7 = name
                /\ st_files s7 = st_files st).
  { revert H7. cbn [HTML_COPIED_FILE_NAME st_files log_event].
    destruct (lookup (st_files st) name);
      unfold print, emit, modify, ret; intros H7; injection H7 as <-;
      repeat split. }
  destruct Hs7 as (R7 & T7 & F7). clear H7.
  apply bind_inv in H. destruct H as (tgt & s8 & H8 & H).
  unfold gets in H8. injection H8 as <- <-.
  apply bind_inv in H. destruct H as ([] & s9 & H9 & H).
  unfold ret in H. injection H as <- <-.
  apply copy_file_inv in H9. destruct H9 as (R9 & T9 & C9).
  rewrite T7 in *.
  split; [reflexivity|]. split; [exact Ex|].
  split; [congruence|]. split; [congruence|].
  intros f raw Hf Hc. rewrite T9. apply (C9 f raw); [|exact Hc].
  now rewrite F7.
Qed.

Lemma output_name_suffix (user_input : string) :
  has_char "/" user_input = false -> has_char "." user_input = true ->
  path_suffix
    (Py.replace "template" (get_string_removed_dot_and_after user_input)
       HTML_TEMPLATE_FILE_NAME)
  = ".html".
Proof.
  intros Hs Hd.
  destruct (split_at_first_dot user_input Hd) as (pre & rest & -> & Hpre).
  rewrite (get_string_removed_dot_and_after_spec pre rest Hpre).
  rewrite has_char_app in Hs. apply orb_false_iff in Hs.
  destruct Hs as [Hs _].
  change (Py.replace "template" pre HTML_TEMPLATE_FILE_NAME)
    with (("index." ++ pre) ++ String "." "html").
  apply path_suffix_ext.
  - rewrite !has_char_app, Hs. reflexivity.
  - reflexivity.
  - discriminate.
Qed.

(** X24. From loading to rendering: when the template is a text file,
    [on_load] has returned and [on_user_input] has then accepted a
    language, the output file is named with the suffix [.html] and holds the
    text of the template, and [main] for that language returns; it neither
    raises nor exits. *)
Theorem loaded_pipeline_renders {I : Interpreter}
  (yaml_load : string -> result value) (st0 st1 st2 : state)
  (user_input lang_file : string) (template : file) (raw : string) :
  lookup (st_files st0) HTML_TEMPLATE_FILE = Some template ->
  f_content template = Text raw ->
  on_load yaml_load st0 = (Ok tt, st1) ->
  on_user_input user_input st1 = (Ok lang_file, st2) ->
  lang_file = user_input
  /\ path_suffix (HTML_COPIED_FILE st2) = ".html"
  /\ (exists copy,
        lookup (st_files st2) (HTML_COPIED_FILE st2) = Some copy
        /\ f_content copy = Text raw)
  /\ fst (main lang_file st2) = Ok tt.
Proof.
  intros Htpl Hraw Hload Hin.
  apply on_user_input_inv in Hin.
  destruct Hin as (-> & Hin & Hrt & Hname & Hcopy).
  destruct (on_load_leaves_registry yaml_load st0 st1 Hload) as [Henv Hreg].
  destruct (Hreg user_input Hin) as (d & keys & Hd & Hk & Hflat).
  pose proof (on_load_keeps yaml_load st0) as [HL HF].
  rewrite Hload in HL, HF. simpl in HL, HF. rewrite HL in Hin.
  pose proof (languages_of_has_dot _ _ _ Hin) as Hdot.
  apply languages_of_spec in Hin. destruct Hin as (_ & Hslash & _).
  pose proof (output_name_suffix user_input Hslash Hdot) as Hsuffix.
  rewrite <- Hname in Hsuffix.
  rewrite <- HF in Htpl.
  destruct (Hcopy template raw Htpl Hraw) as (copy & Hc1 & Hc2).
  split; [reflexivity|]. split; [exact Hsuffix|].
  split; [now exists copy|].
  assert (Hr : ready user_input st2).
  { unfold ready. rewrite Hrt, Hsuffix. split; [|split; [|split]].
    - exact (load_keys_data_dict _ _ Henv).
    - exists d, keys. repeat split; auto.
      exact (load_keys_data_dict _ _ Hflat).
    - reflexivity.
    - intros f Hf _. rewrite Hc1 in Hf. injection Hf as <-. now exists raw. }
  destruct (returns_at_main user_input (HTML_COPIED_FILE st2) st2 Hr eq_refl)
    as ([[] Ho] & _).
  exact Ho.
Qed.

Lemma loaded_pipeline_renders_witness :
  fst (@main example_interpreter "en.yml"
         (snd (@on_user_input example_interpreter "en.yml"
                 (snd (on_load (fun _ => Ok scenario_A)
                         (with_files
                            [("lang/en.yml", mk_file "a: {b: X}" true true);
                             ("env.yml", mk_file "a: {b: X}" true true);
                             ("index.template.html",
                              mk_file "<p>i18n:a.b</p>" true true)]
                            ordering_example))))))
  = Ok tt.
Proof.
  refine (proj2 (proj2 (proj2
            (@loaded_pipeline_renders example_interpreter
               (fun _ => Ok scenario_A)
               (with_files
                  [("lang/en.yml", mk_file "a: {b: X}" true true);
                   ("env.yml", mk_file "a: {b: X}" true true);
                   ("index.template.html",
                    mk_file "<p>i18n:a.b</p>" true true)]
                  ordering_example)
               _ _ "en.yml" "en.yml"
               (mk_file "<p>i18n:a.b</p>" true true) "<p>i18n:a.b</p>"
               eq_refl eq_refl _ _)))).
  - vm_compute. reflexivity.
  - vm_compute. reflexivity.
Defined.

(** ** The trace of loading *)

Section LoadingTrace.

Variable yaml_load : string -> result value.

Lemma on_load_body_trace (i : string) (st st' : state) :
  (print ("- " ++ i) ;;
   data <- load_data yaml_load (LANG_FOLDER ++ "/" ++ i) ;;
   rt <- gets st_runtime ;;
   set_runtime (mk_runtime (DATA_ENV rt) (DATA_ENV_KEYS rt)
                  (update (DATA_I18N rt) i data) (DATA_I18N_TRKEYS rt)) ;;
   keys <- load_keys yaml_load (LANG_FOLDER ++ "/" ++ i) ;;
   rt <- gets st_runtime ;;
   set_runtime (mk_runtime (DATA_ENV rt) (DATA_ENV_KEYS rt)
                  (DATA_I18N rt) (update (DATA_I18N_TRKEYS rt) i keys)))
    st = (Ok tt, st') ->
  st_log st'
  = (st_log st
     ++ [Printed ("- " ++ i); FileRead (LANG_FOLDER ++ "/" ++ i);
         FileRead (LANG_FOLDER ++ "/" ++ i)])%list.
Proof.
  intros H.
  apply bind_inv in H. destruct H as ([] & s1 & H1 & H).
  unfold print, emit, modify in H1. injection H1 as <-.
  apply bind_inv in H. destruct H as (data & s2 & Hd & H).
  apply bind_inv in H. destruct H as (rt & s3 & Hg & H).
  unfold gets in Hg. injection Hg as <- <-.
  apply bind_inv in H. destruct H as ([] & s4 & Hs & H).
  unfold set_runtime, modify in Hs. injection Hs as <-.
  apply bind_inv in H. destruct H as (keys & s5 & Hk & H).
  apply bind_inv in H. destruct H as (rt' & s6 & Hg & H).
  unfold gets in Hg. injection Hg as <- <-.
  unfold set_runtime, modify in H. injection H as <-.
  apply load_data_inv in Hd. destruct Hd as (-> & _).
  apply load_keys_inv in Hk. destruct Hk as (-> & _).
  simpl. now rewrite <- !app_assoc.
Qed.

Lemma on_load_loop_trace (langs : list string) :
  forall st st',
    for_each langs (fun i =>
      print ("- " ++ i) ;;
      data <- load_data yaml_load (LANG_FOLDER ++ "/" ++ i) ;;
      rt <- gets st_runtime ;;
      set_runtime (mk_runtime (DATA_ENV rt) (DATA_ENV_KEYS rt)
                     (update (DATA_I18N rt) i data) (DATA_I18N_TRKEYS rt)) ;;
      keys <- load_keys yaml_load (LANG_FOLDER ++ "/" ++ i) ;;
      rt <- gets st_runtime ;;
      set_runtime (mk_runtime (DATA_ENV rt) (DATA_ENV_KEYS rt)
                     (DATA_I18N rt) (update (DATA_I18N_TRKEYS rt) i keys)))
      st = (Ok tt, st') ->
    st_log st'
    = (st_log st
       ++ flat_map
            (fun i => [Printed ("- " ++ i);
                       FileRead (LANG_FOLDER ++ "/" ++ i);
                       FileRead (LANG_FOLDER ++ "/" ++ i)])
            langs)%list.
Proof.
  induction langs as [|i langs IH]; intros st st' H.
  - simpl in H. unfold ret in H. injection H as <-.
    simpl. now rewrite app_nil_r.
  - cbn [for_each] in H.
    apply bind_inv in H. destruct H as ([] & s1 & Hb & H).
    rewrite (IH _ _ H), (on_load_body_trace _ _ _ Hb).
    cbn [flat_map]. now rewrite <- app_assoc.
Qed.

Lemma on_load_env_trace (st st' : state) :
  (data <- load_data yaml_load ENV_CFG ;;
   rt <- gets st_runtime ;;
   set_runtime (mk_runtime data (DATA_ENV_KEYS rt)
                  (DATA_I18N rt) (DATA_I18N_TRKEYS rt)) ;;
   keys <- load_keys yaml_load ENV_CFG ;;
   rt <- gets st_runtime ;;
   set_runtime (mk_runtime (DATA_ENV rt) keys
                  (DATA_I18N rt) (DATA_I18N_TRKEYS rt)) ;;
   print "Loaded actual texts.") st = (Ok tt, st') ->
  (exists f, lookup (st_files st) ENV_CFG = Some f)
  /\ st_log st'
     = (st_log st
        ++ [FileRead ENV_CFG; FileRead ENV_CFG;
            Printed "Loaded actual texts."])%list.
Proof.
  intros H.
  apply bind_inv in H. destruct H as (data & s2 & Hd & H).
  apply bind_inv in H. destruct H as (rt & s3 & Hg & H).
  unfold gets in Hg. injection Hg as <- <-.
  apply bind_inv in H. destruct H as ([] & s4 & Hs & H).
  unfold set_runtime, modify in Hs. injection Hs as <-.
  apply bind_inv in H. destruct H as (keys & s5 & Hk & H).
  apply bind_inv in H. destruct H as (rt' & s6 & Hg & H).
  unfold gets in Hg. injection Hg as <- <-.
  apply bind_inv in H. destruct H as ([] & s7 & Hs & H).
  unfold set_runtime, modify in Hs. injection Hs as <-.
  unfold print, emit, modify in H. injection H as <-.
  apply load_data_inv in Hd. destruct Hd as (-> & _ & f & text & Hf & _).
  apply load_keys_inv in Hk. destruct Hk as (-> & _).
  split; [eauto|]. simpl. now rewrite <- !app_assoc.
Qed.

End LoadingTrace.

(** X25. The trace of a run of [on_load] that returns: the two opening
    lines, the first reporting [env.yml] as present; then for each language
    of the list, in order, its line and two readings of its file, one by
    [load_data] and one by [load_keys]; then two readings of [env.yml] and
    the closing line.  Nothing is written. *)
Theorem on_load_trace (yaml_load : string -> result value)
  (st st' : state) :
  on_load yaml_load st = (Ok tt, st') ->
  st_log st'
  = (st_log st
     ++ [Printed "Checking env config: ok.";
         Printed "Detecting supported language files..."]
     ++ flat_map
          (fun i => [Printed ("- " ++ i);
                     FileRead (LANG_FOLDER ++ "/" ++ i);
                     FileRead (LANG_FOLDER ++ "/" ++ i)])
          (LANG_LIST st')
     ++ [FileRead ENV_CFG; FileRead ENV_CFG;
         Printed "Loaded actual texts."])%list.
Proof.
  intros H.
  pose proof (on_load_keeps yaml_load st) as [HL' _]. rewrite H in HL'.
  simpl in HL'.
  destruct (on_load_from yaml_load st) as (s & E & HL & HF & _ & Hlog).
  rewrite E in H.
  apply bind_inv in H. destruct H as ([] & s1 & Hloop & H).
  pose proof (keeps_language_loop yaml_load (LANG_LIST s) s) as [_ Hfiles].
  rewrite Hloop in Hfiles. simpl in Hfiles.
  apply on_load_env_trace in H. destruct H as ([f Hf] & ->).
  rewrite Hfiles, HF in Hf. rewrite Hf in Hlog.
  rewrite (on_load_loop_trace _ _ _ _ Hloop), Hlog, HL', <- HL.
  now rewrite <- !app_assoc.
Qed.

Lemma on_load_trace_witness :
  st_log
    (snd (on_load (fun _ => Ok scenario_A)
            (with_files
               [("lang/en.yml", mk_file "a: {b: X}" true true);
                ("env.yml", mk_file "a: {b: X}" true true)]
               ordering_example)))
  = [Printed "Checking env config: ok.";
     Printed "Detecting supported language files...";
     Printed "- en.yml"; FileRead "lang/en.yml"; FileRead "lang/en.yml";
     FileRead "env.yml"; FileRead "env.yml"; Printed "Loaded actual texts."].
Proof.
  rewrite (on_load_trace (fun _ => Ok scenario_A)
             (with_files
                [("lang/en.yml", mk_file "a: {b: X}" true true);
                 ("env.yml", mk_file "a: {b: X}" true true)]
                ordering_example)
             (snd (on_load (fun _ => Ok scenario_A)
                     (with_files
                        [("lang/en.yml", mk_file "a: {b: X}" true true);
                         ("env.yml", mk_file "a: {b: X}" true true)]
                        ordering_example)))).
  - vm_compute. reflexivity.
  - vm_compute. reflexivity.
Defined.
